(** * Airlines demo: booking workflow and validation engine

    A shallow embedding of [src/lib/validation.ts] and of the stateful part
    of [src/components/BookingFlow.tsx], with the properties of the
    repository's specification stated over it.

    Conventions.
    - A JavaScript string is the list of its UTF-16 code units.
    - A value that the source only ever uses as a condition ([a && b && c],
      [if (x)], [disabled={!x}]) is embedded as the boolean of its
      truthiness: a string is truthy exactly when it is not empty.
    - [React.useState] cells are the fields of one record; a handler is a
      function from the state of the render that created it to the state of
      the next render. *)

From Stdlib Require Import ZArith NArith QArith String Ascii Bool Lia.
From Stdlib Require Import DecimalString.
From Stdlib Require DecimalNat DecimalFacts.
From stdpp Require Import base list.

(** ** JavaScript strings *)

Module Js.

Local Open Scope N_scope.

Definition str : Type := list N.

(** A string literal of the source. *)
Definition lit (s : string) : str :=
  map N_of_ascii (list_ascii_of_string s).

(** Truthiness of a string: [""] is the only falsy one. *)
Definition truthy (s : str) : bool :=
  match s with [] => false | _ :: _ => true end.

Definition str_eqb (a b : str) : bool := bool_decide (a = b).

(** ECMAScript WhiteSpace and LineTerminator code points: what [\s] matches
    and what [String.prototype.trim] strips. *)
Definition isWhite (c : N) : bool :=
  ((9 <=? c) && (c <=? 13))
  || (c =? 32) || (c =? 160) || (c =? 5760)
  || ((8192 <=? c) && (c <=? 8202))
  || (c =? 8232) || (c =? 8233) || (c =? 8239) || (c =? 8287)
  || (c =? 12288) || (c =? 65279).

(** [\d], [\D] *)
Definition isDigit (c : N) : bool := (48 <=? c) && (c <=? 57).
(** [[A-Z]] *)
Definition isUpper (c : N) : bool := (65 <=? c) && (c <=? 90).
(** [[a-z]] *)
Definition isLower (c : N) : bool := (97 <=? c) && (c <=? 122).

Fixpoint trimStart (s : str) : str :=
  match s with
  | [] => []
  | c :: s' => if isWhite c then trimStart s' else s
  end.

Definition trimEnd (s : str) : str := rev (trimStart (rev s)).

(** [s.trim()] *)
Definition trim (s : str) : str := trimEnd (trimStart s).

(** [s.replace(/\s/g, '')] *)
Definition stripWhite (s : str) : str :=
  filter (fun c => isWhite c = false) s.

(** [s.substr(start, len)] for non-negative integer arguments. *)
Definition substr (start len : nat) (s : str) : str :=
  take len (drop start s).

(** [s.toUpperCase()] on the Basic Latin letters; the program applies it to
    base-36 numerals only. *)
Definition toUpperCase (s : str) : str :=
  map (fun c => if isLower c then c - 32 else c) s.

(** [s.split(sep)[0]] for a one-unit separator: the part before the first
    occurrence of [sep], the whole string when there is none. *)
Fixpoint splitHead (sep : N) (s : str) : str :=
  match s with
  | [] => []
  | c :: s' => if c =? sep then [] else c :: splitHead sep s'
  end.

(** Decimal rendering of a non-negative integer, as in a template literal. *)
Definition ofNat (n : nat) : str :=
  lit (NilZero.string_of_uint (Nat.to_uint n)).

(** A blank string: empty once trimmed. *)
Definition blank (s : str) : bool := negb (truthy (trim s)).

End Js.

Arguments Js.lit s%_string.

(** ** Regular expressions

    The patterns of [validationSchemas] are all of the shape [^...$] with no
    flag, no group reference and no look-around, so [RegExp.prototype.test]
    decides membership of the whole string in a regular language.  [test]
    below decides it by derivatives; [Matches] is the language. *)

Module Re.

Inductive regex : Type :=
| Never
| Empty
| Class (p : N -> bool)
| Seq (r1 r2 : regex)
| Or (r1 r2 : regex)
| Star (r : regex).

Fixpoint nullable (r : regex) : bool :=
  match r with
  | Never => false
  | Empty => true
  | Class _ => false
  | Seq r1 r2 => nullable r1 && nullable r2
  | Or r1 r2 => nullable r1 || nullable r2
  | Star _ => true
  end.

Fixpoint deriv (c : N) (r : regex) : regex :=
  match r with
  | Never => Never
  | Empty => Never
  | Class p => if p c then Empty else Never
  | Seq r1 r2 =>
      if nullable r1 then Or (Seq (deriv c r1) r2) (deriv c r2)
      else Seq (deriv c r1) r2
  | Or r1 r2 => Or (deriv c r1) (deriv c r2)
  | Star r1 => Seq (deriv c r1) (Star r1)
  end.

Fixpoint test (r : regex) (s : Js.str) : bool :=
  match s with
  | [] => nullable r
  | c :: s' => test (deriv c r) s'
  end.

Inductive Matches : regex -> Js.str -> Prop :=
| MEmpty : Matches Empty []
| MClass p c : p c = true -> Matches (Class p) [c]
| MSeq r1 r2 s1 s2 : Matches r1 s1 -> Matches r2 s2 -> Matches (Seq r1 r2) (s1 ++ s2)
| MOrL r1 r2 s : Matches r1 s -> Matches (Or r1 r2) s
| MOrR r1 r2 s : Matches r2 s -> Matches (Or r1 r2) s
| MStarNil r : Matches (Star r) []
| MStarCons r s1 s2 : Matches r s1 -> Matches (Star r) s2 -> Matches (Star r) (s1 ++ s2).

(** [r{n}] *)
Fixpoint times (n : nat) (r : regex) : regex :=
  match n with
  | O => Empty
  | S n' => Seq r (times n' r)
  end.

(** [r?] *)
Definition opt (r : regex) : regex := Or Empty r.

(** [r{0,k}] *)
Fixpoint upto (k : nat) (r : regex) : regex :=
  match k with
  | O => Empty
  | S k' => opt (Seq r (upto k' r))
  end.

(** [r{n,m}] *)
Definition between (n m : nat) (r : regex) : regex :=
  Seq (times n r) (upto (m - n) r).

(** [r{n,}] *)
Definition atLeast (n : nat) (r : regex) : regex := Seq (times n r) (Star r).

(** [r+] *)
Definition plus (r : regex) : regex := atLeast 1 r.

(** A literal character. *)
Definition chr (a : ascii) : regex := Class (N.eqb (N_of_ascii a)).

End Re.

(** ** JavaScript numbers

    Only comparisons are made on numbers here, so a number is NaN, an
    infinity or a rational (every finite double is one). *)

Module Num.

Inductive t : Type :=
| NaN
| NegInfinity
| Finite (q : Q)
| Infinity.

Definition isNaN (x : t) : bool :=
  match x with NaN => true | _ => false end.

(** [a <= b]; any comparison with NaN is false. *)
Definition leb (a b : t) : bool :=
  match a, b with
  | NaN, _ | _, NaN => false
  | NegInfinity, _ => true
  | _, Infinity => true
  | Finite p, Finite q => Qle_bool p q
  | Finite _, NegInfinity => false
  | Infinity, _ => false
  end.

(** [a >= b] *)
Definition geb (a b : t) : bool := leb b a.

Definition ofZ (z : Z) : t := Finite (inject_Z z).

End Num.

(** ** Dates

    A [Date] is its time value: milliseconds since the epoch, or nothing
    for an invalid date (time value NaN).  The environment of a run is the
    clock, the time zone (the offset of local time at each instant, which
    changes where daylight saving is kept), and the implementation-defined
    parts of the engine. *)

Record Env : Type := {
  (** [Date.now()], milliseconds since 1970-01-01T00:00:00Z *)
  now : Z;
  (** LocalTZA(t, isUTC) of ECMAScript: local time minus UTC, in
      milliseconds, in force at the time value [t], which is read as a UTC
      time value when [isUTC] is true and as a local one when it is false *)
  localTZA : Z -> bool -> Z;
  (** whether a day of month up to 31 is accepted in every month and carried
      into the next one (V8), or must exist in its month *)
  lenientDays : bool;
  (** the engine's own reading of a string that the date-only form
      YYYY-MM-DD does not cover: one of another form, or one whose month or
      day that form does not allow (V8 reads such a string again with its
      legacy parser) *)
  parseOther : Js.str -> option Z;
  (** [toLocaleTimeString('en-US', {hour: '2-digit', minute: '2-digit', hour12: false})] *)
  localeTime : option Z -> Js.str;
  (** [String(x)] of a number or of [undefined], as in a template literal *)
  showNumber : option Num.t -> Js.str
}.

Module Date.

Local Open Scope Z_scope.

Definition msPerDay : Z := 86400000.

(** Day number (days since the epoch) of a date of the proleptic Gregorian
    calendar, month in 1..12. *)
Definition daysFromCivil (y m d : Z) : Z :=
  let y' := if m <=? 2 then y - 1 else y in
  let era := y' / 400 in
  let yoe := y' - era * 400 in
  let mp := (m + 9) mod 12 in
  let doy := (153 * mp + 2) / 5 + d - 1 in
  let doe := yoe * 365 + yoe / 4 - yoe / 100 + doy in
  era * 146097 + doe - 719468.

(** Year, month and day of a day number. *)
Definition civilFromDays (z : Z) : Z * Z * Z :=
  let z' := z + 719468 in
  let era := z' / 146097 in
  let doe := z' - era * 146097 in
  let yoe := (doe - doe / 1460 + doe / 36524 - doe / 146096) / 365 in
  let doy := doe - (365 * yoe + yoe / 4 - yoe / 100) in
  let mp := (5 * doy + 2) / 153 in
  let d := doy - (153 * mp + 2) / 5 + 1 in
  let m := if mp <? 10 then mp + 3 else mp - 9 in
  let y := yoe + era * 400 in
  (if m <=? 2 then y + 1 else y, m, d).

Definition isLeap (y : Z) : bool :=
  ((y mod 4 =? 0) && negb (y mod 100 =? 0)) || (y mod 400 =? 0).

Definition daysInMonth (y m : Z) : Z :=
  if m =? 2 then (if isLeap y then 29 else 28)
  else if (m =? 4) || (m =? 6) || (m =? 9) || (m =? 11) then 30
  else 31.

(** Value of a run of decimal digits. *)
Definition digitsValue (s : Js.str) : Z :=
  fold_left (fun acc c => 10 * acc + (Z.of_N c - 48)) s 0.

(** The fields of a string of the form YYYY-MM-DD. *)
Definition dateOnlyFields (s : Js.str) : option (Z * Z * Z) :=
  match s with
  | [y1; y2; y3; y4; h1; m1; m2; h2; d1; d2] =>
      if forallb Js.isDigit [y1; y2; y3; y4; m1; m2; d1; d2]
         && (h1 =? 45)%N && (h2 =? 45)%N
      then Some (digitsValue [y1; y2; y3; y4], digitsValue [m1; m2], digitsValue [d1; d2])
      else None
  | _ => None
  end.

(** Time value of the date-only form: midnight UTC of that day. *)
Definition dateOnlyTime (e : Env) (y m d : Z) : option Z :=
  if (1 <=? m) && (m <=? 12) && (1 <=? d)
     && (d <=? (if lenientDays e then 31 else daysInMonth y m))
  then Some ((daysFromCivil y m 1 + d - 1) * msPerDay)
  else None.

(** [new Date(s).getTime()], NaN as [None]: the date-only form where it
    applies, the engine's other reading of the string where it does not. *)
Definition parse (e : Env) (s : Js.str) : option Z :=
  match dateOnlyFields s with
  | Some (y, m, d) =>
      match dateOnlyTime e y m d with
      | Some t => Some t
      | None => parseOther e s
      end
  | None => parseOther e s
  end.

(** LocalTime(t) *)
Definition localTime (e : Env) (t : Z) : Z := t + localTZA e t true.

(** UTC(t), of a local time value *)
Definition utcTime (e : Env) (t : Z) : Z := t - localTZA e t false.

(** [d.getFullYear()] of a valid date *)
Definition getFullYear (e : Env) (t : Z) : Z :=
  let '(y, _, _) := civilFromDays (localTime e t / msPerDay) in y.

(** The local calendar date of a time value. *)
Definition localDate (e : Env) (t : Z) : Z * Z * Z :=
  civilFromDays (localTime e t / msPerDay).

(** [d.setHours(0, 0, 0, 0)]: the start of the local day of [t], that is
    UTC(MakeDate(Day(LocalTime(t)), 0)). *)
Definition startOfLocalDay (e : Env) (t : Z) : Z :=
  utcTime e ((localTime e t / msPerDay) * msPerDay).

End Date.

(** ** The validation engine: [src/lib/validation.ts] *)

(** [ValidationResult]; none of the validators embedded here sets the
    optional [warnings]. *)
Record ValidationResult : Type := {
  isValid : bool;
  errors : list Js.str
}.

Module validationSchemas.

Import Re.
Local Open Scope N_scope.

Record schema : Type := { pattern : regex; message : Js.str }.

(** [/^[A-Z]{3}$/] *)
Definition airportCode : schema := {|
  pattern := times 3 (Class Js.isUpper);
  message := Js.lit "Airport code must be a 3-letter IATA code (e.g., JFK, LAX)" |}.

(** [/^[A-Z]{2}\d{1,4}$/] *)
Definition flightNumber : schema := {|
  pattern := Seq (times 2 (Class Js.isUpper)) (between 1 4 (Class Js.isDigit));
  message := Js.lit "Flight number must be airline code followed by 1-4 digits (e.g., AA123)" |}.

(** [/^\d{4}-\d{2}-\d{2}$/] *)
Definition date : schema := {|
  pattern :=
    Seq (times 4 (Class Js.isDigit))
      (Seq (chr "-") (Seq (times 2 (Class Js.isDigit))
        (Seq (chr "-") (times 2 (Class Js.isDigit)))));
  message := Js.lit "Date must be in YYYY-MM-DD format" |}.

(** [[^\s@]] *)
Definition notSpaceNorAt (c : N) : bool :=
  negb (Js.isWhite c || (c =? 64)).

(** [/^[^\s@]+@[^\s@]+\.[^\s@]+$/] *)
Definition email : schema := {|
  pattern :=
    Seq (plus (Class notSpaceNorAt))
      (Seq (chr "@") (Seq (plus (Class notSpaceNorAt))
        (Seq (chr ".") (plus (Class notSpaceNorAt)))));
  message := Js.lit "Please enter a valid email address" |}.

(** [[\d\s\-()]] *)
Definition phoneChar (c : N) : bool :=
  Js.isDigit c || Js.isWhite c || (c =? 45) || (c =? 40) || (c =? 41).

(** [/^\+?[\d\s\-()]{10,}$/] *)
Definition phone : schema := {|
  pattern := Seq (opt (chr "+")) (atLeast 10 (Class phoneChar));
  message := Js.lit "Please enter a valid phone number" |}.

Definition passengers_min : Num.t := Num.ofZ 1.
Definition passengers_max : Num.t := Num.ofZ 9.
Definition passengers_message : Js.str :=
  Js.lit "Passenger count must be between 1 and 9".

Definition price_min : Num.t := Num.ofZ 0.
Definition price_message : Js.str := Js.lit "Price must be a positive number".

End validationSchemas.

Module validators.

(** [required(value)]; [None] is [null] or [undefined]. *)
Definition required (value : option Js.str) : ValidationResult :=
  let ok := match value with
            | None => false
            | Some s => negb (Js.str_eqb (Js.trim s) [])
            end in
  {| isValid := ok;
     errors := if ok then [] else [Js.lit "This field is required"] |}.

(** [pattern(value, pattern, message)] *)
Definition pattern (value : Js.str) (p : Re.regex) (message : Js.str)
  : ValidationResult :=
  let ok := Re.test p value in
  {| isValid := ok; errors := if ok then [] else [message] |}.

(** [range(value, min, max, message)]; an omitted bound or message is
    [None], and an empty message is falsy like an omitted one. *)
Definition range (e : Env) (value : Num.t) (min max : option Num.t)
    (message : option Js.str) : ValidationResult :=
  let ok :=
    negb (Num.isNaN value)
    && match min with None => true | Some lo => Num.geb value lo end
    && match max with None => true | Some hi => Num.leb value hi end in
  let text :=
    match message with
    | Some (c :: m) => c :: m
    | _ => Js.lit "Value must be between " ++ showNumber e min
           ++ Js.lit " and " ++ showNumber e max
    end in
  {| isValid := ok; errors := if ok then [] else [text] |}.

(** [date(value)] *)
Definition date (e : Env) (value : Js.str) : ValidationResult :=
  let patternResult :=
    pattern value (validationSchemas.pattern validationSchemas.date)
      (validationSchemas.message validationSchemas.date) in
  if negb (isValid patternResult) then patternResult
  else
    let isValidDate := match Date.parse e value with Some _ => true | None => false end in
    {| isValid := isValidDate;
       errors := if isValidDate then [] else [Js.lit "Please enter a valid date"] |}.

(** [futureDate(value)]: [inputDate >= today] compares the two time values. *)
Definition futureDate (e : Env) (value : Js.str) : ValidationResult :=
  let dateResult := date e value in
  if negb (isValid dateResult) then dateResult
  else
    let inputDate := Date.parse e value in
    let today := Date.startOfLocalDay e (now e) in
    let isFuture := match inputDate with
                    | Some t => (today <=? t)%Z
                    | None => false
                    end in
    {| isValid := isFuture;
       errors := if isFuture then [] else [Js.lit "Please select a future date"] |}.

(** [returnDate(value, departureDate)] *)
Definition returnDate (e : Env) (value departureDate : Js.str) : ValidationResult :=
  let dateResult := date e value in
  if negb (isValid dateResult) then dateResult
  else
    let isAfterDeparture :=
      match Date.parse e value, Date.parse e departureDate with
      | Some r, Some d => (d <? r)%Z
      | _, _ => false
      end in
    {| isValid := isAfterDeparture;
       errors := if isAfterDeparture then []
                 else [Js.lit "Return date must be after departure date"] |}.

End validators.

Module airlinesValidators.

Record SearchData : Type := {
  sr_from : Js.str;
  sr_to : Js.str;
  sr_departure : Js.str;
  sr_return : option Js.str;
  sr_passengers : Num.t
}.

(** [searchRequest(data)] *)
Definition searchRequest (e : Env) (data : SearchData) : ValidationResult :=
  let airport := validationSchemas.airportCode in
  let errs :=
    errors (validators.pattern (sr_from data) (validationSchemas.pattern airport)
              (Js.lit "Origin: " ++ validationSchemas.message airport))
    ++ errors (validators.pattern (sr_to data) (validationSchemas.pattern airport)
              (Js.lit "Destination: " ++ validationSchemas.message airport))
    ++ (if Js.str_eqb (sr_from data) (sr_to data)
        then [Js.lit "Origin and destination airports cannot be the same"] else [])
    ++ errors (validators.futureDate e (sr_departure data))
    ++ match sr_return data with
       | Some (c :: r) => errors (validators.returnDate e (c :: r) (sr_departure data))
       | _ => []
       end
    ++ errors (validators.range e (sr_passengers data)
                 (Some validationSchemas.passengers_min)
                 (Some validationSchemas.passengers_max)
                 (Some validationSchemas.passengers_message)) in
  {| isValid := bool_decide (errs = []); errors := errs |}.

Record PassengerData : Type := {
  pd_firstName : Js.str;
  pd_lastName : Js.str;
  pd_email : Js.str;
  pd_phone : option Js.str;
  pd_dateOfBirth : Js.str
}.

(** [passenger(data)] *)
Definition passenger (e : Env) (data : PassengerData) : ValidationResult :=
  let dobResult := validators.date e (pd_dateOfBirth data) in
  let errs :=
    (if negb (isValid (validators.required (Some (pd_firstName data))))
     then [Js.lit "First name is required"] else [])
    ++ (if negb (isValid (validators.required (Some (pd_lastName data))))
        then [Js.lit "Last name is required"] else [])
    ++ errors (validators.pattern (pd_email data)
                 (validationSchemas.pattern validationSchemas.email)
                 (validationSchemas.message validationSchemas.email))
    ++ match pd_phone data with
       | Some (c :: p) =>
           errors (validators.pattern (c :: p)
                     (validationSchemas.pattern validationSchemas.phone)
                     (validationSchemas.message validationSchemas.phone))
       | _ => []
       end
    ++ errors dobResult
    ++ (if isValid dobResult then
          match Date.parse e (pd_dateOfBirth data) with
          | Some birth =>
              let age := (Date.getFullYear e (now e) - Date.getFullYear e birth)%Z in
              if (age <? 0)%Z || (120 <? age)%Z
              then [Js.lit "Please enter a valid date of birth"] else []
          | None => []
          end
        else []) in
  {| isValid := bool_decide (errs = []); errors := errs |}.

Record Endpoint : Type := { airport : Js.str; time : Js.str }.

Record FlightData : Type := {
  fd_flightNumber : Js.str;
  fd_departure : Endpoint;
  fd_arrival : Endpoint;
  fd_price : Num.t;
  fd_duration : Js.str
}.

(** [flight(data)] *)
Definition flight (e : Env) (data : FlightData) : ValidationResult :=
  let airportCode := validationSchemas.airportCode in
  let departureTime := Date.parse e (time (fd_departure data)) in
  let arrivalTime := Date.parse e (time (fd_arrival data)) in
  let errs :=
    errors (validators.pattern (fd_flightNumber data)
              (validationSchemas.pattern validationSchemas.flightNumber)
              (validationSchemas.message validationSchemas.flightNumber))
    ++ errors (validators.pattern (airport (fd_departure data))
                 (validationSchemas.pattern airportCode)
                 (Js.lit "Departure airport: " ++ validationSchemas.message airportCode))
    ++ errors (validators.pattern (airport (fd_arrival data))
                 (validationSchemas.pattern airportCode)
                 (Js.lit "Arrival airport: " ++ validationSchemas.message airportCode))
    ++ (match departureTime with
        | None => [Js.lit "Invalid departure time format"] | Some _ => [] end)
    ++ (match arrivalTime with
        | None => [Js.lit "Invalid arrival time format"] | Some _ => [] end)
    ++ (match departureTime, arrivalTime with
        | Some d, Some a =>
            if (a <=? d)%Z then [Js.lit "Arrival time must be after departure time"]
            else []
        | _, _ => []
        end)
    ++ errors (validators.range e (fd_price data)
                 (Some validationSchemas.price_min) None
                 (Some validationSchemas.price_message)) in
  {| isValid := bool_decide (errs = []); errors := errs |}.

End airlinesValidators.

(** ** Booking types: [src/types/booking] *)

Inductive TravelerType : Type := adult | child | infant.

(** [title] is declared ['Mr' | 'Mrs' | 'Ms' | 'Dr'], but the title select of
    the passenger form also offers the empty value and the guard tests the
    field, so it is kept as the string it is at run time.  An absent optional
    field is [None]. *)
Record Passenger : Type := {
  id : Js.str;
  firstName : Js.str;
  lastName : Js.str;
  dateOfBirth : Js.str;
  email : option Js.str;
  phone : option Js.str;
  title : Js.str;
  type : TravelerType
}.

Record BillingAddress : Type := {
  street : Js.str;
  city : Js.str;
  state : Js.str;
  zipCode : Js.str;
  country : Js.str
}.

Record PaymentDetails : Type := {
  cardNumber : Js.str;
  expiryMonth : Js.str;
  expiryYear : Js.str;
  cvv : Js.str;
  cardholderName : Js.str;
  billingAddress : BillingAddress
}.

Record ContactInfo : Type := {
  contactEmail : Js.str;
  contactPhone : Js.str
}.

Record BookingData : Type := {
  passengers : list Passenger;
  contactInfo : ContactInfo;
  bd_paymentDetails : option PaymentDetails;
  bd_specialRequests : option Js.str;
  bd_seatPreferences : option (list Js.str)
}.

Inductive Status : Type := confirmed | pending | failed.

Record FlightDetails : Type := {
  fl_flightNumber : Js.str;
  fl_departureDate : Js.str;
  fl_departureTime : Js.str;
  fl_arrivalTime : Js.str;
  fl_from : Js.str;
  fl_to : Js.str;
  fl_airline : Js.str
}.

Record BookingConfirmation : Type := {
  bookingReference : Js.str;
  confirmationNumber : Js.str;
  bookingDate : Js.str;
  totalAmount : Js.str;
  status : Status;
  bc_passengers : list Passenger;
  flightDetails : FlightDetails
}.

Inductive BookingStep : Type :=
| FlightSelected
| PassengerDetails
| Payment
| Confirmation.

Global Instance BookingStep_eq_dec : EqDecision BookingStep.
Proof. solve_decision. Defined.

(** The part of the external [FlightOffer] that the workflow reads. *)
Record LocationInfo : Type := { iataCode : Js.str; at_ : Js.str }.

Record FlightSegment : Type := {
  departure : LocationInfo;
  arrival : LocationInfo;
  carrierCode : Js.str;
  number : Js.str
}.

Record Itinerary : Type := { duration : Js.str; segments : list FlightSegment }.

Record Price : Type := { base : Js.str; total : Js.str }.

Record FlightOffer : Type := { itineraries : list Itinerary; price : Price }.

(** ** The booking workflow: [src/components/BookingFlow.tsx] *)

Record Props : Type := {
  selectedFlight : FlightOffer;
  passengerCount : nat
}.

(** The state cells of the component, the calls of [processBooking] whose
    [await] has not settled yet (each closure holds the passenger list of the
    render that started it), and the messages shown by [alert]. *)
Record Machine : Type := {
  currentStep : BookingStep;
  bookingData : BookingData;
  paymentDetails : PaymentDetails;
  confirmation : option BookingConfirmation;
  isProcessing : bool;
  specialRequests : Js.str;
  inFlight : list (list Passenger);
  alerts : list Js.str
}.

(** What the awaited promise of [processBooking] does: it is fulfilled, and
    the body then draws two random numerals ([Math.random().toString(36)])
    and reads the clock ([new Date().toISOString()]), or it is rejected. *)
Inductive Settlement : Type :=
| Fulfilled (random1 random2 isoNow : Js.str)
| Rejected.

Module BookingFlow.

Definition initialPassenger (index : nat) : Passenger := {|
  id := Js.lit "passenger-" ++ Js.ofNat index;
  firstName := [];
  lastName := [];
  dateOfBirth := [];
  title := Js.lit "Mr";
  type := adult;
  email := if Nat.eqb index 0 then Some [] else None;
  phone := if Nat.eqb index 0 then Some [] else None
|}.

Definition emptyPayment : PaymentDetails := {|
  cardNumber := []; expiryMonth := []; expiryYear := []; cvv := [];
  cardholderName := [];
  billingAddress :=
    {| street := []; city := []; state := []; zipCode := []; country := [] |}
|}.

(** The state of the first render. *)
Definition init (props : Props) : Machine := {|
  currentStep := FlightSelected;
  bookingData := {|
    passengers := map initialPassenger (seq 0 (passengerCount props));
    contactInfo := {| contactEmail := []; contactPhone := [] |};
    bd_paymentDetails := None;
    bd_specialRequests := None;
    bd_seatPreferences := None |};
  paymentDetails := emptyPayment;
  confirmation := None;
  isProcessing := false;
  specialRequests := [];
  inFlight := [];
  alerts := []
|}.

(** [x || ''] *)
Definition orEmpty (x : option Js.str) : Js.str :=
  match x with Some (c :: s) => c :: s | _ => [] end.

Definition setBookingData (bd : BookingData) (m : Machine) : Machine := {|
  currentStep := currentStep m; bookingData := bd;
  paymentDetails := paymentDetails m; confirmation := confirmation m;
  isProcessing := isProcessing m; specialRequests := specialRequests m;
  inFlight := inFlight m; alerts := alerts m |}.

Definition setCurrentStep (s : BookingStep) (m : Machine) : Machine := {|
  currentStep := s; bookingData := bookingData m;
  paymentDetails := paymentDetails m; confirmation := confirmation m;
  isProcessing := isProcessing m; specialRequests := specialRequests m;
  inFlight := inFlight m; alerts := alerts m |}.

Definition setPaymentDetails (pd : PaymentDetails) (m : Machine) : Machine := {|
  currentStep := currentStep m; bookingData := bookingData m;
  paymentDetails := pd; confirmation := confirmation m;
  isProcessing := isProcessing m; specialRequests := specialRequests m;
  inFlight := inFlight m; alerts := alerts m |}.

Definition setConfirmation (c : option BookingConfirmation) (m : Machine) : Machine := {|
  currentStep := currentStep m; bookingData := bookingData m;
  paymentDetails := paymentDetails m; confirmation := c;
  isProcessing := isProcessing m; specialRequests := specialRequests m;
  inFlight := inFlight m; alerts := alerts m |}.

Definition setIsProcessing (b : bool) (m : Machine) : Machine := {|
  currentStep := currentStep m; bookingData := bookingData m;
  paymentDetails := paymentDetails m; confirmation := confirmation m;
  isProcessing := b; specialRequests := specialRequests m;
  inFlight := inFlight m; alerts := alerts m |}.

Definition setSpecialRequests (s : Js.str) (m : Machine) : Machine := {|
  currentStep := currentStep m; bookingData := bookingData m;
  paymentDetails := paymentDetails m; confirmation := confirmation m;
  isProcessing := isProcessing m; specialRequests := s;
  inFlight := inFlight m; alerts := alerts m |}.

Definition setInFlight (q : list (list Passenger)) (m : Machine) : Machine := {|
  currentStep := currentStep m; bookingData := bookingData m;
  paymentDetails := paymentDetails m; confirmation := confirmation m;
  isProcessing := isProcessing m; specialRequests := specialRequests m;
  inFlight := q; alerts := alerts m |}.

Definition alert (msg : Js.str) (m : Machine) : Machine := {|
  currentStep := currentStep m; bookingData := bookingData m;
  paymentDetails := paymentDetails m; confirmation := confirmation m;
  isProcessing := isProcessing m; specialRequests := specialRequests m;
  inFlight := inFlight m; alerts := alerts m ++ [msg] |}.

(** [handlePassengerUpdate(index, passenger)], for an index of the passenger
    array.  (Beyond its end the assignment would grow the JavaScript array
    and leave empty slots, which are not [Passenger] values; the passenger
    forms only pass indices of the array, and [<[index:=_]>] leaves the
    list alone there.) *)
Definition handlePassengerUpdate (index : nat) (passenger : Passenger)
    (m : Machine) : Machine :=
  let bd := bookingData m in
  let updatedPassengers := <[index := passenger]> (passengers bd) in
  if Nat.eqb index 0 then
    setBookingData {|
      passengers := updatedPassengers;
      contactInfo := {| contactEmail := orEmpty (email passenger);
                        contactPhone := orEmpty (phone passenger) |};
      bd_paymentDetails := bd_paymentDetails bd;
      bd_specialRequests := bd_specialRequests bd;
      bd_seatPreferences := bd_seatPreferences bd |} m
  else
    setBookingData {|
      passengers := updatedPassengers;
      contactInfo := contactInfo bd;
      bd_paymentDetails := bd_paymentDetails bd;
      bd_specialRequests := bd_specialRequests bd;
      bd_seatPreferences := bd_seatPreferences bd |} m.

(** The callback of [every] in [validatePassengerDetails]. *)
Definition passengerFilled (p : Passenger) : bool :=
  Js.truthy (Js.trim (firstName p))
  && Js.truthy (Js.trim (lastName p))
  && Js.truthy (dateOfBirth p)
  && Js.truthy (title p).

(** [validatePassengerDetails()] *)
Definition validatePassengerDetails (m : Machine) : bool :=
  forallb passengerFilled (passengers (bookingData m))
  && Js.truthy (contactEmail (contactInfo (bookingData m)))
  && Js.truthy (contactPhone (contactInfo (bookingData m))).

(** [validatePaymentDetails()] *)
Definition validatePaymentDetails (m : Machine) : bool :=
  let pd := paymentDetails m in
  (13 <=? length (Js.stripWhite (cardNumber pd)))%nat
  && Js.truthy (expiryMonth pd)
  && Js.truthy (expiryYear pd)
  && (3 <=? length (cvv pd))%nat
  && Js.truthy (Js.trim (cardholderName pd))
  && Js.truthy (Js.trim (street (billingAddress pd)))
  && Js.truthy (Js.trim (city (billingAddress pd)))
  && Js.truthy (Js.trim (state (billingAddress pd)))
  && Js.truthy (Js.trim (zipCode (billingAddress pd)))
  && Js.truthy (country (billingAddress pd)).

(** [formatTime(dateTimeString)] *)
Definition formatTime (e : Env) (dateTimeString : Js.str) : Js.str :=
  localeTime e (Date.parse e dateTimeString).

(** The object literal built in the [try] block of [processBooking];
    [None] when [selectedFlight.itineraries[0].segments[0]] has no segment
    to give, where reading the segment throws a [TypeError]. *)
Definition buildConfirmation (e : Env) (props : Props)
    (captured : list Passenger) (random1 random2 isoNow : Js.str)
  : option BookingConfirmation :=
  match itineraries (selectedFlight props) with
  | [] => None
  | itinerary :: _ =>
      match segments itinerary with
      | [] => None
      | segment :: _ =>
          Some {|
            bookingReference :=
              Js.lit "AD" ++ Js.toUpperCase (Js.substr 2 8 random1);
            confirmationNumber :=
              carrierCode segment ++ Js.toUpperCase (Js.substr 2 6 random2);
            bookingDate := isoNow;
            totalAmount := total (price (selectedFlight props));
            status := confirmed;
            bc_passengers := captured;
            flightDetails := {|
              fl_flightNumber := carrierCode segment ++ number segment;
              fl_departureDate := Js.splitHead 84 (at_ (departure segment));
              fl_departureTime := formatTime e (at_ (departure segment));
              fl_arrivalTime := formatTime e (at_ (arrival segment));
              fl_from := iataCode (departure segment);
              fl_to := iataCode (arrival segment);
              fl_airline := carrierCode segment ++ Js.lit " Airlines" |}
          |}
      end
  end.

(** [processBooking()] up to its [await]: the flag is raised and the call
    waits, holding the passengers of the current render. *)
Definition processBooking_start (m : Machine) : Machine :=
  setInFlight (inFlight m ++ [passengers (bookingData m)]) (setIsProcessing true m).

(** [processBooking()] from its [await] on, for the oldest waiting call:
    the rest of the [try] block, or the [catch] block, then [finally]. *)
Definition processBooking_settle (e : Env) (props : Props) (o : Settlement)
    (m : Machine) : Machine :=
  match inFlight m with
  | [] => m
  | captured :: rest =>
      let m1 := setInFlight rest m in
      let result :=
        match o with
        | Fulfilled r1 r2 iso => buildConfirmation e props captured r1 r2 iso
        | Rejected => None
        end in
      let m2 :=
        match result with
        | Some c => setCurrentStep Confirmation (setConfirmation (Some c) m1)
        | None => alert (Js.lit "Booking failed. Please try again.") m1
        end in
      setIsProcessing false m2
  end.

(** [handleStepNavigation(nextStep)] *)
Definition handleStepNavigation (nextStep : BookingStep) (m : Machine) : Machine :=
  match nextStep, currentStep m with
  | PassengerDetails, FlightSelected => setCurrentStep PassengerDetails m
  | Payment, PassengerDetails =>
      if validatePassengerDetails m then setCurrentStep Payment m
      else alert (Js.lit "Please fill in all required passenger details") m
  | Confirmation, Payment =>
      if validatePaymentDetails m then processBooking_start m
      else alert (Js.lit "Please fill in all required payment details") m
  | _, _ => m
  end.

(** [handleBack()] *)
Definition handleBack (m : Machine) : Machine :=
  match currentStep m with
  | PassengerDetails => setCurrentStep FlightSelected m
  | Payment => setCurrentStep PassengerDetails m
  | _ => m
  end.

(** *** The rendered controls

    What the user (and the timer) can do to the component: each control is
    wired to its handler as in the JSX, and exists or is enabled under the
    condition written there. *)
Inductive Event : Type :=
| ClickContinue
| EditPassenger (index : nat) (passenger : Passenger)
| EditSpecialRequests (text : Js.str)
| ClickContinueToPayment
| ClickBack
| EditPayment (pd : PaymentDetails)
| ClickCompleteBooking
| Settle (o : Settlement).

(** [confirmation && currentStep === 'confirmation']: only the confirmation
    page is rendered. *)
Definition showsConfirmation (m : Machine) : bool :=
  match confirmation m with
  | Some _ => bool_decide (currentStep m = Confirmation)
  | None => false
  end.

(** [currentStep === step && (...)] below the early return. *)
Definition showsStep (step : BookingStep) (m : Machine) : bool :=
  negb (showsConfirmation m) && bool_decide (currentStep m = step).

Definition dispatch (e : Env) (props : Props) (ev : Event) (m : Machine) : Machine :=
  match ev with
  | ClickContinue =>
      if showsStep FlightSelected m then handleStepNavigation PassengerDetails m else m
  | EditPassenger index passenger =>
      if showsStep PassengerDetails m && (index <? length (passengers (bookingData m)))%nat
      then handlePassengerUpdate index passenger m else m
  | EditSpecialRequests text =>
      if showsStep PassengerDetails m then setSpecialRequests text m else m
  | ClickContinueToPayment =>
      if showsStep PassengerDetails m && validatePassengerDetails m
      then handleStepNavigation Payment m else m
  | ClickBack =>
      if showsStep PassengerDetails m || showsStep Payment m then handleBack m else m
  | EditPayment pd =>
      if showsStep Payment m then setPaymentDetails pd m else m
  | ClickCompleteBooking =>
      if showsStep Payment m && validatePaymentDetails m && negb (isProcessing m)
      then handleStepNavigation Confirmation m else m
  | Settle o => processBooking_settle e props o m
  end.

Definition run (e : Env) (props : Props) (evs : list Event) (m : Machine) : Machine :=
  fold_left (fun m ev => dispatch e props ev m) evs m.

(** The states a user can bring the component to. *)
Inductive reachable (e : Env) (props : Props) : Machine -> Prop :=
| reach_init : reachable e props (init props)
| reach_step m ev : reachable e props m -> reachable e props (dispatch e props ev m).

(** Position of a step in the flow. *)
Definition position (s : BookingStep) : Z :=
  match s with
  | FlightSelected => 0
  | PassengerDetails => 1
  | Payment => 2
  | Confirmation => 3
  end.

End BookingFlow.

(** ** The specification's wording, for comparison with the code *)

Module Spec.

(** The flight-number pattern as the specification gives it:
    [^[A-Z]{2,3}\d{1,4}$], a 2- or 3-letter uppercase airline code followed
    by 1 to 4 digits. *)
Definition flightNumberPattern : Re.regex :=
  Re.Seq (Re.between 2 3 (Re.Class Js.isUpper)) (Re.between 1 4 (Re.Class Js.isDigit)).

(** A [Passenger] handed to the [passenger] domain validator, whose [email]
    is read as a string: [RegExp.prototype.test] turns [undefined] into the
    text "undefined". *)
Definition asPassengerData (p : Passenger) : airlinesValidators.PassengerData := {|
  airlinesValidators.pd_firstName := firstName p;
  airlinesValidators.pd_lastName := lastName p;
  airlinesValidators.pd_email :=
    match email p with Some s => s | None => Js.lit "undefined" end;
  airlinesValidators.pd_phone := phone p;
  airlinesValidators.pd_dateOfBirth := dateOfBirth p |}.

(** The guard of the passenger-details step as the specification gives it:
    every passenger passes the [passenger] validator and the contact email
    and phone are not blank. *)
Definition passengerGuard (e : Env) (m : Machine) : bool :=
  forallb (fun p => isValid (airlinesValidators.passenger e (asPassengerData p)))
    (passengers (bookingData m))
  && negb (Js.blank (contactEmail (contactInfo (bookingData m))))
  && negb (Js.blank (contactPhone (contactInfo (bookingData m)))).



(** A flight number in words: an uppercase airline code of [lo] to [hi]
    letters followed by 1 to 4 digits. *)
Definition airlineFlightNumber (lo hi : nat) (s : Js.str) : Prop :=
  exists code digits : Js.str,
    s = code ++ digits
    /\ lo <= length code <= hi
    /\ Forall (fun c => Js.isUpper c = true) code
    /\ 1 <= length digits <= 4
    /\ Forall (fun c => Js.isDigit c = true) digits.

(** A value of [Math.random().toString(36)]: the numeral of a number of
    [0, 1) in base 36, that is "0", or "0." followed by digits among [0-9a-z]. *)
Definition radix36Fraction (r : Js.str) : Prop :=
  r = Js.lit "0"
  \/ exists digits : Js.str,
       r = Js.lit "0." ++ digits
       /\ digits <> []
       /\ Forall (fun c => Js.isDigit c || Js.isLower c = true) digits.

(** The submission fails: the awaited promise is rejected, or the body of
    the [try] block throws. *)
Definition submissionFails (e : Env) (props : Props) (captured : list Passenger)
    (o : Settlement) : Prop :=
  match o with
  | Rejected => True
  | Fulfilled r1 r2 iso =>
      BookingFlow.buildConfirmation e props captured r1 r2 iso = None
  end.

(** A token of uppercase letters and digits. *)
Definition upperAlnum (s : Js.str) : bool :=
  forallb (fun c => Js.isUpper c || Js.isDigit c) s.

End Spec.

(** ** Sample data *)

Module Sample.

Import BookingFlow.

(** Noon of 2026-11-03 in a zone that is always five hours behind UTC. *)
Definition env : Env := {|
  now := 1793725200000;
  localTZA := fun _ _ => (-18000000)%Z;
  lenientDays := true;
  parseOther := fun _ => None;
  localeTime := fun _ => Js.lit "10:00";
  showNumber := fun _ => [] |}.

(** The same instant on a machine whose local time is UTC. *)
Definition envUTC : Env := {|
  now := 1793725200000;
  localTZA := fun _ _ => 0%Z;
  lenientDays := true;
  parseOther := fun _ => None;
  localeTime := fun _ => Js.lit "10:00";
  showNumber := fun _ => [] |}.

Definition john : Passenger := {|
  id := Js.lit "passenger-0";
  firstName := Js.lit "John";
  lastName := Js.lit "Doe";
  dateOfBirth := Js.lit "1990-01-01";
  email := Some (Js.lit "john@x.com");
  phone := Some (Js.lit "+1-555-123-4567");
  title := Js.lit "Mr";
  type := adult |}.

Definition jane : Passenger := {|
  id := Js.lit "passenger-1";
  firstName := Js.lit "Jane";
  lastName := Js.lit "Doe";
  dateOfBirth := Js.lit "1992-02-02";
  email := None;
  phone := None;
  title := Js.lit "Mrs";
  type := adult |}.

(** John with an address that is not an email address. *)
Definition johnBadEmail : Passenger := {|
  id := Js.lit "passenger-0";
  firstName := Js.lit "John";
  lastName := Js.lit "Doe";
  dateOfBirth := Js.lit "1990-01-01";
  email := Some (Js.lit "john");
  phone := Some (Js.lit "+1-555-123-4567");
  title := Js.lit "Mr";
  type := adult |}.

Definition address : BillingAddress := {|
  street := Js.lit "1 Main St";
  city := Js.lit "NYC";
  state := Js.lit "NY";
  zipCode := Js.lit "10001";
  country := Js.lit "US" |}.

Definition card : PaymentDetails := {|
  cardNumber := Js.lit "4111 1111 1111 1111";
  expiryMonth := Js.lit "12";
  expiryYear := Js.lit "2030";
  cvv := Js.lit "123";
  cardholderName := Js.lit "John Doe";
  billingAddress := address |}.



Definition segment : FlightSegment := {|
  departure := {| iataCode := Js.lit "JFK"; at_ := Js.lit "2025-01-15T10:00:00Z" |};
  arrival := {| iataCode := Js.lit "LAX"; at_ := Js.lit "2025-01-15T14:00:00Z" |};
  carrierCode := Js.lit "AA";
  number := Js.lit "123" |}.

Definition offer : FlightOffer := {|
  itineraries := [ {| duration := Js.lit "PT4H"; segments := [segment] |} ];
  price := {| base := Js.lit "400.00"; total := Js.lit "450.00" |} |}.

(** An offer without itinerary. *)
Definition emptyOffer : FlightOffer := {|
  itineraries := [];
  price := {| base := Js.lit "400.00"; total := Js.lit "450.00" |} |}.

Definition props : Props := {| selectedFlight := offer; passengerCount := 1 |}.

Definition propsEmptyOffer : Props :=
  {| selectedFlight := emptyOffer; passengerCount := 1 |}.

(** A value of [Math.random().toString(36)]. *)
Definition random : Js.str := Js.lit "0.4fzyo82mvyr".

Definition isoNow : Js.str := Js.lit "2026-11-03T17:00:00.000Z".

(** A state on the passenger step, holding [p] as only passenger. *)
Definition atPassengerDetails (p : Passenger) : Machine :=
  BookingFlow.handlePassengerUpdate 0 p
    (BookingFlow.handleStepNavigation PassengerDetails (BookingFlow.init props)).

(** A state on the payment step, with John and the payment [pd]. *)
Definition atPayment (pd : PaymentDetails) : Machine :=
  BookingFlow.setPaymentDetails pd
    (BookingFlow.handleStepNavigation Payment (atPassengerDetails john)).

(** The payment step with a submission under way. *)
Definition submitting : Machine :=
  BookingFlow.handleStepNavigation Confirmation (atPayment card).

(** A directly entered flight. *)
Definition flightData (flightNo : Js.str) : airlinesValidators.FlightData := {|
  airlinesValidators.fd_flightNumber := flightNo;
  airlinesValidators.fd_departure :=
    {| airlinesValidators.airport := Js.lit "JFK";
       airlinesValidators.time := Js.lit "2025-01-15" |};
  airlinesValidators.fd_arrival :=
    {| airlinesValidators.airport := Js.lit "LAX";
       airlinesValidators.time := Js.lit "2025-01-16" |};
  airlinesValidators.fd_price := Num.ofZ 450;
  airlinesValidators.fd_duration := Js.lit "PT4H" |}.

(** The clicks and edits of a booking in which Back is pressed while the
    submission is under way. *)
Definition backDuringSubmission : list Event :=
  [ ClickContinue;
    EditPassenger 0 john;
    ClickContinueToPayment;
    EditPayment card;
    ClickCompleteBooking;
    ClickBack ].

End Sample.

(** ** Shapes of a validation result *)

Module Shape.

(** The result is valid with no error, or invalid with exactly one. *)
Definition oneError (r : ValidationResult) : Prop :=
  (isValid r = true /\ errors r = [])
  \/ (isValid r = false /\ exists msg : Js.str, errors r = [msg]).

(** The flag says that the error list is empty. *)
Definition flagAgrees (r : ValidationResult) : Prop :=
  isValid r = true <-> errors r = [].

End Shape.

(** ** Sanitizers: [sanitizers] of [src/lib/validation.ts] *)

Module sanitizers.

Local Open Scope N_scope.

(** [airportCode(value)]: [value.toUpperCase().replace(/[^A-Z]/g, '').slice(0, 3)].
    [toUpperCase] is the Unicode-aware method of the engine (it can turn a
    letter outside Basic Latin into Basic Latin ones), taken as given. *)
Definition airportCode (toUpperCase : Js.str -> Js.str) (value : Js.str) : Js.str :=
  take 3 (filter (fun c => Js.isUpper c = true) (toUpperCase value)).

(** [[\d+\-\s()]] *)
Definition phoneKept (c : N) : bool :=
  Js.isDigit c || (c =? 43) || (c =? 45) || Js.isWhite c || (c =? 40) || (c =? 41).

(** [phone(value)]: [value.replace(/[^\d+\-\s()]/g, '')] *)
Definition phone (value : Js.str) : Js.str :=
  filter (fun c => phoneKept c = true) value.



(** [[\d.]] *)
Definition numericKept (c : N) : bool := Js.isDigit c || (c =? 46).

(** [numeric(value)]: [value.replace(/[^\d.]/g, '')] *)
Definition numeric (value : Js.str) : Js.str :=
  filter (fun c => numericKept c = true) value.

End sanitizers.

(** ** The payment form: [PaymentForm] of [src/components/BookingFlow.tsx] *)

Module PaymentForm.

Local Open Scope N_scope.

(** [value.replace(/\D/g, '')] *)
Definition digitsOnly (value : Js.str) : Js.str :=
  filter (fun c => Js.isDigit c = true) value.

(** [s.replace(/(\d{4})/g, '$1 ')]: from left to right, each run of four
    digits gets a space after it, and the search goes on behind the run. *)
Fixpoint spaceAfterFour (s : Js.str) : Js.str :=
  match s with
  | [] => []
  | a :: s' =>
      match s' with
      | b :: c :: d :: rest =>
          if Js.isDigit a && Js.isDigit b && Js.isDigit c && Js.isDigit d
          then a :: b :: c :: d :: 32 :: spaceAfterFour rest
          else a :: spaceAfterFour s'
      | _ => a :: spaceAfterFour s'
      end
  end.

(** [formatCardNumber(value)] *)
Definition formatCardNumber (value : Js.str) : Js.str :=
  let cleaned := take 16 (digitsOnly value) in
  Js.trim (spaceAfterFour cleaned).

(** [formatCVV(value)] *)
Definition formatCVV (value : Js.str) : Js.str :=
  take 4 (digitsOnly value).

Inductive BillingField : Type := streetF | cityF | stateF | zipCodeF | countryF.

(** The field names that the inputs of the form pass to [handleChange]:
    a key of [PaymentDetails], or ['billing.'] followed by a key of the
    billing address. *)
Inductive Field : Type :=
| cardNumberF
| expiryMonthF
| expiryYearF
| cvvF
| cardholderNameF
| billingF (f : BillingField).

Definition setBilling (f : BillingField) (value : Js.str) (a : BillingAddress)
  : BillingAddress :=
  match f with
  | streetF => {| street := value; city := city a; state := state a;
                  zipCode := zipCode a; country := country a |}
  | cityF => {| street := street a; city := value; state := state a;
                zipCode := zipCode a; country := country a |}
  | stateF => {| street := street a; city := city a; state := value;
                 zipCode := zipCode a; country := country a |}
  | zipCodeF => {| street := street a; city := city a; state := state a;
                   zipCode := value; country := country a |}
  | countryF => {| street := street a; city := city a; state := state a;
                   zipCode := zipCode a; country := value |}
  end.

(** [handleChange(field, value)]: the value handed to [onUpdate]. *)
Definition handleChange (paymentDetails : PaymentDetails) (field : Field)
    (value : Js.str) : PaymentDetails :=
  match field with
  | billingF f =>
      {| cardNumber := cardNumber paymentDetails;
         expiryMonth := expiryMonth paymentDetails;
         expiryYear := expiryYear paymentDetails;
         cvv := cvv paymentDetails;
         cardholderName := cardholderName paymentDetails;
         billingAddress := setBilling f value (billingAddress paymentDetails) |}
  | cardNumberF =>
      {| cardNumber := value;
         expiryMonth := expiryMonth paymentDetails;
         expiryYear := expiryYear paymentDetails;
         cvv := cvv paymentDetails;
         cardholderName := cardholderName paymentDetails;
         billingAddress := billingAddress paymentDetails |}
  | expiryMonthF =>
      {| cardNumber := cardNumber paymentDetails;
         expiryMonth := value;
         expiryYear := expiryYear paymentDetails;
         cvv := cvv paymentDetails;
         cardholderName := cardholderName paymentDetails;
         billingAddress := billingAddress paymentDetails |}
  | expiryYearF =>
      {| cardNumber := cardNumber paymentDetails;
         expiryMonth := expiryMonth paymentDetails;
         expiryYear := value;
         cvv := cvv paymentDetails;
         cardholderName := cardholderName paymentDetails;
         billingAddress := billingAddress paymentDetails |}
  | cvvF =>
      {| cardNumber := cardNumber paymentDetails;
         expiryMonth := expiryMonth paymentDetails;
         expiryYear := expiryYear paymentDetails;
         cvv := value;
         cardholderName := cardholderName paymentDetails;
         billingAddress := billingAddress paymentDetails |}
  | cardholderNameF =>
      {| cardNumber := cardNumber paymentDetails;
         expiryMonth := expiryMonth paymentDetails;
         expiryYear := expiryYear paymentDetails;
         cvv := cvv paymentDetails;
         cardholderName := value;
         billingAddress := billingAddress paymentDetails |}
  end.

(** What an input of the form hands to [onUpdate] when its text becomes
    [typed]: the card number and the CVV go through their formatters, the
    other inputs pass the text on. *)
Definition onChange (paymentDetails : PaymentDetails) (field : Field)
    (typed : Js.str) : PaymentDetails :=
  match field with
  | cardNumberF => handleChange paymentDetails cardNumberF (formatCardNumber typed)
  | cvvF => handleChange paymentDetails cvvF (formatCVV typed)
  | f => handleChange paymentDetails f typed
  end.

End PaymentForm.

(** ** The passenger form: [src/components/PassengerForm.tsx] *)

Module PassengerForm.

(** The keys of [Passenger] that the inputs of the form pass to
    [handleChange]. *)
Inductive Field : Type :=
| titleF | firstNameF | lastNameF | dateOfBirthF | emailF | phoneF.

(** [{ ...passenger, [field]: value }] *)
Definition handleChange (passenger : Passenger) (field : Field) (value : Js.str)
  : Passenger :=
  match field with
  | titleF =>
      {| id := id passenger; firstName := firstName passenger;
         lastName := lastName passenger; dateOfBirth := dateOfBirth passenger;
         email := email passenger; phone := phone passenger;
         title := value; type := type passenger |}
  | firstNameF =>
      {| id := id passenger; firstName := value;
         lastName := lastName passenger; dateOfBirth := dateOfBirth passenger;
         email := email passenger; phone := phone passenger;
         title := title passenger; type := type passenger |}
  | lastNameF =>
      {| id := id passenger; firstName := firstName passenger;
         lastName := value; dateOfBirth := dateOfBirth passenger;
         email := email passenger; phone := phone passenger;
         title := title passenger; type := type passenger |}
  | dateOfBirthF =>
      {| id := id passenger; firstName := firstName passenger;
         lastName := lastName passenger; dateOfBirth := value;
         email := email passenger; phone := phone passenger;
         title := title passenger; type := type passenger |}
  | emailF =>
      {| id := id passenger; firstName := firstName passenger;
         lastName := lastName passenger; dateOfBirth := dateOfBirth passenger;
         email := Some value; phone := phone passenger;
         title := title passenger; type := type passenger |}
  | phoneF =>
      {| id := id passenger; firstName := firstName passenger;
         lastName := lastName passenger; dateOfBirth := dateOfBirth passenger;
         email := email passenger; phone := Some value;
         title := title passenger; type := type passenger |}
  end.

(** The email and phone inputs exist for the contact passenger only
    ([isContactPassenger = index === 0]). *)
Definition rendered (index : nat) (field : Field) : bool :=
  match field with
  | emailF | phoneF => Nat.eqb index 0
  | _ => true
  end.

End PassengerForm.

(** ** Display helpers of [BookingFlow] *)

Module Display.

Local Open Scope N_scope.

(** The text behind the first "PT" of a string. *)
Fixpoint afterPT (s : Js.str) : option Js.str :=
  match s with
  | [] => None
  | c :: s' =>
      match s' with
      | d :: s'' => if (c =? 80) && (d =? 84) then Some s'' else afterPT s'
      | [] => None
      end
  end.

(** The longest run of digits at the head of a string, and the rest. *)
Fixpoint digitRun (s : Js.str) : Js.str * Js.str :=
  match s with
  | c :: s' =>
      if Js.isDigit c then let '(ds, rest) := digitRun s' in (c :: ds, rest)
      else ([], s)
  | [] => ([], [])
  end.

(** The group [(\d+U)?] at the head of a string, for a unit letter [U]:
    its digits and the text behind it when it takes part in the match. *)
Definition unitGroup (unit : N) (s : Js.str) : option (Js.str * Js.str) :=
  match digitRun s with
  | (d :: ds, u :: rest) => if u =? unit then Some (d :: ds, rest) else None
  | _ => None
  end.

(** [formatDuration(duration)], with the match of [/PT(\d+H)?(\d+M)?/]
    written out: it starts at the first "PT", and each group takes part
    when a run of digits and its letter follow. *)
Definition formatDuration (duration : Js.str) : Js.str :=
  match afterPT duration with
  | None => duration
  | Some s =>
      let '(hours, s1) :=
        match unitGroup 72 s with
        | Some (ds, rest) => (ds ++ Js.lit "h ", rest)
        | None => ([], s)
        end in
      let minutes :=
        match unitGroup 77 s1 with
        | Some (ds, _) => ds ++ Js.lit "m"
        | None => []
        end in
      Js.trim (hours ++ minutes)
  end.

End Display.

(** ** The forms wired to the workflow *)

Module Forms.

Import BookingFlow.

(** What the user (and the timer) does: typing into an input of a
    passenger form, of the payment form or of the special requests, pressing
    a button of [BookingFlow], and the settling of a submission. *)
Inductive Action : Type :=
| TypePassenger (index : nat) (field : PassengerForm.Field) (typed : Js.str)
| TypePayment (field : PaymentForm.Field) (typed : Js.str)
| TypeSpecialRequests (typed : Js.str)
| PressContinue
| PressContinueToPayment
| PressBack
| PressCompleteBooking
| TimerFires (o : Settlement).

(** The effect of an action: the passenger form of index [index] exists for
    a passenger of the array and calls [onUpdate] with its own index and
    its passenger changed in one field; the payment form calls [onUpdate]
    with the payment details changed in one field. *)
Definition act (e : Env) (props : Props) (a : Action) (m : Machine) : Machine :=
  match a with
  | TypePassenger index field typed =>
      match passengers (bookingData m) !! index with
      | Some passenger =>
          if PassengerForm.rendered index field
          then dispatch e props
                 (EditPassenger index (PassengerForm.handleChange passenger field typed)) m
          else m
      | None => m
      end
  | TypePayment field typed =>
      dispatch e props (EditPayment (PaymentForm.onChange (paymentDetails m) field typed)) m
  | TypeSpecialRequests typed => dispatch e props (EditSpecialRequests typed) m
  | PressContinue => dispatch e props ClickContinue m
  | PressContinueToPayment => dispatch e props ClickContinueToPayment m
  | PressBack => dispatch e props ClickBack m
  | PressCompleteBooking => dispatch e props ClickCompleteBooking m
  | TimerFires o => dispatch e props (Settle o) m
  end.

Definition perform (e : Env) (props : Props) (acts : list Action) (m : Machine)
  : Machine :=
  fold_left (fun m a => act e props a m) acts m.

(** The states that the forms can bring the component to. *)
Inductive formReachable (e : Env) (props : Props) : Machine -> Prop :=
| form_init : formReachable e props (init props)
| form_step m a : formReachable e props m -> formReachable e props (act e props a m).

(** A card number as the card input leaves it: at most four groups of
    digits, the groups before the last of four digits, the last of one to
    four, one space between two groups. *)
Fixpoint cardGroups (groups : nat) (s : Js.str) : bool :=
  match groups with
  | O => false
  | S g =>
      match s with
      | [a] => Js.isDigit a
      | [a; b] => Js.isDigit a && Js.isDigit b
      | [a; b; c] => Js.isDigit a && Js.isDigit b && Js.isDigit c
      | [a; b; c; d] => Js.isDigit a && Js.isDigit b && Js.isDigit c && Js.isDigit d
      | a :: b :: c :: d :: sp :: rest =>
          Js.isDigit a && Js.isDigit b && Js.isDigit c && Js.isDigit d
          && (sp =? 32)%N && cardGroups g rest
      | [] => false
      end
  end.

Definition wellFormedCard (s : Js.str) : bool :=
  match s with [] => true | _ => cardGroups 4 s end.

End Forms.

(** ** What the workflow keeps *)

Module Invariant.

Import BookingFlow.

(** The contact info that the primary passenger gives. *)
Definition contactOf (ps : list Passenger) : ContactInfo :=
  match ps !! 0 with
  | Some p => {| contactEmail := orEmpty (email p); contactPhone := orEmpty (phone p) |}
  | None => {| contactEmail := []; contactPhone := [] |}
  end.

Definition filled (ps : list Passenger) : Prop :=
  forallb passengerFilled ps = true.

(** What every state that a user can reach satisfies. *)
Record holds (props : Props) (m : Machine) : Prop := {
  count_fixed : length (passengers (bookingData m)) = passengerCount props;
  contact_mirrors : contactInfo (bookingData m) = contactOf (passengers (bookingData m));
  confirmed_at_end : confirmation m = None <-> currentStep m <> Confirmation;
  none_waiting_at_end : currentStep m = Confirmation -> inFlight m = [];
  filled_at_payment : currentStep m = Payment -> validatePassengerDetails m = true;
  waiting_filled : Forall filled (inFlight m);
  confirmed_filled :
    forall c, confirmation m = Some c ->
      filled (bc_passengers c)
      /\ status c = confirmed
      /\ totalAmount c = total (price (selectedFlight props))
}.

(** What every state that the forms can bring about satisfies in
    addition. *)
Record formed (m : Machine) : Prop := {
  slots :
    forall i p, passengers (bookingData m) !! i = Some p ->
      id p = Js.lit "passenger-" ++ Js.ofNat i
      /\ type p = adult
      /\ (email p <> None <-> i = 0)
      /\ (phone p <> None <-> i = 0);
  card_formatted : Forms.wellFormedCard (cardNumber (paymentDetails m)) = true;
  cvv_digits :
    Forall (fun c => Js.isDigit c = true) (cvv (paymentDetails m))
    /\ length (cvv (paymentDetails m)) <= 4
}.

End Invariant.

(** ** More sample data *)

Module Sample2.

Import BookingFlow.

(** The typing and pressing of a whole booking for one passenger. *)
Definition booking : list Forms.Action :=
  [ Forms.PressContinue;
    Forms.TypePassenger 0 PassengerForm.firstNameF (Js.lit "John");
    Forms.TypePassenger 0 PassengerForm.lastNameF (Js.lit "Doe");
    Forms.TypePassenger 0 PassengerForm.dateOfBirthF (Js.lit "1990-01-01");
    Forms.TypePassenger 0 PassengerForm.emailF (Js.lit "john@x.com");
    Forms.TypePassenger 0 PassengerForm.phoneF (Js.lit "+1-555-123-4567");
    Forms.PressContinueToPayment;
    Forms.TypePayment PaymentForm.cardNumberF (Js.lit "4111111111111111");
    Forms.TypePayment PaymentForm.expiryMonthF (Js.lit "12");
    Forms.TypePayment PaymentForm.expiryYearF (Js.lit "2030");
    Forms.TypePayment PaymentForm.cvvF (Js.lit "123");
    Forms.TypePayment PaymentForm.cardholderNameF (Js.lit "John Doe");
    Forms.TypePayment (PaymentForm.billingF PaymentForm.streetF) (Js.lit "1 Main St");
    Forms.TypePayment (PaymentForm.billingF PaymentForm.cityF) (Js.lit "NYC");
    Forms.TypePayment (PaymentForm.billingF PaymentForm.stateF) (Js.lit "NY");
    Forms.TypePayment (PaymentForm.billingF PaymentForm.zipCodeF) (Js.lit "10001");
    Forms.TypePayment (PaymentForm.billingF PaymentForm.countryF) (Js.lit "US");
    Forms.PressCompleteBooking ].

(** The state after that booking, the submission under way. *)
Definition booked : Machine :=
  Forms.perform Sample.env Sample.props booking (init Sample.props).

(** The state after the submission has succeeded. *)
Definition done : Machine :=
  Forms.act Sample.env Sample.props
    (Forms.TimerFires (Fulfilled Sample.random Sample.random Sample.isoNow)) booked.

(** The day after the local current day of [Sample.env]. *)
Definition tomorrow : Js.str := Js.lit "2026-11-04".

End Sample2.

(** * Properties *)

(** ** Regular expressions: the matcher decides the language *)

Module ReFacts.

Import Re.

Lemma matches_nil_nullable (r : regex) : Matches r [] -> nullable r = true.
Proof.
  intros H. remember ([] : Js.str) as s eqn:Hs.
  induction H; simpl; try reflexivity; try discriminate.
  - apply app_nil in Hs as [-> ->].
    rewrite IHMatches1, IHMatches2; reflexivity.
  - rewrite IHMatches; auto.
  - rewrite IHMatches; auto using orb_true_r.
Qed.

Lemma nullable_matches_nil (r : regex) : nullable r = true -> Matches r [].
Proof.
  induction r; simpl; intros H; try discriminate.
  - constructor.
  - apply andb_true_iff in H as [H1 H2].
    change (Matches (Seq r1 r2) ([] ++ [])). constructor; auto.
  - apply orb_true_iff in H as [H|H]; [apply MOrL | apply MOrR]; auto.
  - constructor.
Qed.

Lemma deriv_sound (c : N) (r : regex) :
  forall s, Matches (deriv c r) s -> Matches r (c :: s).
Proof.
  induction r; simpl; intros s H.
  - inversion H.
  - inversion H.
  - destruct (p c) eqn:Hp; inversion H; subst. constructor; assumption.
  - destruct (nullable r1) eqn:Hn.
    + inversion H as [| | | ? ? ? HL | ? ? ? HR | |]; subst.
      * inversion HL; subst.
        change (Matches (Seq r1 r2) ((c :: s1) ++ s2)). constructor; auto.
      * change (Matches (Seq r1 r2) ([] ++ c :: s)).
        constructor; auto using nullable_matches_nil.
    + inversion H; subst.
      change (Matches (Seq r1 r2) ((c :: s1) ++ s2)). constructor; auto.
  - inversion H; subst; [apply MOrL | apply MOrR]; auto.
  - inversion H; subst.
    change (Matches (Star r) ((c :: s1) ++ s2)). constructor; auto.
Qed.

Lemma deriv_complete (c : N) (r : regex) (s : Js.str) :
  Matches r (c :: s) -> Matches (deriv c r) s.
Proof.
  intros H. remember (c :: s) as t eqn:Ht. revert s Ht.
  induction H; intros s' Ht; simpl.
  - discriminate.
  - injection Ht as -> <-. rewrite H. constructor.
  - destruct s1 as [|c1 s1].
    + simpl in Ht. subst s2.
      rewrite (matches_nil_nullable _ H). apply MOrR. auto.
    + simpl in Ht. injection Ht as -> <-.
      destruct (nullable r1); [apply MOrL|]; constructor; auto.
  - apply MOrL; auto.
  - apply MOrR; auto.
  - discriminate.
  - destruct s1 as [|c1 s1].
    + simpl in Ht. exact (IHMatches2 _ Ht).
    + simpl in Ht. injection Ht as -> <-. constructor; auto.
Qed.

Lemma test_spec (r : regex) (s : Js.str) : test r s = true <-> Matches r s.
Proof.
  revert r. induction s as [|c s IH]; intros r; simpl.
  - split; auto using matches_nil_nullable, nullable_matches_nil.
  - rewrite IH. split; auto using deriv_sound, deriv_complete.
Qed.

Lemma matches_seq (r1 r2 : regex) (s : Js.str) :
  Matches (Seq r1 r2) s <->
  exists s1 s2, s = s1 ++ s2 /\ Matches r1 s1 /\ Matches r2 s2.
Proof.
  split.
  - intros H. inversion H; subst. eauto.
  - intros (s1 & s2 & -> & H1 & H2). constructor; auto.
Qed.

Lemma matches_times_class (p : N -> bool) (n : nat) (s : Js.str) :
  Matches (times n (Class p)) s <->
  length s = n /\ Forall (fun c => p c = true) s.
Proof.
  revert s. induction n as [|n IH]; intros s; simpl.
  - split.
    + intros H. inversion H. auto.
    + intros [Hl _]. destruct s; [constructor | discriminate].
  - rewrite matches_seq. split.
    + intros (s1 & s2 & -> & H1 & H2). inversion H1; subst.
      apply IH in H2 as [Hl Hf]. simpl. auto.
    + intros [Hl Hf]. destruct s as [|c s]; [discriminate|].
      inversion Hf; subst. exists [c], s. repeat split.
      * constructor; assumption.
      * apply IH. simpl in Hl. auto.
Qed.

Lemma matches_upto_class (p : N -> bool) (k : nat) (s : Js.str) :
  Matches (upto k (Class p)) s <->
  length s <= k /\ Forall (fun c => p c = true) s.
Proof.
  revert s. induction k as [|k IH]; intros s; simpl.
  - split.
    + intros H. inversion H. auto.
    + intros [Hl _]. destruct s; [constructor | simpl in Hl; lia].
  - unfold opt. split.
    + intros H. inversion H as [| | | ? ? ? HL | ? ? ? HR | |]; subst.
      * inversion HL. split; [simpl; lia | constructor].
      * apply matches_seq in HR as (s1 & s2 & -> & H1 & H2).
        inversion H1; subst. apply IH in H2 as [Hl Hf]. simpl.
        split; [lia | auto].
    + intros [Hl Hf]. destruct s as [|c s]; [apply MOrL; constructor|].
      inversion Hf; subst. apply MOrR.
      change (Matches (Seq (Class p) (upto k (Class p))) ([c] ++ s)).
      constructor; [constructor; assumption|].
      apply IH. simpl in Hl. split; [lia | assumption].
Qed.

Lemma matches_between_class (p : N -> bool) (n m : nat) (s : Js.str) :
  n <= m ->
  Matches (between n m (Class p)) s <->
  n <= length s <= m /\ Forall (fun c => p c = true) s.
Proof.
  intros Hnm. unfold between. rewrite matches_seq. split.
  - intros (s1 & s2 & -> & H1 & H2).
    apply matches_times_class in H1 as [Hl1 Hf1].
    apply matches_upto_class in H2 as [Hl2 Hf2].
    rewrite length_app. split; [lia | apply Forall_app; auto].
  - intros [Hl Hf]. exists (take n s), (drop n s). repeat split.
    + symmetry. apply take_drop.
    + apply matches_times_class. split.
      * rewrite length_take. lia.
      * apply Forall_take. assumption.
    + apply matches_upto_class. split.
      * rewrite length_drop. lia.
      * apply Forall_drop. assumption.
Qed.

(** The language of [^[A-Z]{lo,hi}\d{1,4}$] is the flight numbers with an
    airline code of [lo] to [hi] letters. *)
Lemma matches_flight_number (lo hi : nat) (s : Js.str) :
  lo <= hi ->
  Matches (Seq (between lo hi (Class Js.isUpper)) (between 1 4 (Class Js.isDigit))) s
  <-> Spec.airlineFlightNumber lo hi s.
Proof.
  intros Hlh. rewrite matches_seq. unfold Spec.airlineFlightNumber. split.
  - intros (s1 & s2 & -> & H1 & H2).
    apply (matches_between_class _ _ _ _ Hlh) in H1 as [Hl1 Hf1].
    apply matches_between_class in H2 as [Hl2 Hf2]; [|lia].
    exists s1, s2. auto.
  - intros (s1 & s2 & -> & Hl1 & Hf1 & Hl2 & Hf2).
    exists s1, s2. repeat split.
    + apply matches_between_class; auto.
    + apply matches_between_class; auto.
Qed.

End ReFacts.

(** ** The validation engine *)

Module ValidationFacts.

Import airlinesValidators validationSchemas.

(** An error of a pattern check is its message. *)
Lemma pattern_errors (value : Js.str) (p : Re.regex) (msg x : Js.str) :
  In x (errors (validators.pattern value p msg)) ->
  x = msg /\ Re.test p value = false.
Proof.
  unfold validators.pattern. simpl.
  destruct (Re.test p value); simpl; intros H; [contradiction|].
  destruct H as [<- | []]. auto.
Qed.

Lemma pattern_reports (value : Js.str) (p : Re.regex) (msg : Js.str) :
  Re.test p value = false ->
  errors (validators.pattern value p msg) = [msg].
Proof. unfold validators.pattern. simpl. intros ->. reflexivity. Qed.

(** The validity flag of a domain validator says that no error was
    collected. *)
Lemma flight_valid_no_errors (e : Env) (data : FlightData) :
  isValid (flight e data) = true <-> errors (flight e data) = [].
Proof. unfold flight. simpl. apply bool_decide_eq_true. Qed.

(** The flight-number message is reported by the flight-number check and by
    no other check of [flight]. *)
Lemma flight_number_error (e : Env) (data : FlightData) :
  In (message flightNumber) (errors (flight e data))
  <-> Re.test (pattern flightNumber) (fd_flightNumber data) = false.
Proof.
  unfold flight. cbn [errors]. rewrite !in_app_iff. split.
  - intros [H | [H | [H | [H | [H | [H | H]]]]]].
    + apply pattern_errors in H. tauto.
    + apply pattern_errors in H as [H _]. vm_compute in H. discriminate H.
    + apply pattern_errors in H as [H _]. vm_compute in H. discriminate H.
    + destruct (Date.parse e (time (fd_departure data))); simpl in H;
        [contradiction|]. destruct H as [H | []]. vm_compute in H. discriminate H.
    + destruct (Date.parse e (time (fd_arrival data))); simpl in H;
        [contradiction|]. destruct H as [H | []]. vm_compute in H. discriminate H.
    + destruct (Date.parse e (time (fd_departure data))) as [d|];
        destruct (Date.parse e (time (fd_arrival data))) as [a|];
        simpl in H; try contradiction.
      destruct (a <=? d)%Z; simpl in H; [|contradiction].
      destruct H as [H | []]. vm_compute in H. discriminate H.
    + unfold validators.range in H. cbn [errors] in H.
      match type of H with
      | In _ (if ?c then _ else _) => destruct c
      end; simpl in H; [contradiction|].
      destruct H as [H | []]. vm_compute in H. discriminate H.
  - intros H. left. rewrite (pattern_reports _ _ _ H). left. reflexivity.
Qed.

(** The code's pattern [^[A-Z]{2}\d{1,4}$] in words. *)
Lemma flight_number_pattern_spec (s : Js.str) :
  Re.test (pattern flightNumber) s = true <-> Spec.airlineFlightNumber 2 2 s.
Proof.
  rewrite ReFacts.test_spec. unfold validationSchemas.flightNumber, validationSchemas.pattern.
  rewrite <- (ReFacts.matches_flight_number 2 2 s (le_n 2)).
  rewrite !ReFacts.matches_seq. split.
  - intros (s1 & s2 & -> & H1 & H2). exists s1, s2. repeat split; [|assumption].
    apply ReFacts.matches_between_class; [lia|].
    apply ReFacts.matches_times_class in H1 as [Hl Hf]. split; [lia | assumption].
  - intros (s1 & s2 & -> & H1 & H2). exists s1, s2. repeat split; [|assumption].
    apply ReFacts.matches_between_class in H1 as [Hl Hf]; [|lia].
    apply ReFacts.matches_times_class. split; [lia | assumption].
Qed.

(** The specification's pattern [^[A-Z]{2,3}\d{1,4}$] in words. *)
Lemma spec_flight_number_pattern_spec (s : Js.str) :
  Re.test Spec.flightNumberPattern s = true <-> Spec.airlineFlightNumber 2 3 s.
Proof.
  rewrite ReFacts.test_spec. unfold Spec.flightNumberPattern.
  apply ReFacts.matches_flight_number. lia.
Qed.

(** C7, as stated, fails: "ABC123" is a 3-letter uppercase airline code
    followed by 3 digits, so it matches [^[A-Z]{2,3}\d{1,4}$], yet the flight
    validator reports the flight-number error for it (and nothing else for
    this record). *)
Lemma C7_three_letter_code_rejected :
  Spec.airlineFlightNumber 2 3 (Js.lit "ABC123")
  /\ Re.test Spec.flightNumberPattern (Js.lit "ABC123") = true
  /\ errors (flight Sample.env (Sample.flightData (Js.lit "ABC123")))
     = [message flightNumber].
Proof.
  split; [|split].
  - apply spec_flight_number_pattern_spec. vm_compute. reflexivity.
  - vm_compute. reflexivity.
  - vm_compute. reflexivity.
Qed.

(** C7, amended: for every directly entered flight record, the flight
    validator accepts the flight number (collects no flight-number error)
    exactly when it is a 2-letter uppercase airline code followed by 1 to 4
    digits, that is when it matches [^[A-Z]{2}\d{1,4}$], and reports the
    flight-number error otherwise. *)
Theorem C7_flight_number_two_letter_code (e : Env) (data : FlightData) :
  (~ In (message flightNumber) (errors (flight e data))
   <-> Spec.airlineFlightNumber 2 2 (fd_flightNumber data))
  /\ (In (message flightNumber) (errors (flight e data))
      <-> ~ Spec.airlineFlightNumber 2 2 (fd_flightNumber data)).
Proof.
  rewrite flight_number_error, <- flight_number_pattern_spec.
  destruct (Re.test (pattern flightNumber) (fd_flightNumber data));
    intuition congruence.
Qed.

(** When the date validator passes on a string whose time value is midnight
    UTC of the local current day, [futureDate] accepts it exactly when local
    time, at the midnight that began the day, is not behind UTC. *)
Lemma futureDate_of_local_day (e : Env) (value : Js.str) :
  isValid (validators.date e value) = true ->
  Date.parse e value
  = Some (Date.localTime e (now e) / Date.msPerDay * Date.msPerDay)%Z ->
  isValid (validators.futureDate e value)
  = (0 <=? localTZA e (Date.localTime e (now e) / Date.msPerDay * Date.msPerDay) false)%Z.
Proof.
  intros Hd Hp. unfold validators.futureDate. rewrite Hd. cbn [negb isValid].
  rewrite Hp. unfold Date.startOfLocalDay, Date.utcTime.
  set (D := (Date.localTime e (now e) / Date.msPerDay * Date.msPerDay)%Z).
  destruct (Z.leb_spec 0 (localTZA e D false));
    [apply Z.leb_le | apply Z.leb_gt]; lia.
Qed.

(** C6: at noon of 2026-11-03 in a zone five hours behind UTC, the string
    "2026-11-03" passes the date validator and names the local current day,
    and [futureDate] rejects it with "Please select a future date"; on a
    machine whose local time is UTC the same call accepts it. *)
Theorem C6_today_rejected_behind_UTC :
  isValid (validators.date Sample.env (Js.lit "2026-11-03")) = true
  /\ Date.dateOnlyFields (Js.lit "2026-11-03") = Some (2026, 11, 3)%Z
  /\ Date.localDate Sample.env (now Sample.env) = (2026, 11, 3)%Z
  /\ validators.futureDate Sample.env (Js.lit "2026-11-03")
     = {| isValid := false; errors := [Js.lit "Please select a future date"] |}
  /\ isValid (validators.futureDate Sample.envUTC (Js.lit "2026-11-03")) = true.
Proof. repeat split; vm_compute; reflexivity. Qed.

End ValidationFacts.

(** ** The booking workflow *)

Module WorkflowFacts.

Import BookingFlow.

Lemma truthy_true (s : Js.str) : Js.truthy s = true <-> s <> [].
Proof. destruct s; simpl; split; congruence. Qed.

Lemma blank_false (s : Js.str) : Js.blank s = false <-> Js.truthy (Js.trim s) = true.
Proof. unfold Js.blank. destruct (Js.truthy (Js.trim s)); simpl; split; congruence. Qed.

Lemma leb_nat_true (a b : nat) : (a <=? b)%nat = true <-> a <= b.
Proof. apply Nat.leb_le. Qed.

(** *** The payment guard *)



(** *** The guard of the passenger step *)

Lemma passengerFilled_spec (p : Passenger) :
  passengerFilled p = true <->
  Js.blank (firstName p) = false /\ Js.blank (lastName p) = false
  /\ dateOfBirth p <> [] /\ title p <> [].
Proof.
  unfold passengerFilled.
  rewrite !andb_true_iff, !blank_false, !truthy_true. tauto.
Qed.

Lemma validatePassengerDetails_spec (m : Machine) :
  validatePassengerDetails m = true <->
  Forall (fun p => Js.blank (firstName p) = false /\ Js.blank (lastName p) = false
                   /\ dateOfBirth p <> [] /\ title p <> [])
    (passengers (bookingData m))
  /\ contactEmail (contactInfo (bookingData m)) <> []
  /\ contactPhone (contactInfo (bookingData m)) <> [].
Proof.
  unfold validatePassengerDetails.
  rewrite !andb_true_iff, !truthy_true, forallb_forall, Forall_forall.
  split.
  - intros [[H He] Hp]. split; [|split; assumption].
    intros p Hin. apply passengerFilled_spec. apply H.
    apply list_elem_of_In. exact Hin.
  - intros (H & He & Hp). split; [split; [|assumption]|assumption].
    intros p Hin. apply passengerFilled_spec. apply H.
    apply list_elem_of_In. exact Hin.
Qed.

(** C1, as stated, fails: with John Doe as only passenger and "john" as his
    email, the passenger validator rejects the record (and so does the guard
    the claim describes), yet the advance request moves the step from
    'passenger-details' to 'payment'. *)
Lemma C1_bad_email_advances :
  isValid (airlinesValidators.passenger Sample.env
             (Spec.asPassengerData Sample.johnBadEmail)) = false
  /\ Spec.passengerGuard Sample.env (Sample.atPassengerDetails Sample.johnBadEmail) = false
  /\ currentStep (Sample.atPassengerDetails Sample.johnBadEmail) = PassengerDetails
  /\ currentStep (handleStepNavigation Payment
                    (Sample.atPassengerDetails Sample.johnBadEmail)) = Payment.
Proof. repeat split; vm_compute; reflexivity. Qed.

(** C1, amended: for every workflow state with current step
    'passenger-details', an advance request moves the step to 'payment' if
    and only if every passenger has a first and a last name that are not
    blank, a non-empty date of birth and a non-empty title, and the contact
    email and phone are not empty; when this guard fails, the current step
    stays 'passenger-details'. *)
Theorem C1_advance_iff_details_filled (m : Machine) :
  currentStep m = PassengerDetails ->
  (currentStep (handleStepNavigation Payment m) = Payment <->
   Forall (fun p => Js.blank (firstName p) = false /\ Js.blank (lastName p) = false
                    /\ dateOfBirth p <> [] /\ title p <> [])
     (passengers (bookingData m))
   /\ contactEmail (contactInfo (bookingData m)) <> []
   /\ contactPhone (contactInfo (bookingData m)) <> [])
  /\ (validatePassengerDetails m = false ->
      currentStep (handleStepNavigation Payment m) = PassengerDetails).
Proof.
  intros Hstep. rewrite <- validatePassengerDetails_spec.
  unfold handleStepNavigation. rewrite Hstep.
  destruct (validatePassengerDetails m); simpl; rewrite ?Hstep;
    intuition congruence.
Qed.

(** The amended guard of C1 holds of John Doe on the passenger step, and the
    advance moves him to the payment step. *)
Lemma C1_advance_iff_details_filled_witness :
  currentStep (Sample.atPassengerDetails Sample.john) = PassengerDetails
  /\ currentStep (handleStepNavigation Payment (Sample.atPassengerDetails Sample.john))
     = Payment.
Proof.
  split; [reflexivity|].
  apply (C1_advance_iff_details_filled (Sample.atPassengerDetails Sample.john));
    [reflexivity|].
  repeat split; try (vm_compute; discriminate).
  repeat constructor; vm_compute; try reflexivity; discriminate.
Defined.

(** *** The booking reference *)

Lemma upper_of_base36 (c : N) :
  Js.isDigit c || Js.isLower c = true ->
  (let c' := if Js.isLower c then (c - 32)%N else c in
   Js.isUpper c' || Js.isDigit c' = true).
Proof.
  unfold Js.isDigit, Js.isLower, Js.isUpper. intros H.
  destruct ((97 <=? c)%N && (c <=? 122)%N) eqn:Hl; cbv zeta.
  - apply andb_true_iff in Hl as [H1 H2]. apply N.leb_le in H1, H2.
    apply orb_true_iff. left. apply andb_true_iff. split; apply N.leb_le; lia.
  - rewrite orb_false_r in H. rewrite H. apply orb_true_r.
Qed.

Lemma upperAlnum_toUpperCase (s : Js.str) :
  Forall (fun c => Js.isDigit c || Js.isLower c = true) s ->
  Spec.upperAlnum (Js.toUpperCase s) = true.
Proof.
  induction 1 as [|c s Hc _ IH]; [reflexivity|].
  unfold Spec.upperAlnum, Js.toUpperCase in *. simpl.
  rewrite IH. rewrite (upper_of_base36 c Hc). reflexivity.
Qed.

(** The token cut out of a base-36 numeral by [substr(2, 8)]. *)
Lemma reference_token (r : Js.str) :
  Spec.radix36Fraction r ->
  length (Js.toUpperCase (Js.substr 2 8 r)) <= 8
  /\ Spec.upperAlnum (Js.toUpperCase (Js.substr 2 8 r)) = true
  /\ (10 <= length r -> length (Js.toUpperCase (Js.substr 2 8 r)) = 8).
Proof.
  intros Hr. unfold Js.toUpperCase at 1 3, Js.substr.
  rewrite !length_map, !length_take, !length_drop.
  split; [lia|]. split; [|lia].
  apply upperAlnum_toUpperCase.
  destruct Hr as [-> | (ds & -> & _ & Hds)].
  - constructor.
  - apply Forall_take. exact Hds.
Qed.

Lemma buildConfirmation_reference (e : Env) (props : Props)
    (captured : list Passenger) (r1 r2 iso : Js.str) (c : BookingConfirmation) :
  buildConfirmation e props captured r1 r2 iso = Some c ->
  bookingReference c = Js.lit "AD" ++ Js.toUpperCase (Js.substr 2 8 r1).
Proof.
  unfold buildConfirmation.
  destruct (itineraries (selectedFlight props)) as [|it ?]; [discriminate|].
  destruct (segments it) as [|sg ?]; [discriminate|].
  intros [= <-]. reflexivity.
Qed.

(** A confirmation that appears when a call settles was built by it. *)
Lemma settle_creates (e : Env) (props : Props) (o : Settlement) (m : Machine)
    (c : BookingConfirmation) :
  confirmation m = None ->
  confirmation (processBooking_settle e props o m) = Some c ->
  exists captured rest r1 r2 iso,
    inFlight m = captured :: rest
    /\ o = Fulfilled r1 r2 iso
    /\ buildConfirmation e props captured r1 r2 iso = Some c.
Proof.
  intros Hnone. unfold processBooking_settle.
  destruct (inFlight m) as [|captured rest]; [congruence|].
  destruct o as [r1 r2 iso|].
  - destruct (buildConfirmation e props captured r1 r2 iso) as [c'|] eqn:Hb;
      simpl; [|congruence].
    intros [= <-]. exists captured, rest, r1, r2, iso. auto.
  - simpl. congruence.
Qed.

(** C8, as stated, fails: the submission of the sample booking with the
    random numeral "0.4fzyo82mvyr" yields the reference "AD4FZYO82M", of 10
    characters. *)
Lemma C8_reference_has_ten_characters :
  option_map bookingReference
    (confirmation
       (processBooking_settle Sample.env Sample.props
          (Fulfilled Sample.random Sample.random Sample.isoNow) Sample.submitting))
  = Some (Js.lit "AD4FZYO82M")
  /\ length (Js.lit "AD4FZYO82M") = 10.
Proof. split; vm_compute; reflexivity. Qed.

(** C8, amended: every BookingConfirmation produced by a successful
    submission has a bookingReference made of the prefix "AD" followed by a
    token of at most 8 uppercase alphanumeric characters, exactly 8 when the
    random base-36 numeral has at least 8 digits after "0."; the reference as
    a whole is uppercase alphanumeric, of at most 10 characters. *)
Theorem C8_booking_reference_shape (e : Env) (props : Props) (m : Machine)
    (r1 r2 iso : Js.str) (c : BookingConfirmation) :
  Spec.radix36Fraction r1 ->
  confirmation m = None ->
  confirmation (processBooking_settle e props (Fulfilled r1 r2 iso) m) = Some c ->
  exists token : Js.str,
    bookingReference c = Js.lit "AD" ++ token
    /\ length token <= 8
    /\ Spec.upperAlnum token = true
    /\ (10 <= length r1 -> length token = 8)
    /\ Spec.upperAlnum (bookingReference c) = true
    /\ length (bookingReference c) <= 10.
Proof.
  intros Hr Hnone Hsome.
  destruct (settle_creates _ _ _ _ _ Hnone Hsome)
    as (captured & rest & r1' & r2' & iso' & _ & [= <- <- <-] & Hb).
  apply buildConfirmation_reference in Hb.
  destruct (reference_token r1 Hr) as (Hlen & Hup & Hfull).
  exists (Js.toUpperCase (Js.substr 2 8 r1)). rewrite Hb.
  split; [reflexivity|]. split; [assumption|]. split; [assumption|].
  split; [assumption|]. split.
  - unfold Spec.upperAlnum in *. rewrite forallb_app, Hup. reflexivity.
  - rewrite length_app. change (length (Js.lit "AD")) with 2. lia.
Qed.

(** The sample submission settles with a reference of the amended shape. *)
Lemma C8_booking_reference_shape_witness :
  exists c : BookingConfirmation,
    confirmation
      (processBooking_settle Sample.env Sample.props
         (Fulfilled Sample.random Sample.random Sample.isoNow) Sample.submitting)
    = Some c
    /\ exists token : Js.str,
         bookingReference c = Js.lit "AD" ++ token
         /\ length token <= 8
         /\ Spec.upperAlnum token = true
         /\ (10 <= length Sample.random -> length token = 8)
         /\ Spec.upperAlnum (bookingReference c) = true
         /\ length (bookingReference c) <= 10.
Proof.
  eexists. split; [vm_compute; reflexivity|].
  apply (C8_booking_reference_shape Sample.env Sample.props Sample.submitting
           Sample.random Sample.random Sample.isoNow).
  - right. exists (Js.lit "4fzyo82mvyr"). split; [reflexivity|]. split.
    + vm_compute. discriminate.
    + repeat constructor.
  - reflexivity.
  - vm_compute. reflexivity.
Defined.

(** *** What the handlers leave alone *)

Lemma handleStepNavigation_frame (n : BookingStep) (m : Machine) :
  bookingData (handleStepNavigation n m) = bookingData m
  /\ paymentDetails (handleStepNavigation n m) = paymentDetails m
  /\ specialRequests (handleStepNavigation n m) = specialRequests m
  /\ confirmation (handleStepNavigation n m) = confirmation m.
Proof.
  unfold handleStepNavigation.
  destruct n, (currentStep m); try (repeat split; reflexivity).
  - destruct (validatePassengerDetails m); repeat split; reflexivity.
  - destruct (validatePaymentDetails m); repeat split; reflexivity.
Qed.

(** [handleStepNavigation] moves the step only as the transition table
    says, one position forward, and never to 'confirmation'. *)
Lemma handleStepNavigation_step (n : BookingStep) (m : Machine) :
  currentStep (handleStepNavigation n m) = currentStep m
  \/ (currentStep m = FlightSelected /\ n = PassengerDetails
      /\ currentStep (handleStepNavigation n m) = PassengerDetails)
  \/ (currentStep m = PassengerDetails /\ n = Payment
      /\ validatePassengerDetails m = true
      /\ currentStep (handleStepNavigation n m) = Payment).
Proof.
  unfold handleStepNavigation.
  destruct n, (currentStep m) eqn:Hs; auto.
  - destruct (validatePassengerDetails m) eqn:Hv; simpl; auto 10.
  - destruct (validatePaymentDetails m); simpl; auto.
Qed.

(** [handleBack] moves to the immediate predecessor from the two middle
    steps and does nothing elsewhere. *)
Lemma handleBack_step (m : Machine) :
  currentStep (handleBack m)
  = match currentStep m with
    | PassengerDetails => FlightSelected
    | Payment => PassengerDetails
    | s => s
    end.
Proof. unfold handleBack. destruct (currentStep m) eqn:Hs; simpl; auto. Qed.

(** Every control other than the settling of the submission moves the step
    by at most one position. *)
Lemma dispatch_moves_one (e : Env) (props : Props) (ev : Event) (m : Machine) :
  (forall o, ev <> Settle o) ->
  (Z.abs (position (currentStep (dispatch e props ev m)) - position (currentStep m))
   <= 1)%Z.
Proof.
  intros Hev.
  assert (Hsame : (Z.abs (position (currentStep m) - position (currentStep m)) <= 1)%Z)
    by (rewrite Z.sub_diag; simpl; lia).
  assert (Hnav : forall n,
            (Z.abs (position (currentStep (handleStepNavigation n m))
                    - position (currentStep m)) <= 1)%Z).
  { intros n. destruct (handleStepNavigation_step n m)
      as [-> | [(-> & _ & ->) | (-> & _ & _ & ->)]]; simpl; lia. }
  unfold dispatch. destruct ev.
  - destruct (showsStep FlightSelected m); [apply Hnav | exact Hsame].
  - destruct (_ && _); [|exact Hsame].
    unfold handlePassengerUpdate. destruct (index =? 0)%nat; exact Hsame.
  - destruct (showsStep PassengerDetails m); exact Hsame.
  - destruct (_ && _); [apply Hnav | exact Hsame].
  - destruct (_ || _); [|exact Hsame].
    rewrite handleBack_step. destruct (currentStep m); simpl; lia.
  - destruct (showsStep Payment m); exact Hsame.
  - destruct (_ && _); [apply Hnav | exact Hsame].
  - exfalso. exact (Hev o eq_refl).
Qed.

(** *** Submissions in flight *)

(** In every state a user can reach, the processing flag is set exactly
    while one call of [processBooking] is waiting, and no second call is. *)
Lemma reachable_inFlight (e : Env) (props : Props) (m : Machine) :
  reachable e props m ->
  (inFlight m = [] /\ isProcessing m = false)
  \/ (exists captured, inFlight m = [captured] /\ isProcessing m = true).
Proof.
  induction 1 as [|m ev Hr IH]; [left; split; reflexivity|].
  assert (Hkeep : forall m', inFlight m' = inFlight m ->
                             isProcessing m' = isProcessing m ->
            (inFlight m' = [] /\ isProcessing m' = false)
            \/ (exists captured, inFlight m' = [captured] /\ isProcessing m' = true)).
  { intros m' -> ->. exact IH. }
  unfold dispatch. destruct ev.
  - destruct (showsStep FlightSelected m); [|exact IH].
    unfold handleStepNavigation.
    destruct (currentStep m); apply Hkeep; reflexivity.
  - destruct (_ && _); [|exact IH].
    unfold handlePassengerUpdate.
    destruct (index =? 0)%nat; apply Hkeep; reflexivity.
  - destruct (showsStep PassengerDetails m); [|exact IH].
    apply Hkeep; reflexivity.
  - destruct (_ && _); [|exact IH].
    unfold handleStepNavigation.
    destruct (currentStep m); try (apply Hkeep; reflexivity).
    destruct (validatePassengerDetails m); apply Hkeep; reflexivity.
  - destruct (_ || _); [|exact IH].
    unfold handleBack.
    destruct (currentStep m); apply Hkeep; reflexivity.
  - destruct (showsStep Payment m); [|exact IH].
    apply Hkeep; reflexivity.
  - destruct (showsStep Payment m && validatePaymentDetails m
              && negb (isProcessing m)) eqn:Hc; [|exact IH].
    apply andb_true_iff in Hc as [_ Hp]. apply negb_true_iff in Hp.
    destruct IH as [[Hq _] | (? & _ & ?)]; [|congruence].
    unfold handleStepNavigation.
    destruct (currentStep m); try (left; split; assumption).
    destruct (validatePaymentDetails m).
    + right. exists (passengers (bookingData m)). simpl.
      rewrite Hq. split; reflexivity.
    + left. split; assumption.
  - unfold processBooking_settle.
    destruct IH as [[Hq Hp] | (captured & Hq & Hp)]; rewrite Hq.
    + left. split; assumption.
    + left. split; [|reflexivity].
      destruct o as [r1 r2 iso|];
        [destruct (buildConfirmation e props captured r1 r2 iso)|]; reflexivity.
Qed.

(** The denial is the control's, not the handler's: [handleStepNavigation]
    does not read the processing flag, and a call of it for 'confirmation'
    with the sample card entered and a submission under way would start a
    second call of [processBooking].  The component makes no such call: its
    one call site is the click handler of "Complete Booking", which is
    disabled while the flag is set. *)
Lemma handler_does_not_read_flag :
  currentStep Sample.submitting = Payment
  /\ isProcessing Sample.submitting = true
  /\ length (inFlight Sample.submitting) = 1
  /\ length (inFlight (handleStepNavigation Confirmation Sample.submitting)) = 2.
Proof. repeat split; vm_compute; reflexivity. Qed.

(** C2: for every workflow state in which a submission is outstanding (the
    processing flag is set), a further advance request from the 'payment'
    step, which the component takes only as a click on "Complete Booking",
    is denied: the state is left as it is, so the current step does not
    change, the booking data are not altered, and no second call of
    processBooking starts.  Moreover the handler behind the control,
    handleStepNavigation('confirmation'), itself changes neither the current
    step nor the booking data, payment details or special requests, and
    starts no call when the payment guard fails. *)
Theorem C2_no_advance_while_processing (e : Env) (props : Props) (m : Machine) :
  isProcessing m = true ->
  dispatch e props ClickCompleteBooking m = m
  /\ currentStep (handleStepNavigation Confirmation m) = currentStep m
  /\ bookingData (handleStepNavigation Confirmation m) = bookingData m
  /\ paymentDetails (handleStepNavigation Confirmation m) = paymentDetails m
  /\ specialRequests (handleStepNavigation Confirmation m) = specialRequests m
  /\ (validatePaymentDetails m = false ->
      inFlight (handleStepNavigation Confirmation m) = inFlight m).
Proof.
  intros Hp. split.
  - simpl. rewrite Hp. rewrite !andb_false_r. reflexivity.
  - destruct (handleStepNavigation_frame Confirmation m) as (Hb & Hd & Hs & _).
    repeat split; try assumption.
    + unfold handleStepNavigation.
      destruct (currentStep m) eqn:Hstep; simpl; try assumption.
      destruct (validatePaymentDetails m); simpl; assumption.
    + intros Hv. unfold handleStepNavigation.
      destruct (currentStep m); try reflexivity. rewrite Hv. reflexivity.
Qed.

(** While the sample submission is under way, a click on "Complete Booking"
    changes nothing. *)
Lemma C2_no_advance_while_processing_witness :
  isProcessing Sample.submitting = true
  /\ dispatch Sample.env Sample.props ClickCompleteBooking Sample.submitting
     = Sample.submitting.
Proof.
  split; [reflexivity|].
  apply (C2_no_advance_while_processing Sample.env Sample.props Sample.submitting).
  reflexivity.
Defined.

(** *** A failed submission *)

Lemma settle_failure (e : Env) (props : Props) (o : Settlement) (m : Machine)
    (captured : list Passenger) (rest : list (list Passenger)) :
  inFlight m = captured :: rest ->
  Spec.submissionFails e props captured o ->
  processBooking_settle e props o m
  = setIsProcessing false
      (alert (Js.lit "Booking failed. Please try again.") (setInFlight rest m)).
Proof.
  intros Hq Hf. unfold processBooking_settle. rewrite Hq.
  destruct o as [r1 r2 iso|]; simpl in Hf; [rewrite Hf|]; reflexivity.
Qed.

(** C4: when the submission started from the 'payment' step fails (the
    awaited promise is rejected, or the body of the try block throws), the
    confirmation cell is what it was (no BookingConfirmation is created), the
    current step is still 'payment', and the passengers, the contact info,
    the payment details and the special requests are those of the state
    before the submission; the failure is reported and the flag is
    lowered. *)
Theorem C4_failed_submission_keeps_state (e : Env) (props : Props)
    (o : Settlement) (m : Machine) :
  currentStep m = Payment ->
  validatePaymentDetails m = true ->
  inFlight m = [] ->
  Spec.submissionFails e props (passengers (bookingData m)) o ->
  let m' := processBooking_settle e props o (handleStepNavigation Confirmation m) in
  confirmation m' = confirmation m
  /\ currentStep m' = Payment
  /\ bookingData m' = bookingData m
  /\ paymentDetails m' = paymentDetails m
  /\ specialRequests m' = specialRequests m
  /\ isProcessing m' = false
  /\ alerts m' = alerts m ++ [Js.lit "Booking failed. Please try again."].
Proof.
  intros Hs Hv Hq Hf m'. subst m'.
  unfold handleStepNavigation. rewrite Hs, Hv.
  rewrite (settle_failure e props o _ (passengers (bookingData m)) []).
  - simpl. repeat split; auto.
  - simpl. rewrite Hq. reflexivity.
  - exact Hf.
Qed.

(** The sample payment, submitted for an offer without itinerary, fails and
    leaves the workflow on 'payment' with no confirmation. *)
Lemma C4_failed_submission_keeps_state_witness :
  let m := Sample.atPayment Sample.card in
  let m' := processBooking_settle Sample.env Sample.propsEmptyOffer
              (Fulfilled Sample.random Sample.random Sample.isoNow)
              (handleStepNavigation Confirmation m) in
  confirmation m' = None
  /\ currentStep m' = Payment
  /\ bookingData m' = bookingData m
  /\ paymentDetails m' = paymentDetails m
  /\ specialRequests m' = specialRequests m
  /\ isProcessing m' = false
  /\ alerts m' = alerts m ++ [Js.lit "Booking failed. Please try again."].
Proof.
  apply (C4_failed_submission_keeps_state Sample.env Sample.propsEmptyOffer
           (Fulfilled Sample.random Sample.random Sample.isoNow)
           (Sample.atPayment Sample.card)); reflexivity.
Defined.

(** The state of a waiting call at the moment it fails is kept as well,
    whatever was done to the component in the meantime. *)
Lemma failed_settle_frame (e : Env) (props : Props) (o : Settlement) (m : Machine)
    (captured : list Passenger) (rest : list (list Passenger)) :
  inFlight m = captured :: rest ->
  Spec.submissionFails e props captured o ->
  let m' := processBooking_settle e props o m in
  confirmation m' = confirmation m
  /\ currentStep m' = currentStep m
  /\ bookingData m' = bookingData m
  /\ paymentDetails m' = paymentDetails m
  /\ specialRequests m' = specialRequests m.
Proof.
  intros Hq Hf m'. subst m'. rewrite (settle_failure _ _ _ _ _ _ Hq Hf).
  repeat split; reflexivity.
Qed.

(** *** Order of the steps *)

(** C5: in the sample booking the user clicks "Complete Booking" and then
    Back while the submission is under way; the state reached is on
    'passenger-details' with the call still waiting, and when the call
    settles the step becomes 'confirmation': two positions forward, past
    'payment', by an event that is no advance. *)
Theorem C5_back_then_settle_skips_payment :
  let m := run Sample.env Sample.props Sample.backDuringSubmission
             (init Sample.props) in
  let m' := dispatch Sample.env Sample.props
              (Settle (Fulfilled Sample.random Sample.random Sample.isoNow)) m in
  currentStep m = PassengerDetails
  /\ length (inFlight m) = 1
  /\ currentStep m' = Confirmation
  /\ (position (currentStep m') - position (currentStep m) = 2)%Z.
Proof. repeat split; vm_compute; reflexivity. Qed.

(** *** The passenger update *)

(** C9: for every state, every index within the passenger sequence and
    every passenger record, updating twice with the same index and record
    gives the state that updating once gives. *)
Theorem C9_passenger_update_idempotent (m : Machine) (index : nat) (p : Passenger) :
  index < length (passengers (bookingData m)) ->
  handlePassengerUpdate index p (handlePassengerUpdate index p m)
  = handlePassengerUpdate index p m.
Proof.
  intros _. unfold handlePassengerUpdate.
  destruct (index =? 0)%nat; simpl; rewrite list_insert_insert_eq; reflexivity.
Qed.

(** Updating the primary passenger of the sample booking twice with John
    Doe is updating it once. *)
Lemma C9_passenger_update_idempotent_witness :
  0 < length (passengers (bookingData (init Sample.props)))
  /\ handlePassengerUpdate 0 Sample.john
       (handlePassengerUpdate 0 Sample.john (init Sample.props))
     = handlePassengerUpdate 0 Sample.john (init Sample.props).
Proof.
  split; [simpl; lia|].
  apply (C9_passenger_update_idempotent (init Sample.props) 0 Sample.john).
  simpl. lia.
Defined.

(** C10: for every state and every index within the passenger sequence, the
    update puts the record at that index and changes no other passenger, nor
    the number of passengers, the payment details, the special requests, the
    step, the confirmation or the flag; for an index >= 1 the contact info is
    unchanged too, and for index 0 it becomes the email and phone of the
    record (the empty string for an absent one). *)
Theorem C10_passenger_update_frame (m : Machine) (index : nat) (p : Passenger) :
  index < length (passengers (bookingData m)) ->
  let m' := handlePassengerUpdate index p m in
  passengers (bookingData m') !! index = Some p
  /\ (forall j, j <> index ->
        passengers (bookingData m') !! j = passengers (bookingData m) !! j)
  /\ length (passengers (bookingData m')) = length (passengers (bookingData m))
  /\ (1 <= index -> contactInfo (bookingData m') = contactInfo (bookingData m))
  /\ (index = 0 ->
      contactInfo (bookingData m')
      = {| contactEmail := orEmpty (email p); contactPhone := orEmpty (phone p) |})
  /\ paymentDetails m' = paymentDetails m
  /\ bd_paymentDetails (bookingData m') = bd_paymentDetails (bookingData m)
  /\ specialRequests m' = specialRequests m
  /\ bd_specialRequests (bookingData m') = bd_specialRequests (bookingData m)
  /\ bd_seatPreferences (bookingData m') = bd_seatPreferences (bookingData m)
  /\ currentStep m' = currentStep m
  /\ confirmation m' = confirmation m
  /\ isProcessing m' = isProcessing m
  /\ inFlight m' = inFlight m.
Proof.
  intros Hi m'. subst m'. unfold handlePassengerUpdate.
  destruct index as [|i]; simpl Nat.eqb; cbv iota; simpl.
  - split; [apply list_lookup_insert_eq; exact Hi|].
    split; [intros j Hj; apply list_lookup_insert_ne; congruence|].
    split; [apply length_insert|].
    split; [lia|]. repeat split; reflexivity.
  - split; [apply list_lookup_insert_eq; exact Hi|].
    split; [intros j Hj; apply list_lookup_insert_ne; congruence|].
    split; [apply length_insert|].
    split; [reflexivity|]. split; [discriminate|]. repeat split; reflexivity.
Qed.

(** Updating the second of two passengers of a booking leaves the first
    and the contact info alone. *)
Lemma C10_passenger_update_frame_witness :
  let m := init {| selectedFlight := Sample.offer; passengerCount := 2 |} in
  1 < length (passengers (bookingData m))
  /\ passengers (bookingData (handlePassengerUpdate 1 Sample.jane m)) !! 1
     = Some Sample.jane
  /\ passengers (bookingData (handlePassengerUpdate 1 Sample.jane m)) !! 0
     = passengers (bookingData m) !! 0
  /\ contactInfo (bookingData (handlePassengerUpdate 1 Sample.jane m))
     = contactInfo (bookingData m).
Proof.
  intros m.
  pose proof (C10_passenger_update_frame m 1 Sample.jane
                ltac:(simpl; lia)) as (H1 & H2 & _ & H3 & _).
  split; [simpl; lia|]. split; [exact H1|].
  split; [apply H2; discriminate | apply H3; lia].
Defined.

End WorkflowFacts.

(** ** The example scenarios of the specification, run on the embedding *)

Module Scenarios.

Import BookingFlow.

(** Advancing from 'flight-selected' succeeds unconditionally; advancing to
    'payment' with empty names is refused and the validator lists both
    names. *)
Example scenario_empty_names :
  let m := handleStepNavigation PassengerDetails (init Sample.props) in
  currentStep m = PassengerDetails
  /\ currentStep (handleStepNavigation Payment m) = PassengerDetails
  /\ alerts (handleStepNavigation Payment m)
     = [Js.lit "Please fill in all required passenger details"]
  /\ firstn 2 (errors (airlinesValidators.passenger Sample.env
                         (Spec.asPassengerData (initialPassenger 0))))
     = [Js.lit "First name is required"; Js.lit "Last name is required"].
Proof. repeat split; vm_compute; reflexivity. Qed.

(** John Doe passes the passenger validator with no error. *)
Example scenario_john_doe :
  airlinesValidators.passenger Sample.env (Spec.asPassengerData Sample.john)
  = {| isValid := true; errors := [] |}.
Proof. vm_compute. reflexivity. Qed.

(** The sample card passes the payment guard; without spaces its number has
    16 digits. *)
Example scenario_card :
  validatePaymentDetails (Sample.atPayment Sample.card) = true
  /\ length (Js.stripWhite (cardNumber Sample.card)) = 16.
Proof. split; vm_compute; reflexivity. Qed.

(** The sample offer is confirmed as flight AA123 from JFK to LAX for
    450.00. *)
Example scenario_confirmation :
  option_map
    (fun c => (fl_flightNumber (flightDetails c), fl_from (flightDetails c),
               fl_to (flightDetails c), totalAmount c, status c))
    (buildConfirmation Sample.env Sample.props [Sample.john]
       Sample.random Sample.random Sample.isoNow)
  = Some (Js.lit "AA123", Js.lit "JFK", Js.lit "LAX", Js.lit "450.00", confirmed).
Proof. vm_compute. reflexivity. Qed.

(** Every passenger count gives that many passenger slots, and only the
    first has contact fields. *)
Example scenario_slots (props : Props) :
  length (passengers (bookingData (init props))) = passengerCount props
  /\ (forall i p, passengers (bookingData (init props)) !! i = Some p ->
        (email p <> None <-> i = 0) /\ (phone p <> None <-> i = 0)).
Proof.
  unfold init. simpl. split.
  - rewrite length_map, length_seq. reflexivity.
  - intros i p Hp. rewrite list_lookup_fmap in Hp.
    destruct (seq 0 (passengerCount props) !! i) as [k|] eqn:Hk; [|discriminate].
    apply lookup_seq in Hk as [-> _]. injection Hp as <-. simpl.
    destruct i; simpl; split; split; congruence.
Qed.

End Scenarios.

(** ** Strings *)

Module StringFacts.

Lemma rev_reverse (s : Js.str) : rev s = reverse s.
Proof.
  induction s as [|c s IH]; [reflexivity|].
  simpl. rewrite reverse_cons, IH. reflexivity.
Qed.


Lemma head_rev (s : Js.str) : head (rev s) = last s.
Proof. rewrite rev_reverse. apply head_reverse. Qed.

Lemma trimStart_nil (s : Js.str) :
  Js.trimStart s = [] <-> Forall (fun c => Js.isWhite c = true) s.
Proof.
  induction s as [|c s IH]; simpl.
  - split; [constructor | reflexivity].
  - destruct (Js.isWhite c) eqn:Hc.
    + rewrite IH. split; [constructor; assumption | inversion 1; assumption].
    + split; [discriminate | inversion 1; congruence].
Qed.

Lemma trimStart_head (s : Js.str) (c : N) :
  head (Js.trimStart s) = Some c -> Js.isWhite c = false.
Proof.
  induction s as [|a s IH]; simpl; [discriminate|].
  destruct (Js.isWhite a) eqn:Ha; [exact IH|].
  simpl. intros [= <-]. exact Ha.
Qed.

Lemma trimStart_fixed (s : Js.str) :
  (forall c, head s = Some c -> Js.isWhite c = false) -> Js.trimStart s = s.
Proof.
  destruct s as [|a s]; [reflexivity|]. intros H. simpl.
  rewrite (H a eq_refl). reflexivity.
Qed.




Lemma trimEnd_fixed (s : Js.str) :
  (forall c, last s = Some c -> Js.isWhite c = false) -> Js.trimEnd s = s.
Proof.
  intros H. unfold Js.trimEnd. rewrite trimStart_fixed.
  - apply rev_involutive.
  - intros c. rewrite head_rev. apply H.
Qed.


(** A string whose first and last units are not white space is its own
    trimming. *)
Lemma trim_fixed (s : Js.str) :
  (forall c, head s = Some c -> Js.isWhite c = false) ->
  (forall c, last s = Some c -> Js.isWhite c = false) ->
  Js.trim s = s.
Proof.
  intros Hh Hl. unfold Js.trim.
  rewrite (trimStart_fixed s Hh). apply trimEnd_fixed, Hl.
Qed.




Lemma trimEnd_nil (s : Js.str) :
  Js.trimEnd s = [] <-> Forall (fun c => Js.isWhite c = true) s.
Proof.
  unfold Js.trimEnd. rewrite <- (Forall_reverse _ s), <- rev_reverse.
  rewrite <- trimStart_nil. split.
  - intros H. apply (f_equal (@rev N)) in H. rewrite rev_involutive in H. exact H.
  - intros ->. reflexivity.
Qed.

(** Trimming leaves nothing exactly when the string is all white space. *)
Lemma trim_nil (s : Js.str) :
  Js.trim s = [] <-> Forall (fun c => Js.isWhite c = true) s.
Proof.
  unfold Js.trim. rewrite trimEnd_nil. split.
  - intros H. apply trimStart_nil.
    destruct (Js.trimStart s) as [|a t] eqn:E; [reflexivity|].
    inversion H; subst. pose proof (trimStart_head s a) as Ha.
    rewrite E in Ha. specialize (Ha eq_refl). congruence.
  - intros H. apply trimStart_nil in H. rewrite H. constructor.
Qed.

(** White space at the end is trimmed away. *)
Lemma trimEnd_snoc_white (s : Js.str) (w : N) :
  Js.isWhite w = true -> Js.trimEnd (s ++ [w]) = Js.trimEnd s.
Proof.
  intros Hw. unfold Js.trimEnd. rewrite rev_app_distr. simpl.
  rewrite Hw. reflexivity.
Qed.

(** Trimming removes white space only: a filter that keeps no white space
    does not see it. *)
Lemma filter_trimStart (P : N -> Prop) `{!forall c, Decision (P c)} (s : list N) :
  (forall c, P c -> Js.isWhite c = false) ->
  filter P (Js.trimStart s) = filter P s.
Proof.
  intros HP. induction s as [|a s IH]; [reflexivity|]. simpl.
  destruct (Js.isWhite a) eqn:Ha; [|reflexivity].
  rewrite IH, (filter_cons P a s).
  destruct (decide (P a)) as [Hp|]; [|reflexivity].
  apply HP in Hp. congruence.
Qed.

Lemma filter_rev (P : N -> Prop) `{!forall c, Decision (P c)} (s : list N) :
  filter P (rev s) = rev (filter P s).
Proof.
  induction s as [|a s IH]; [reflexivity|]. simpl.
  rewrite filter_app, IH, (filter_cons P a s), (filter_cons P a []).
  destruct (decide (P a)); simpl; [reflexivity | apply app_nil_r].
Qed.

Lemma filter_trim (P : N -> Prop) `{!forall c, Decision (P c)} (s : list N) :
  (forall c, P c -> Js.isWhite c = false) ->
  filter P (Js.trim s) = filter P s.
Proof.
  intros HP. unfold Js.trim, Js.trimEnd.
  rewrite filter_rev, (filter_trimStart P _ HP), filter_rev, rev_involutive.
  apply (filter_trimStart P _ HP).
Qed.

Lemma filter_all (P : N -> Prop) `{!forall c, Decision (P c)} (s : list N) :
  Forall P s -> filter P s = s.
Proof.
  induction 1 as [|a s Ha _ IH]; [reflexivity|].
  rewrite filter_cons_True by assumption. congruence.
Qed.

Lemma Forall_filter_keeps (P : N -> Prop) `{!forall c, Decision (P c)} (s : list N) :
  Forall P (filter P s).
Proof.
  induction s as [|a s IH]; [constructor|].
  rewrite filter_cons. destruct (decide (P a)); [constructor|]; assumption.
Qed.

Lemma filter_idem (P : N -> Prop) `{!forall c, Decision (P c)} (s : list N) :
  filter P (filter P s) = filter P s.
Proof. apply filter_all, Forall_filter_keeps. Qed.



End StringFacts.

(** ** The languages of the patterns *)

Module PatternFacts.

Import Re.

Lemma matches_class (p : N -> bool) (s : Js.str) :
  Matches (Class p) s <-> exists c, s = [c] /\ p c = true.
Proof.
  split.
  - intros H. inversion H; subst. eauto.
  - intros (c & -> & Hc). constructor. exact Hc.
Qed.

Lemma matches_chr (a : ascii) (s : Js.str) :
  Matches (chr a) s <-> s = [N_of_ascii a].
Proof.
  unfold chr. rewrite matches_class. split.
  - intros (c & -> & Hc). apply N.eqb_eq in Hc. congruence.
  - intros ->. exists (N_of_ascii a). split; [reflexivity | apply N.eqb_refl].
Qed.

Lemma matches_opt (r : regex) (s : Js.str) :
  Matches (opt r) s <-> s = [] \/ Matches r s.
Proof.
  unfold opt. split.
  - intros H. inversion H as [| | | ? ? ? HL | ? ? ? HR | |]; subst.
    + inversion HL. auto.
    + auto.
  - intros [-> | H]; [apply MOrL; constructor | apply MOrR; exact H].
Qed.

Lemma matches_star_class (p : N -> bool) (s : Js.str) :
  Matches (Star (Class p)) s <-> Forall (fun c => p c = true) s.
Proof.
  split.
  - intros H. remember (Star (Class p)) as r eqn:Hr.
    induction H; try discriminate.
    + constructor.
    + injection Hr as ->. inversion H; subst. constructor; auto.
  - induction 1 as [|c s Hc _ IH]; [constructor|].
    change (Matches (Star (Class p)) ([c] ++ s)).
    constructor; [constructor; assumption | assumption].
Qed.

Lemma matches_atLeast_class (p : N -> bool) (n : nat) (s : Js.str) :
  Matches (atLeast n (Class p)) s <->
  n <= length s /\ Forall (fun c => p c = true) s.
Proof.
  unfold atLeast. rewrite ReFacts.matches_seq. split.
  - intros (s1 & s2 & -> & H1 & H2).
    apply ReFacts.matches_times_class in H1 as [Hl Hf].
    apply matches_star_class in H2.
    rewrite length_app. split; [lia | apply Forall_app; auto].
  - intros [Hl Hf]. exists (take n s), (drop n s). repeat split.
    + symmetry. apply take_drop.
    + apply ReFacts.matches_times_class. split.
      * rewrite length_take. lia.
      * apply Forall_take. exact Hf.
    + apply matches_star_class. apply Forall_drop. exact Hf.
Qed.

Lemma matches_plus_class (p : N -> bool) (s : Js.str) :
  Matches (plus (Class p)) s <-> s <> [] /\ Forall (fun c => p c = true) s.
Proof.
  unfold plus. rewrite matches_atLeast_class.
  destruct s; simpl; split; intros [H1 H2]; split; auto; try lia; congruence.
Qed.

(** [^[A-Z]{3}$]: three uppercase letters. *)
Lemma airportCode_language (s : Js.str) :
  test (validationSchemas.pattern validationSchemas.airportCode) s = true <->
  length s = 3 /\ Forall (fun c => Js.isUpper c = true) s.
Proof. rewrite ReFacts.test_spec. apply ReFacts.matches_times_class. Qed.

(** [^[^\s@]+@[^\s@]+\.[^\s@]+$] *)
Lemma email_language (s : Js.str) :
  test (validationSchemas.pattern validationSchemas.email) s = true <->
  exists a b c : Js.str,
    s = a ++ 64%N :: b ++ 46%N :: c
    /\ a <> [] /\ b <> [] /\ c <> []
    /\ Forall (fun x => validationSchemas.notSpaceNorAt x = true) (a ++ b ++ c).
Proof.
  rewrite ReFacts.test_spec.
  unfold validationSchemas.email, validationSchemas.pattern.
  split.
  - intros H.
    apply ReFacts.matches_seq in H as (a & r1 & -> & Ha & H).
    apply ReFacts.matches_seq in H as (x & r2 & -> & Hx & H).
    apply ReFacts.matches_seq in H as (b & r3 & -> & Hb & H).
    apply ReFacts.matches_seq in H as (y & c & -> & Hy & Hc).
    apply matches_chr in Hx as ->. apply matches_chr in Hy as ->.
    apply matches_plus_class in Ha as [Ha1 Ha2].
    apply matches_plus_class in Hb as [Hb1 Hb2].
    apply matches_plus_class in Hc as [Hc1 Hc2].
    exists a, b, c. repeat split; auto.
    rewrite !Forall_app. auto.
  - intros (a & b & c & -> & Ha & Hb & Hc & Hf).
    rewrite !Forall_app in Hf. destruct Hf as (Hfa & Hfb & Hfc).
    apply ReFacts.matches_seq. exists a, (64%N :: b ++ 46%N :: c).
    split; [reflexivity|]. split; [apply matches_plus_class; auto|].
    apply ReFacts.matches_seq. exists [64%N], (b ++ 46%N :: c).
    split; [reflexivity|]. split; [apply matches_chr; reflexivity|].
    apply ReFacts.matches_seq. exists b, (46%N :: c).
    split; [reflexivity|]. split; [apply matches_plus_class; auto|].
    apply ReFacts.matches_seq. exists [46%N], c.
    split; [reflexivity|]. split; [apply matches_chr; reflexivity|].
    apply matches_plus_class; auto.
Qed.

(** [^\+?[\d\s\-()]{10,}$] *)
Lemma phone_language (s : Js.str) :
  test (validationSchemas.pattern validationSchemas.phone) s = true <->
  exists body : Js.str,
    (s = body \/ s = 43%N :: body)
    /\ 10 <= length body
    /\ Forall (fun x => validationSchemas.phoneChar x = true) body.
Proof.
  rewrite ReFacts.test_spec.
  unfold validationSchemas.phone, validationSchemas.pattern.
  rewrite ReFacts.matches_seq. split.
  - intros (p & body & -> & Hp & Hb).
    apply matches_atLeast_class in Hb as [Hl Hf].
    apply matches_opt in Hp as [-> | Hp].
    + exists body. auto.
    + apply matches_chr in Hp as ->. exists body. auto.
  - intros (body & [-> | ->] & Hl & Hf).
    + exists [], body. split; [reflexivity|].
      split; [apply matches_opt; auto | apply matches_atLeast_class; auto].
    + exists [43%N], body. split; [reflexivity|]. split.
      * apply matches_opt. right. apply matches_chr. reflexivity.
      * apply matches_atLeast_class; auto.
Qed.

(** [^\d{4}-\d{2}-\d{2}$]: the strings that [Date.dateOnlyFields] reads. *)
Lemma date_language (s : Js.str) :
  test (validationSchemas.pattern validationSchemas.date) s = true <->
  exists y m d, Date.dateOnlyFields s = Some (y, m, d).
Proof.
  rewrite ReFacts.test_spec.
  unfold validationSchemas.date, validationSchemas.pattern.
  split.
  - intros H.
    apply ReFacts.matches_seq in H as (a & r1 & -> & Ha & H).
    apply ReFacts.matches_seq in H as (x & r2 & -> & Hx & H).
    apply ReFacts.matches_seq in H as (b & r3 & -> & Hb & H).
    apply ReFacts.matches_seq in H as (y & c & -> & Hy & Hc).
    apply matches_chr in Hx as ->. apply matches_chr in Hy as ->.
    apply ReFacts.matches_times_class in Ha as [Hla Hfa].
    apply ReFacts.matches_times_class in Hb as [Hlb Hfb].
    apply ReFacts.matches_times_class in Hc as [Hlc Hfc].
    destruct a as [|a1 [|a2 [|a3 [|a4 [|]]]]]; try discriminate.
    destruct b as [|b1 [|b2 [|]]]; try discriminate.
    destruct c as [|c1 [|c2 [|]]]; try discriminate.
    repeat match goal with
           | H : Forall _ (_ :: _) |- _ => inversion H; subst; clear H
           end.
    unfold Date.dateOnlyFields. simpl app. cbv iota beta.
    cbn [forallb]. repeat match goal with H : Js.isDigit _ = true |- _ => rewrite H end.
    simpl. eauto.
  - intros (y & m & d & H). unfold Date.dateOnlyFields in H.
    destruct s as [|y1 [|y2 [|y3 [|y4 [|h1 [|m1 [|m2 [|h2 [|d1 [|d2 [|]]]]]]]]]]];
      try discriminate.
    destruct (forallb Js.isDigit [y1; y2; y3; y4; m1; m2; d1; d2]
              && (h1 =? 45)%N && (h2 =? 45)%N) eqn:E; [|discriminate].
    apply andb_true_iff in E as [E E2]. apply andb_true_iff in E as [E E1].
    apply N.eqb_eq in E1, E2. subst h1 h2.
    cbn [forallb] in E. rewrite !andb_true_iff in E.
    destruct E as (? & ? & ? & ? & ? & ? & ? & ? & _).
    apply ReFacts.matches_seq. exists [y1; y2; y3; y4], [45%N; m1; m2; 45%N; d1; d2].
    split; [reflexivity|]. split.
    { apply ReFacts.matches_times_class. split; [reflexivity|]. repeat constructor; assumption. }
    apply ReFacts.matches_seq. exists [45%N], [m1; m2; 45%N; d1; d2].
    split; [reflexivity|]. split; [apply matches_chr; reflexivity|].
    apply ReFacts.matches_seq. exists [m1; m2], [45%N; d1; d2].
    split; [reflexivity|]. split.
    { apply ReFacts.matches_times_class. split; [reflexivity|]. repeat constructor; assumption. }
    apply ReFacts.matches_seq. exists [45%N], [d1; d2].
    split; [reflexivity|]. split; [apply matches_chr; reflexivity|].
    apply ReFacts.matches_times_class. split; [reflexivity|]. repeat constructor; assumption.
Qed.

End PatternFacts.

(** ** The primitive validators *)

Module ValidatorFacts.

Import validationSchemas.

Lemma str_eqb_nil (s : Js.str) : Js.str_eqb s [] = true <-> s = [].
Proof. unfold Js.str_eqb. apply bool_decide_eq_true. Qed.

Lemma pattern_valid (value : Js.str) (p : Re.regex) (msg : Js.str) :
  isValid (validators.pattern value p msg) = Re.test p value.
Proof. reflexivity. Qed.

Lemma pattern_no_error (value : Js.str) (p : Re.regex) (msg : Js.str) :
  errors (validators.pattern value p msg) = [] <-> Re.test p value = true.
Proof.
  unfold validators.pattern. simpl.
  destruct (Re.test p value); split; congruence.
Qed.

(** X2: [required] accepts a value exactly when it is there and has a unit
    that is not white space; otherwise it reports the one error "This field
    is required". *)
Theorem required_accepts_non_blank (value : option Js.str) :
  (isValid (validators.required value) = true <->
   exists s, value = Some s /\ Exists (fun c => Js.isWhite c = false) s)
  /\ (isValid (validators.required value) = false ->
      errors (validators.required value) = [Js.lit "This field is required"])
  /\ (isValid (validators.required value) = true ->
      errors (validators.required value) = []).
Proof.
  split; [|split].
  - unfold validators.required. cbn [isValid].
    destruct value as [s|].
    + rewrite negb_true_iff. split.
      * intros H. exists s. split; [reflexivity|].
        destruct (Js.str_eqb (Js.trim s) []) eqn:E; [discriminate|].
        assert (Hn : ~ Forall (fun c => Js.isWhite c = true) s).
        { intros Hf. apply StringFacts.trim_nil in Hf.
          apply str_eqb_nil in Hf. congruence. }
        apply not_Forall_Exists in Hn; [|intros c; apply _].
        eapply Exists_impl; [exact Hn|]. intros c Hc. simpl in Hc.
        destruct (Js.isWhite c); [exfalso; apply Hc; reflexivity | reflexivity].
      * intros (s' & [= <-] & Hex).
        destruct (Js.str_eqb (Js.trim s) []) eqn:E; [|reflexivity].
        apply str_eqb_nil, StringFacts.trim_nil in E.
        apply Exists_exists in Hex as (c & Hin & Hc).
        rewrite Forall_forall in E. specialize (E c Hin). congruence.
    + split; [discriminate | intros (s & [=] & _)].
  - unfold validators.required. cbn [isValid errors]. intros ->. reflexivity.
  - unfold validators.required. cbn [isValid errors]. intros ->. reflexivity.
Qed.

(** *** Dates *)

(** The date-only form gives midnight UTC of the day when it allows the
    month and the day, and no time value otherwise. *)
Lemma dateOnlyTime_spec (e : Env) (y m d : Z) :
  ((1 <= m <= 12)%Z
   /\ (1 <= d <= (if lenientDays e then 31 else Date.daysInMonth y m))%Z
   /\ Date.dateOnlyTime e y m d
      = Some ((Date.daysFromCivil y m 1 + d - 1) * Date.msPerDay)%Z)
  \/ (~ ((1 <= m <= 12)%Z
         /\ (1 <= d <= (if lenientDays e then 31 else Date.daysInMonth y m))%Z)
      /\ Date.dateOnlyTime e y m d = None).
Proof.
  unfold Date.dateOnlyTime.
  destruct ((1 <=? m)%Z && (m <=? 12)%Z && (1 <=? d)%Z
            && (d <=? (if lenientDays e then 31 else Date.daysInMonth y m))%Z) eqn:E.
  - rewrite !andb_true_iff, !Z.leb_le in E. left. repeat split; lia.
  - right. split; [|reflexivity]. intros [Hm Hd].
    assert (Hc : (1 <=? m)%Z && (m <=? 12)%Z && (1 <=? d)%Z
                 && (d <=? (if lenientDays e then 31 else Date.daysInMonth y m))%Z
                 = true)
      by (rewrite !andb_true_iff, !Z.leb_le; lia).
    congruence.
Qed.

Lemma date_valid (e : Env) (value : Js.str) :
  isValid (validators.date e value) = true <->
  exists y m d,
    Date.dateOnlyFields value = Some (y, m, d)
    /\ (((1 <= m <= 12)%Z
         /\ (1 <= d <= (if lenientDays e then 31 else Date.daysInMonth y m))%Z)
        \/ exists t, parseOther e value = Some t).
Proof.
  unfold validators.date. rewrite pattern_valid.
  destruct (Re.test (pattern date) value) eqn:Ht; cbn [negb].
  - apply PatternFacts.date_language in Ht as (y & m & d & Hf).
    unfold Date.parse. rewrite Hf.
    destruct (dateOnlyTime_spec e y m d) as [(Hm & Hd & ->) | (Hn & ->)];
      cbn [isValid].
    + split; [|reflexivity]. intros _. exists y, m, d. auto.
    + destruct (parseOther e value) as [t|] eqn:Ho; cbn [isValid].
      * split; [|reflexivity]. intros _. exists y, m, d.
        split; [reflexivity|]. right. exists t. reflexivity.
      * split; [discriminate|].
        intros (y' & m' & d' & [= <- <- <-] & [Hr | [t [=]]]). tauto.
  - cbn [isValid validators.pattern]. rewrite Ht. split; [discriminate|].
    intros (y & m & d & Hf & _).
    assert (Re.test (pattern date) value = true)
      by (apply PatternFacts.date_language; eauto).
    congruence.
Qed.

(** A string of the date-only form with a month and a day that the form
    allows is accepted, and its time value is midnight UTC of its day. *)
Lemma date_valid_parse (e : Env) (value : Js.str) (y m d : Z) :
  Date.dateOnlyFields value = Some (y, m, d) ->
  (1 <= m <= 12)%Z ->
  (1 <= d <= (if lenientDays e then 31 else Date.daysInMonth y m))%Z ->
  isValid (validators.date e value) = true
  /\ Date.parse e value
     = Some ((Date.daysFromCivil y m 1 + d - 1) * Date.msPerDay)%Z.
Proof.
  intros Hf Hm Hd. split.
  - apply date_valid. exists y, m, d. auto.
  - unfold Date.parse. rewrite Hf.
    destruct (dateOnlyTime_spec e y m d) as [(_ & _ & ->) | (Hn & _)];
      [reflexivity | tauto].
Qed.

(** X3: [date] rejects with the format message every string that is not of
    the form YYYY-MM-DD.  It accepts every string of that form whose month is
    from 01 to 12 and whose day is from 01 to the last day the engine's
    date-only form allows: the time value is then midnight UTC of the day,
    and the result depends neither on the clock, nor on the time zone, nor on
    how the engine reads other strings.  A string of that form with another
    month or day is left to the engine's other reading of it, and is accepted
    exactly when that gives a time value (V8 reads 0001-13-01 as the 13th of
    January 2001); when it gives none the result is "Please enter a valid
    date". *)
Theorem date_accepts_calendar_fields (e : Env) (value : Js.str) :
  (isValid (validators.date e value) = true <->
   exists y m d,
     Date.dateOnlyFields value = Some (y, m, d)
     /\ (((1 <= m <= 12)%Z
          /\ (1 <= d <= (if lenientDays e then 31 else Date.daysInMonth y m))%Z)
         \/ exists t, parseOther e value = Some t))
  /\ (Date.dateOnlyFields value = None ->
      validators.date e value
      = {| isValid := false; errors := [message date] |})
  /\ (forall y m d,
        Date.dateOnlyFields value = Some (y, m, d) ->
        (1 <= m <= 12)%Z ->
        (1 <= d <= (if lenientDays e then 31 else Date.daysInMonth y m))%Z ->
        validators.date e value = {| isValid := true; errors := [] |}
        /\ Date.parse e value
           = Some ((Date.daysFromCivil y m 1 + d - 1) * Date.msPerDay)%Z
        /\ forall e' : Env,
             lenientDays e' = lenientDays e ->
             validators.date e' value = validators.date e value)
  /\ (forall y m d,
        Date.dateOnlyFields value = Some (y, m, d) ->
        ~ ((1 <= m <= 12)%Z
           /\ (1 <= d <= (if lenientDays e then 31 else Date.daysInMonth y m))%Z) ->
        Date.parse e value = parseOther e value
        /\ (parseOther e value = None ->
            validators.date e value
            = {| isValid := false;
                 errors := [Js.lit "Please enter a valid date"] |})).
Proof.
  split; [apply date_valid|]. split; [|split].
  - intros Hn. unfold validators.date.
    destruct (Re.test (pattern date) value) eqn:Ht.
    + apply PatternFacts.date_language in Ht as (y & m & d & Hf). congruence.
    + unfold validators.pattern. rewrite Ht. reflexivity.
  - intros y m d Hf Hm Hd.
    assert (Hv : forall e' : Env, lenientDays e' = lenientDays e ->
              validators.date e' value = {| isValid := true; errors := [] |}).
    { intros e' Hl. rewrite <- Hl in Hd.
      destruct (date_valid_parse e' value y m d Hf Hm Hd) as [_ Hp].
      assert (Ht : Re.test (pattern date) value = true)
        by (apply PatternFacts.date_language; eauto).
      unfold validators.date, validators.pattern. cbn [isValid].
      rewrite Ht. cbn [negb]. rewrite Hp. reflexivity. }
    split; [apply Hv; reflexivity|]. split.
    + apply date_valid_parse; assumption.
    + intros e' Hl. rewrite (Hv e' Hl), (Hv e eq_refl). reflexivity.
  - intros y m d Hf Hn.
    assert (Hp : Date.parse e value = parseOther e value).
    { unfold Date.parse. rewrite Hf.
      destruct (dateOnlyTime_spec e y m d) as [(Hm & Hd & _) | (_ & ->)];
        [tauto | reflexivity]. }
    split; [exact Hp|]. intros Ho.
    assert (Ht : Re.test (pattern date) value = true)
      by (apply PatternFacts.date_language; eauto).
    unfold validators.date, validators.pattern. cbn [isValid].
    rewrite Ht. cbn [negb]. rewrite Hp, Ho. reflexivity.
Qed.

(** X4: [returnDate] accepts a return date exactly when it is accepted by
    [date] and both dates have a time value, the return's strictly later: a
    return on the day of departure is rejected, and so is every return date
    when the departure cannot be parsed. *)
Theorem returnDate_strictly_after (e : Env) (value departureDate : Js.str) :
  (isValid (validators.returnDate e value departureDate) = true <->
   isValid (validators.date e value) = true
   /\ exists r d, Date.parse e value = Some r
                  /\ Date.parse e departureDate = Some d /\ (d < r)%Z)
  /\ isValid (validators.returnDate e value value) = false
  /\ (Date.parse e departureDate = None ->
      isValid (validators.returnDate e value departureDate) = false).
Proof.
  assert (Hiff : forall dep,
    isValid (validators.returnDate e value dep) = true <->
    isValid (validators.date e value) = true
    /\ exists r d, Date.parse e value = Some r
                   /\ Date.parse e dep = Some d /\ (d < r)%Z).
  { intros dep. unfold validators.returnDate.
    destruct (isValid (validators.date e value)) eqn:Hv; cbn [negb].
    - destruct (Date.parse e value) as [r|], (Date.parse e dep) as [d|];
        cbn [isValid].
      + rewrite Z.ltb_lt. split.
        * intros H. split; [reflexivity|]. exists r, d. auto.
        * intros (_ & r' & d' & [= <-] & [= <-] & H). exact H.
      + split; [discriminate | intros (_ & ? & ? & _ & [=] & _)].
      + split; [discriminate | intros (_ & ? & ? & [=] & _)].
      + split; [discriminate | intros (_ & ? & ? & [=] & _)].
    - rewrite Hv. split; [discriminate | intros [[=] _]]. }
  split; [apply Hiff|]. split.
  - destruct (isValid (validators.returnDate e value value)) eqn:E; [|reflexivity].
    apply Hiff in E as (_ & r & d & Hr & Hd & Hlt). rewrite Hr in Hd.
    injection Hd as <-. lia.
  - intros Hn.
    destruct (isValid (validators.returnDate e value departureDate)) eqn:E;
      [|reflexivity].
    apply Hiff in E as (_ & r & d & _ & Hd & _). congruence.
Qed.

(** X5: [futureDate] compares the date's midnight UTC with the instant at
    which the local current day began.  Where local time at that midnight is
    within a day of UTC, it accepts every date of the form YYYY-MM-DD with an
    allowed month and day that lies after the local current day, rejects
    every one that lies before it, and accepts the local current day itself
    exactly when local time at the midnight that began it is not behind
    UTC. *)
Theorem futureDate_by_day (e : Env) (value : Js.str) (y m d : Z) :
  Date.dateOnlyFields value = Some (y, m, d) ->
  (1 <= m <= 12)%Z ->
  (1 <= d <= (if lenientDays e then 31 else Date.daysInMonth y m))%Z ->
  let day := (Date.daysFromCivil y m 1 + d - 1)%Z in
  let today := (Date.localTime e (now e) / Date.msPerDay)%Z in
  let offset := localTZA e (today * Date.msPerDay)%Z false in
  (- Date.msPerDay < offset < Date.msPerDay)%Z ->
  ((today < day)%Z -> isValid (validators.futureDate e value) = true)
  /\ ((day < today)%Z -> isValid (validators.futureDate e value) = false)
  /\ (day = today ->
      isValid (validators.futureDate e value) = (0 <=? offset)%Z).
Proof.
  intros Hf Hm Hd day today offset Htz.
  destruct (date_valid_parse e value y m d Hf Hm Hd) as [Hv Hp]. fold day in Hp.
  unfold validators.futureDate. rewrite Hv. cbn [negb isValid]. rewrite Hp.
  unfold Date.startOfLocalDay, Date.utcTime. fold today. fold offset.
  unfold Date.msPerDay in *.
  split; [|split].
  - intros H. apply Z.leb_le. lia.
  - intros H. apply Z.leb_gt. lia.
  - intros ->. destruct (Z.leb_spec 0 offset);
      [apply Z.leb_le | apply Z.leb_gt]; lia.
Qed.

(** Always five hours behind UTC, on 2026-11-03, the 4th is accepted. *)
Lemma futureDate_by_day_witness :
  isValid (validators.futureDate Sample.env Sample2.tomorrow) = true.
Proof.
  apply (futureDate_by_day Sample.env Sample2.tomorrow 2026 11 4).
  - vm_compute. reflexivity.
  - lia.
  - simpl. lia.
  - vm_compute. split; reflexivity.
  - vm_compute. reflexivity.
Defined.

End ValidatorFacts.

(** ** The shape of results and the domain validators *)

Module DomainFacts.

Import validationSchemas airlinesValidators.

Lemma oneError_required (value : option Js.str) :
  Shape.oneError (validators.required value).
Proof.
  unfold Shape.oneError, validators.required. cbn [isValid errors].
  match goal with |- context [if ?c then _ else _] => destruct c end; eauto.
Qed.

Lemma oneError_pattern (value : Js.str) (p : Re.regex) (msg : Js.str) :
  Shape.oneError (validators.pattern value p msg).
Proof.
  unfold Shape.oneError, validators.pattern. cbn [isValid errors].
  destruct (Re.test p value); eauto.
Qed.

Lemma oneError_range (e : Env) (value : Num.t) (lo hi : option Num.t)
    (msg : option Js.str) :
  Shape.oneError (validators.range e value lo hi msg).
Proof.
  unfold Shape.oneError, validators.range. cbn [isValid errors].
  match goal with |- context [if ?c then _ else _] => destruct c end; eauto.
Qed.

Lemma oneError_date (e : Env) (value : Js.str) :
  Shape.oneError (validators.date e value).
Proof.
  unfold validators.date.
  destruct (isValid (validators.pattern value (pattern date) (message date))) eqn:Ht;
    cbn [negb].
  - unfold Shape.oneError. cbn [isValid errors].
    destruct (Date.parse e value); eauto.
  - apply oneError_pattern.
Qed.

Lemma oneError_futureDate (e : Env) (value : Js.str) :
  Shape.oneError (validators.futureDate e value).
Proof.
  unfold validators.futureDate.
  destruct (isValid (validators.date e value)) eqn:Hv; cbn [negb].
  - unfold Shape.oneError. cbn [isValid errors].
    match goal with |- context [if ?c then _ else _] => destruct c end; eauto.
  - apply oneError_date.
Qed.

Lemma oneError_returnDate (e : Env) (value departureDate : Js.str) :
  Shape.oneError (validators.returnDate e value departureDate).
Proof.
  unfold validators.returnDate.
  destruct (isValid (validators.date e value)) eqn:Hv; cbn [negb].
  - unfold Shape.oneError. cbn [isValid errors].
    match goal with |- context [if ?c then _ else _] => destruct c end; eauto.
  - apply oneError_date.
Qed.

Lemma oneError_no_error (r : ValidationResult) :
  Shape.oneError r -> (errors r = [] <-> isValid r = true).
Proof.
  intros [[Hv He] | [Hv (msg & He)]]; rewrite Hv, He; split; congruence.
Qed.

(** X1: Every primitive validator returns either a valid result without error
    or an invalid one with exactly one error, and the flag of every domain
    validator says that its error list is empty. *)
Theorem validation_results_shape (e : Env) :
  (forall value, Shape.oneError (validators.required value))
  /\ (forall value p msg, Shape.oneError (validators.pattern value p msg))
  /\ (forall value lo hi msg, Shape.oneError (validators.range e value lo hi msg))
  /\ (forall value, Shape.oneError (validators.date e value))
  /\ (forall value, Shape.oneError (validators.futureDate e value))
  /\ (forall value dep, Shape.oneError (validators.returnDate e value dep))
  /\ (forall data, Shape.flagAgrees (searchRequest e data))
  /\ (forall data, Shape.flagAgrees (passenger e data))
  /\ (forall data, Shape.flagAgrees (flight e data)).
Proof.
  repeat split;
    try (intros; first [ apply oneError_required | apply oneError_pattern
                       | apply oneError_range | apply oneError_date
                       | apply oneError_futureDate | apply oneError_returnDate ]);
    try (intros H; cbn [isValid errors searchRequest passenger flight] in *;
         first [ apply bool_decide_eq_true in H; exact H
               | apply bool_decide_eq_true; exact H ]).
Qed.

Lemma geb_not_NaN (value lo : Num.t) :
  Num.geb value lo = true -> Num.isNaN value = false.
Proof. destruct value, lo; simpl; congruence. Qed.

Lemma range_bounds (e : Env) (value lo hi : Num.t) (c : N) (msg : Js.str) :
  errors (validators.range e value (Some lo) (Some hi) (Some (c :: msg))) = []
  <-> Num.geb value lo = true /\ Num.leb value hi = true.
Proof.
  unfold validators.range. cbn [errors].
  destruct (Num.geb value lo) eqn:Hg.
  - rewrite (geb_not_NaN _ _ Hg). cbn [negb andb].
    destruct (Num.leb value hi); intuition congruence.
  - rewrite andb_false_r. cbn [andb]. intuition congruence.
Qed.

Lemma range_lower (e : Env) (value lo : Num.t) (c : N) (msg : Js.str) :
  errors (validators.range e value (Some lo) None (Some (c :: msg))) = []
  <-> Num.geb value lo = true.
Proof.
  unfold validators.range. cbn [errors].
  destruct (Num.geb value lo) eqn:Hg.
  - rewrite (geb_not_NaN _ _ Hg). cbn [negb andb]. split; congruence.
  - rewrite andb_false_r. cbn [andb]. split; congruence.
Qed.

Lemma if_nil {A} (b : bool) (x : A) : (if b then [x] else []) = [] <-> b = false.
Proof. destruct b; split; congruence. Qed.

Lemma if_nil' {A} (b : bool) (x : A) : (if b then [] else [x]) = [] <-> b = true.
Proof. destruct b; split; congruence. Qed.

(** X10: [flight] accepts a record exactly when the flight number is a 2-letter
    uppercase code followed by 1 to 4 digits, both airports are three
    uppercase letters, both times have a time value with the arrival
    strictly later, and the price is a number not below 0.  (It does not ask
    the two airports to differ.) *)
Theorem flight_accepts (e : Env) (data : FlightData) :
  isValid (flight e data) = true <->
  Spec.airlineFlightNumber 2 2 (fd_flightNumber data)
  /\ (length (airport (fd_departure data)) = 3
      /\ Forall (fun c => Js.isUpper c = true) (airport (fd_departure data)))
  /\ (length (airport (fd_arrival data)) = 3
      /\ Forall (fun c => Js.isUpper c = true) (airport (fd_arrival data)))
  /\ (exists dep arr,
        Date.parse e (time (fd_departure data)) = Some dep
        /\ Date.parse e (time (fd_arrival data)) = Some arr
        /\ (dep < arr)%Z)
  /\ Num.geb (fd_price data) (Num.ofZ 0) = true.
Proof.
  unfold flight. cbn [isValid]. rewrite bool_decide_eq_true.
  rewrite !app_nil, !ValidatorFacts.pattern_no_error.
  rewrite ValidationFacts.flight_number_pattern_spec.
  rewrite !PatternFacts.airportCode_language.
  change (Some price_message) with (Some (80%N :: Js.lit "rice must be a positive number")).
  rewrite range_lower. unfold price_min.
  destruct (Date.parse e (time (fd_departure data))) as [dep|];
    destruct (Date.parse e (time (fd_arrival data))) as [arr|].
  - rewrite if_nil, Z.leb_gt.
    assert (Hex : (exists dep' arr', Some dep = Some dep' /\ Some arr = Some arr'
                                     /\ (dep' < arr')%Z) <-> (dep < arr)%Z).
    { split; [intros (? & ? & [= <-] & [= <-] & ?); assumption|].
      intros H. exists dep, arr. auto. }
    rewrite Hex. tauto.
  - assert (Hex : (exists dep' arr', Some dep = Some dep' /\ @None Z = Some arr'
                                     /\ (dep' < arr')%Z) <-> False)
      by (split; [intros (? & ? & _ & [=] & _) | tauto]).
    rewrite Hex. intuition congruence.
  - assert (Hex : (exists dep' arr', @None Z = Some dep' /\ Some arr = Some arr'
                                     /\ (dep' < arr')%Z) <-> False)
      by (split; [intros (? & ? & [=] & _) | tauto]).
    rewrite Hex. intuition congruence.
  - assert (Hex : (exists dep' arr', @None Z = Some dep' /\ @None Z = Some arr'
                                     /\ (dep' < arr')%Z) <-> False)
      by (split; [intros (? & ? & [=] & _) | tauto]).
    rewrite Hex. intuition congruence.
Qed.

(** X8: [searchRequest] accepts a request exactly when origin and destination
    are three uppercase letters each and differ, [futureDate] accepts the
    departure, [returnDate] accepts the return against the departure when a
    non-empty one is given, and the passenger count is a number from 1 to
    9. *)
Theorem searchRequest_accepts (e : Env) (data : SearchData) :
  isValid (searchRequest e data) = true <->
  (length (sr_from data) = 3 /\ Forall (fun c => Js.isUpper c = true) (sr_from data))
  /\ (length (sr_to data) = 3 /\ Forall (fun c => Js.isUpper c = true) (sr_to data))
  /\ sr_from data <> sr_to data
  /\ isValid (validators.futureDate e (sr_departure data)) = true
  /\ match sr_return data with
     | Some (c :: r) =>
         isValid (validators.returnDate e (c :: r) (sr_departure data)) = true
     | _ => True
     end
  /\ Num.geb (sr_passengers data) (Num.ofZ 1) = true
  /\ Num.leb (sr_passengers data) (Num.ofZ 9) = true.
Proof.
  unfold searchRequest. cbn [isValid]. rewrite bool_decide_eq_true.
  rewrite !app_nil, !ValidatorFacts.pattern_no_error.
  rewrite !PatternFacts.airportCode_language.
  change (Some passengers_message)
    with (Some (80%N :: Js.lit "assenger count must be between 1 and 9")).
  rewrite range_bounds. unfold passengers_min, passengers_max.
  rewrite (oneError_no_error _ (oneError_futureDate e (sr_departure data))).
  rewrite if_nil. unfold Js.str_eqb. rewrite bool_decide_eq_false.
  assert (Hret :
    match sr_return data with
    | Some (c :: r) => errors (validators.returnDate e (c :: r) (sr_departure data))
    | _ => []
    end = []
    <-> match sr_return data with
        | Some (c :: r) =>
            isValid (validators.returnDate e (c :: r) (sr_departure data)) = true
        | _ => True
        end).
  { destruct (sr_return data) as [[|c r]|]; try tauto.
    apply oneError_no_error, oneError_returnDate. }
  rewrite Hret. tauto.
Qed.

(** X9: [passenger] accepts a record exactly when first and last name are not
    blank, the email has the shape local@domain.tld without white space or a
    second "@", the phone - if a non-empty one is given - is an optional "+"
    and at least ten digits, white space, hyphens or parentheses, the date
    of birth is accepted by [date], and the current local year minus the
    local year of birth is from 0 to 120. *)
Theorem passenger_accepts (e : Env) (data : PassengerData) :
  isValid (passenger e data) = true <->
  Js.blank (pd_firstName data) = false
  /\ Js.blank (pd_lastName data) = false
  /\ Re.test (pattern email) (pd_email data) = true
  /\ match pd_phone data with
     | Some (c :: p) => Re.test (pattern phone) (c :: p) = true
     | _ => True
     end
  /\ isValid (validators.date e (pd_dateOfBirth data)) = true
  /\ (forall birth, Date.parse e (pd_dateOfBirth data) = Some birth ->
        (0 <= Date.getFullYear e (now e) - Date.getFullYear e birth <= 120)%Z).
Proof.
  unfold passenger. cbn [isValid]. rewrite bool_decide_eq_true.
  rewrite !app_nil, !ValidatorFacts.pattern_no_error.
  rewrite (oneError_no_error _ (oneError_date e (pd_dateOfBirth data))).
  rewrite !if_nil.
  assert (Hreq : forall s,
    negb (isValid (validators.required (Some s))) = false <-> Js.blank s = false).
  { intros s. unfold validators.required, Js.blank, Js.str_eqb. cbn [isValid].
    destruct (Js.trim s); simpl; split; congruence. }
  rewrite !Hreq.
  assert (Hph :
    match pd_phone data with
    | Some (c :: p) =>
        errors (validators.pattern (c :: p) (pattern phone) (message phone))
    | _ => []
    end = []
    <-> match pd_phone data with
        | Some (c :: p) => Re.test (pattern phone) (c :: p) = true
        | _ => True
        end).
  { destruct (pd_phone data) as [[|c p]|]; try tauto.
    apply ValidatorFacts.pattern_no_error. }
  rewrite Hph.
  destruct (isValid (validators.date e (pd_dateOfBirth data))) eqn:Hv.
  - destruct (Date.parse e (pd_dateOfBirth data)) as [birth|] eqn:Hp.
    + rewrite if_nil, orb_false_iff, !Z.ltb_ge.
      assert (Hage : (forall b, Some birth = Some b ->
                        (0 <= Date.getFullYear e (now e) - Date.getFullYear e b <= 120)%Z)
                     <-> (0 <= Date.getFullYear e (now e) - Date.getFullYear e birth
                          /\ Date.getFullYear e (now e) - Date.getFullYear e birth <= 120)%Z).
      { split; [intros H; apply (H birth eq_refl) | intros H b [= <-]; exact H]. }
      rewrite Hage. tauto.
    + assert (Hage : (forall b, @None Z = Some b ->
                        (0 <= Date.getFullYear e (now e) - Date.getFullYear e b <= 120)%Z)
                     <-> True)
        by (split; [tauto | intros _ b [=]]).
      rewrite Hage. tauto.
  - intuition congruence.
Qed.

End DomainFacts.

(** ** Sanitizers *)

Module SanitizerFacts.

(** X11: Whatever [toUpperCase] does, a sanitized airport code has at most three
    units, all uppercase letters, so that it passes the airport-code pattern
    exactly when it has three units; and when [toUpperCase] leaves uppercase
    letters alone, a code that passes the pattern is not changed by the
    sanitizer. *)
Theorem airportCode_sanitized (toUpperCase : Js.str -> Js.str) (value : Js.str) :
  length (sanitizers.airportCode toUpperCase value) <= 3
  /\ Forall (fun c => Js.isUpper c = true) (sanitizers.airportCode toUpperCase value)
  /\ (isValid (validators.pattern (sanitizers.airportCode toUpperCase value)
                 (validationSchemas.pattern validationSchemas.airportCode)
                 (validationSchemas.message validationSchemas.airportCode)) = true
      <-> length (sanitizers.airportCode toUpperCase value) = 3)
  /\ (toUpperCase value = value ->
      Re.test (validationSchemas.pattern validationSchemas.airportCode) value = true ->
      sanitizers.airportCode toUpperCase value = value).
Proof.
  assert (Hup : Forall (fun c => Js.isUpper c = true)
                  (sanitizers.airportCode toUpperCase value)).
  { unfold sanitizers.airportCode. apply Forall_take.
    apply (StringFacts.Forall_filter_keeps (fun c => Js.isUpper c = true)). }
  split; [|split; [exact Hup|split]].
  - unfold sanitizers.airportCode. rewrite length_take. lia.
  - rewrite ValidatorFacts.pattern_valid, PatternFacts.airportCode_language. tauto.
  - intros Hfix Ht. apply PatternFacts.airportCode_language in Ht as [Hl Hf].
    unfold sanitizers.airportCode. rewrite Hfix.
    rewrite (StringFacts.filter_all (fun c => Js.isUpper c = true) value Hf).
    apply take_ge. lia.
Qed.

Lemma phoneChar_kept (c : N) :
  validationSchemas.phoneChar c = true -> sanitizers.phoneKept c = true.
Proof.
  unfold validationSchemas.phoneChar, sanitizers.phoneKept.
  rewrite !orb_true_iff. intuition.
Qed.

(** X12: The phone sanitizer keeps digits, "+", "-", white space and parentheses
    and nothing else, sanitizing twice is sanitizing once, and a phone number
    that passes the phone pattern is not changed by the sanitizer. *)
Theorem phone_sanitized (value : Js.str) :
  Forall (fun c => sanitizers.phoneKept c = true) (sanitizers.phone value)
  /\ sanitizers.phone (sanitizers.phone value) = sanitizers.phone value
  /\ (Re.test (validationSchemas.pattern validationSchemas.phone) value = true ->
      sanitizers.phone value = value).
Proof.
  unfold sanitizers.phone. split; [|split].
  - apply (StringFacts.Forall_filter_keeps (fun c => sanitizers.phoneKept c = true)).
  - apply (StringFacts.filter_idem (fun c => sanitizers.phoneKept c = true)).
  - intros Ht. apply PatternFacts.phone_language in Ht as (body & Hs & _ & Hf).
    apply (StringFacts.filter_all (fun c => sanitizers.phoneKept c = true)).
    assert (Hb : Forall (fun c => sanitizers.phoneKept c = true) body).
    { eapply Forall_impl; [exact Hf|]. intros c. apply phoneChar_kept. }
    destruct Hs as [-> | ->]; [exact Hb|]. constructor; [reflexivity | exact Hb].
Qed.


(** X14: The numeric sanitizer keeps digits and "." only, sanitizing twice is
    sanitizing once, and every string of digits and dots - with any number
    of dots - is left as it is. *)
Theorem numeric_sanitized (value : Js.str) :
  Forall (fun c => Js.isDigit c = true \/ c = 46%N) (sanitizers.numeric value)
  /\ sanitizers.numeric (sanitizers.numeric value) = sanitizers.numeric value
  /\ (Forall (fun c => Js.isDigit c = true \/ c = 46%N) value ->
      sanitizers.numeric value = value).
Proof.
  assert (Hk : forall c, sanitizers.numericKept c = true
                         <-> Js.isDigit c = true \/ c = 46%N).
  { intros c. unfold sanitizers.numericKept. rewrite orb_true_iff, N.eqb_eq. tauto. }
  unfold sanitizers.numeric. split; [|split].
  - eapply Forall_impl;
      [apply (StringFacts.Forall_filter_keeps (fun c => sanitizers.numericKept c = true))|].
    intros c. apply Hk.
  - apply (StringFacts.filter_idem (fun c => sanitizers.numericKept c = true)).
  - intros Hf. apply (StringFacts.filter_all (fun c => sanitizers.numericKept c = true)).
    eapply Forall_impl; [exact Hf|]. intros c. apply Hk.
Qed.

End SanitizerFacts.

(** ** The payment form *)

Module PaymentFormFacts.

Import PaymentForm.

Lemma digit_not_white (c : N) : Js.isDigit c = true -> Js.isWhite c = false.
Proof.
  unfold Js.isDigit, Js.isWhite. rewrite andb_true_iff, !N.leb_le. intros [H1 H2].
  repeat match goal with
         | |- context [(?a <=? ?b)%N] =>
             destruct (N.leb_spec a b); try lia
         | |- context [(?a =? ?b)%N] =>
             destruct (N.eqb_spec a b); try lia
         end; reflexivity.
Qed.

(** The spaces that [spaceAfterFour] adds are the only change it makes. *)
Lemma filter_spaceAfterFour (P : N -> Prop) `{!forall c, Decision (P c)} :
  ~ P 32%N -> forall s : list N, filter P (spaceAfterFour s) = filter P s.
Proof.
  intros Hsp s.
  assert (Hlen : forall n (s : list N), length s <= n ->
                filter P (spaceAfterFour s) = filter P s).
  { clear s. induction n as [|n IH]; intros s Hl.
    - destruct s; [reflexivity | simpl in Hl; lia].
    - destruct s as [|a s']; [reflexivity|]. simpl in Hl.
      assert (Hrest : filter P (a :: spaceAfterFour s') = filter P (a :: s')).
      { rewrite !(filter_cons P a). rewrite IH by lia. reflexivity. }
      destruct s' as [|b [|c [|d rest]]]; try exact Hrest.
      simpl spaceAfterFour.
      destruct (Js.isDigit a && Js.isDigit b && Js.isDigit c && Js.isDigit d);
        [|exact Hrest].
      simpl in Hl.
      rewrite !(filter_cons P a), !(filter_cons P b), !(filter_cons P c),
        !(filter_cons P d), (filter_cons P 32%N).
      rewrite IH by lia.
      destruct (decide (P 32%N)); [contradiction|]. reflexivity. }
  apply (Hlen (length s)). lia.
Qed.

Lemma digitsOnly_digits (value : Js.str) :
  Forall (fun c => Js.isDigit c = true) (digitsOnly value).
Proof. apply (StringFacts.Forall_filter_keeps (fun c => Js.isDigit c = true)). Qed.

Lemma cleaned_digits (value : Js.str) :
  Forall (fun c => Js.isDigit c = true) (take 16 (digitsOnly value))
  /\ length (take 16 (digitsOnly value)) <= 16.
Proof.
  split; [apply Forall_take, digitsOnly_digits | rewrite length_take; lia].
Qed.

Lemma stripWhite_formatted (digits : list N) :
  Forall (fun c => Js.isDigit c = true) digits ->
  Js.stripWhite (Js.trim (spaceAfterFour digits)) = digits.
Proof.
  intros Hd. unfold Js.stripWhite.
  rewrite (StringFacts.filter_trim (fun c => Js.isWhite c = false)) by auto.
  rewrite (filter_spaceAfterFour (fun c => Js.isWhite c = false)) by discriminate.
  apply (StringFacts.filter_all (fun c => Js.isWhite c = false)).
  eapply Forall_impl; [exact Hd|]. apply digit_not_white.
Qed.

Lemma digitsOnly_formatted (digits : list N) :
  Forall (fun c => Js.isDigit c = true) digits ->
  digitsOnly (Js.trim (spaceAfterFour digits)) = digits.
Proof.
  intros Hd. unfold digitsOnly.
  rewrite (StringFacts.filter_trim (fun c => Js.isDigit c = true))
    by apply digit_not_white.
  rewrite (filter_spaceAfterFour (fun c => Js.isDigit c = true)) by discriminate.
  apply (StringFacts.filter_all (fun c => Js.isDigit c = true)). exact Hd.
Qed.

Ltac use_digits :=
  repeat match goal with
         | H : Js.isDigit ?x = true |- context [Js.isDigit ?x] => rewrite H
         | H : Js.isDigit ?x = true |- context [Js.isWhite ?x] =>
             rewrite (digit_not_white x H)
         end.

Lemma wellFormed_formatted (digits : list N) :
  Forall (fun c => Js.isDigit c = true) digits ->
  length digits <= 16 ->
  Forms.wellFormedCard (Js.trim (spaceAfterFour digits)) = true.
Proof.
  intros Hd Hl.
  do 17 (destruct digits as [|? digits];
         [ repeat match goal with
                  | H : Forall _ (_ :: _) |- _ => inversion H; subst; clear H
                  end;
           unfold Js.trim, Js.trimEnd, Forms.wellFormedCard;
           repeat (cbn [spaceAfterFour Js.trimStart rev app andb Forms.cardGroups];
                   use_digits;
                   change (Js.isWhite 32) with true;
                   change (32 =? 32)%N with true);
           reflexivity
         | ]).
  simpl in Hl. lia.
Qed.

Lemma cardGroups_length (groups : nat) (s : Js.str) :
  Forms.cardGroups groups s = true -> S (length s) <= 5 * groups.
Proof.
  revert s. induction groups as [|g IH]; intros s; simpl; [discriminate|].
  destruct s as [|a [|b [|c [|d [|sp rest]]]]]; simpl; try lia; try discriminate.
  rewrite !andb_true_iff. intros (_ & Hr). apply IH in Hr. lia.
Qed.

(** X15: The card input keeps the first 16 digits typed and nothing else: the
    formatted number without its spaces is those digits, it is made of up to
    four groups of four digits with single spaces between them, at most 19
    characters long, and formatting it again changes nothing. *)
Theorem card_number_formatted (typed : Js.str) :
  Js.stripWhite (formatCardNumber typed) = take 16 (digitsOnly typed)
  /\ Forms.wellFormedCard (formatCardNumber typed) = true
  /\ length (formatCardNumber typed) <= 19
  /\ formatCardNumber (formatCardNumber typed) = formatCardNumber typed.
Proof.
  destruct (cleaned_digits typed) as [Hd Hl].
  assert (Hw : Forms.wellFormedCard (formatCardNumber typed) = true)
    by (apply wellFormed_formatted; assumption).
  split; [apply stripWhite_formatted; exact Hd|]. split; [exact Hw|]. split.
  - unfold Forms.wellFormedCard in Hw.
    destruct (formatCardNumber typed) as [|a s] eqn:E; [simpl; lia|].
    apply cardGroups_length in Hw. lia.
  - unfold formatCardNumber at 1. cbv zeta.
    fold (formatCardNumber typed). unfold formatCardNumber at 1. cbv zeta.
    rewrite (digitsOnly_formatted _ Hd).
    rewrite take_ge by exact Hl. reflexivity.
Qed.

(** X16: The CVV input keeps the first four digits typed: its value is digits
    only, as many as were typed up to four, and formatting it again changes
    nothing. *)
Theorem cvv_formatted (typed : Js.str) :
  Forall (fun c => Js.isDigit c = true) (formatCVV typed)
  /\ length (formatCVV typed) = Nat.min 4 (length (digitsOnly typed))
  /\ formatCVV (formatCVV typed) = formatCVV typed.
Proof.
  assert (Hd : Forall (fun c => Js.isDigit c = true) (formatCVV typed))
    by (apply Forall_take, digitsOnly_digits).
  split; [exact Hd|]. split.
  - unfold formatCVV. apply length_take.
  - unfold formatCVV at 1. unfold digitsOnly.
    rewrite (StringFacts.filter_all (fun c => Js.isDigit c = true) _ Hd).
    unfold formatCVV. rewrite take_take. f_equal.
Qed.

(** X17: After the user has typed [card] into the card input and [code] into the
    CVV input, the payment guard passes exactly when [card] holds at least 13
    digits, [code] holds at least 3, and the other fields are filled as the
    guard asks. *)
Theorem typed_card_passes_guard (m : Machine) (card code : Js.str) :
  let pd := onChange (onChange (paymentDetails m) cardNumberF card) cvvF code in
  BookingFlow.validatePaymentDetails (BookingFlow.setPaymentDetails pd m) = true <->
  13 <= length (digitsOnly card)
  /\ 3 <= length (digitsOnly code)
  /\ expiryMonth (paymentDetails m) <> []
  /\ expiryYear (paymentDetails m) <> []
  /\ Js.blank (cardholderName (paymentDetails m)) = false
  /\ Js.blank (street (billingAddress (paymentDetails m))) = false
  /\ Js.blank (city (billingAddress (paymentDetails m))) = false
  /\ Js.blank (state (billingAddress (paymentDetails m))) = false
  /\ Js.blank (zipCode (billingAddress (paymentDetails m))) = false
  /\ country (billingAddress (paymentDetails m)) <> [].
Proof.
  intros pd. subst pd. unfold BookingFlow.validatePaymentDetails.
  cbn [onChange handleChange BookingFlow.setPaymentDetails paymentDetails cardNumber
       expiryMonth expiryYear cvv cardholderName billingAddress].
  destruct (cleaned_digits card) as [Hd _].
  unfold formatCardNumber. cbv zeta. rewrite (stripWhite_formatted _ Hd).
  rewrite !andb_true_iff, !WorkflowFacts.leb_nat_true, !WorkflowFacts.truthy_true,
    !WorkflowFacts.blank_false, !WorkflowFacts.truthy_true.
  unfold formatCVV. rewrite !length_take. split.
  - intros H. repeat split; try tauto; lia.
  - intros H. repeat split; try tauto; lia.
Qed.

End PaymentFormFacts.

(** ** The display of a duration *)

Module DisplayFacts.

Import Display.

Lemma digitRun_digits (ds rest : list N) :
  Forall (fun c => Js.isDigit c = true) ds ->
  (forall c, head rest = Some c -> Js.isDigit c = false) ->
  digitRun (ds ++ rest) = (ds, rest).
Proof.
  intros Hd Hr. induction Hd as [|d ds Hdig _ IH]; simpl.
  - destruct rest as [|c rest]; [reflexivity|]. simpl.
    rewrite (Hr c eq_refl). reflexivity.
  - rewrite Hdig, IH. reflexivity.
Qed.

Lemma unitGroup_takes (unit : N) (ds rest : list N) :
  ds <> [] -> Forall (fun c => Js.isDigit c = true) ds ->
  Js.isDigit unit = false ->
  unitGroup unit (ds ++ unit :: rest) = Some (ds, rest).
Proof.
  intros Hne Hd Hu. unfold unitGroup.
  rewrite digitRun_digits; [|exact Hd|intros c [= <-]; exact Hu].
  destruct ds as [|d ds]; [congruence|]. rewrite N.eqb_refl. reflexivity.
Qed.

Lemma unitGroup_skips (unit : N) (ds rest : list N) :
  Forall (fun c => Js.isDigit c = true) ds ->
  (forall c, head rest = Some c -> Js.isDigit c = false /\ c <> unit) ->
  unitGroup unit (ds ++ rest) = None.
Proof.
  intros Hd Hr. unfold unitGroup.
  rewrite digitRun_digits; [|exact Hd|intros c Hc; apply (Hr c Hc)].
  destruct ds as [|d ds]; [reflexivity|].
  destruct rest as [|u rest]; [reflexivity|].
  destruct (Hr u eq_refl) as [_ Hu].
  apply N.eqb_neq in Hu. rewrite Hu. reflexivity.
Qed.

Lemma afterPT_occurs (s r : list N) :
  afterPT s = Some r -> exists a, s = a ++ Js.lit "PT" ++ r.
Proof.
  revert r. induction s as [|c s IH]; intros r; simpl; [discriminate|].
  destruct s as [|d s']; [discriminate|].
  destruct ((c =? 80)%N && (d =? 84)%N) eqn:E.
  - apply andb_true_iff in E as [E1 E2]. apply N.eqb_eq in E1, E2. subst.
    intros [= <-]. exists []. reflexivity.
  - intros H. apply IH in H as (a & ->). exists (c :: a). reflexivity.
Qed.

Lemma trim_digits_then (ds tail : list N) (z : N) :
  ds <> [] -> Forall (fun c => Js.isDigit c = true) ds ->
  Js.isWhite z = false ->
  Js.trim (ds ++ tail ++ [z]) = ds ++ tail ++ [z].
Proof.
  intros Hne Hd Hz. apply StringFacts.trim_fixed.
  - destruct ds as [|d ds]; [congruence|]. simpl. intros c [= <-].
    inversion Hd; subst. apply PaymentFormFacts.digit_not_white. assumption.
  - intros c. rewrite !app_assoc, last_snoc. intros [= <-]. exact Hz.
Qed.

(** X18: An ISO-8601 duration of hours and minutes is shown as "<h>h <m>m", one
    of hours only as "<h>h", one of minutes only as "<m>m". *)
Theorem formatDuration_hours_minutes (h m : Js.str) :
  h <> [] -> m <> [] ->
  Forall (fun c => Js.isDigit c = true) h ->
  Forall (fun c => Js.isDigit c = true) m ->
  formatDuration (Js.lit "PT" ++ h ++ Js.lit "H" ++ m ++ Js.lit "M")
  = h ++ Js.lit "h " ++ m ++ Js.lit "m"
  /\ formatDuration (Js.lit "PT" ++ h ++ Js.lit "H") = h ++ Js.lit "h"
  /\ formatDuration (Js.lit "PT" ++ m ++ Js.lit "M") = m ++ Js.lit "m".
Proof.
  intros Hh Hm Hdh Hdm. unfold formatDuration.
  change (Js.lit "PT") with [80%N; 84%N]. change (Js.lit "H") with [72%N].
  change (Js.lit "M") with [77%N]. change (Js.lit "h ") with [104%N; 32%N].
  change (Js.lit "h") with [104%N]. change (Js.lit "m") with [109%N].
  cbn [app afterPT N.eqb Pos.eqb andb].
  split; [|split].
  - rewrite (unitGroup_takes 72 h (m ++ [77%N]) Hh Hdh eq_refl).
    rewrite (unitGroup_takes 77 m [] Hm Hdm eq_refl).
    change (h ++ [104%N; 32%N] ++ m ++ [109%N])
      with (h ++ ([104%N; 32%N] ++ m) ++ [109%N]).
    rewrite <- app_assoc.
    change (h ++ [104%N; 32%N] ++ m ++ [109%N])
      with (h ++ ([104%N; 32%N] ++ m) ++ [109%N]).
    apply trim_digits_then; auto.
  - rewrite (unitGroup_takes 72 h [] Hh Hdh eq_refl).
    change (unitGroup 77 []) with (@None (Js.str * Js.str)).
    rewrite app_nil_r. unfold Js.trim.
    rewrite StringFacts.trimStart_fixed.
    + change (h ++ [104%N; 32%N]) with (h ++ [104%N] ++ [32%N]).
      rewrite app_assoc, StringFacts.trimEnd_snoc_white by reflexivity.
      apply StringFacts.trimEnd_fixed. intros c. rewrite last_snoc.
      intros [= <-]. reflexivity.
    + destruct h as [|d h']; [congruence|]. simpl. intros c [= <-].
      inversion Hdh; subst. apply PaymentFormFacts.digit_not_white. assumption.
  - rewrite (unitGroup_skips 72 m [77%N] Hdm).
    + rewrite (unitGroup_takes 77 m [] Hm Hdm eq_refl).
      change (([] : Js.str) ++ m ++ [109%N]) with (m ++ [] ++ [109%N]).
      apply trim_digits_then; auto.
    + intros c [= <-]. split; [reflexivity | discriminate].
Qed.

(** The duration of two hours and thirty minutes. *)
Lemma formatDuration_hours_minutes_witness :
  formatDuration (Js.lit "PT2H30M") = Js.lit "2h 30m".
Proof.
  apply (formatDuration_hours_minutes (Js.lit "2") (Js.lit "30")).
  - discriminate.
  - discriminate.
  - repeat constructor.
  - repeat constructor.
Defined.

(** X19: A string in which "PT" does not occur is shown as it is (so a duration
    with a day part, like "P1DT2H", is not formatted), and a duration whose
    time part holds neither hours nor minutes, like "PT30S", is shown as the
    empty string. *)
Theorem formatDuration_unformatted (s digits rest : Js.str) :
  ((forall a b, s <> a ++ Js.lit "PT" ++ b) -> formatDuration s = s)
  /\ (Forall (fun c => Js.isDigit c = true) digits ->
      (forall c, head rest = Some c ->
         Js.isDigit c = false /\ c <> 72%N /\ c <> 77%N) ->
      formatDuration (Js.lit "PT" ++ digits ++ rest) = []).
Proof.
  split.
  - intros Hno. unfold formatDuration.
    destruct (afterPT s) as [r|] eqn:E; [|reflexivity].
    apply afterPT_occurs in E as (a & ->). exfalso. exact (Hno a r eq_refl).
  - intros Hd Hr. unfold formatDuration.
    change (Js.lit "PT") with [80%N; 84%N].
    cbn [app afterPT N.eqb Pos.eqb andb].
    rewrite (unitGroup_skips 72 digits rest Hd) by (intros c Hc; split; apply (Hr c Hc)).
    rewrite (unitGroup_skips 77 digits rest Hd) by (intros c Hc; split; apply (Hr c Hc)).
    reflexivity.
Qed.

End DisplayFacts.

(** ** What the workflow keeps *)

Module InvariantFacts.

Import BookingFlow Invariant.

Lemma showsStep_true (s : BookingStep) (m : Machine) :
  showsStep s m = true -> currentStep m = s.
Proof.
  unfold showsStep. rewrite andb_true_iff, bool_decide_eq_true. tauto.
Qed.

Lemma validate_same_data (m m' : Machine) :
  bookingData m' = bookingData m ->
  validatePassengerDetails m' = validatePassengerDetails m.
Proof. unfold validatePassengerDetails. intros ->. reflexivity. Qed.

Lemma holds_init (props : Props) : holds props (init props).
Proof.
  apply Build_holds; simpl.
  - rewrite length_map, length_seq. reflexivity.
  - unfold contactOf. simpl. destruct (passengerCount props); reflexivity.
  - split; [discriminate | reflexivity].
  - discriminate.
  - discriminate.
  - constructor.
  - discriminate.
Qed.

(** A change of step between the first three steps, with the data, the
    confirmation and the waiting calls left alone. *)
Lemma holds_moved (props : Props) (m m' : Machine) :
  holds props m ->
  bookingData m' = bookingData m ->
  confirmation m' = confirmation m ->
  inFlight m' = inFlight m ->
  currentStep m <> Confirmation ->
  currentStep m' <> Confirmation ->
  (currentStep m' = Payment -> validatePassengerDetails m = true) ->
  holds props m'.
Proof.
  intros Hm Hb Hc Hq Hs Hs' Hp. destruct Hm.
  apply Build_holds; rewrite ?Hb, ?Hc, ?Hq.
  - assumption.
  - assumption.
  - split; [intros _; exact Hs' | intros _; apply confirmed_at_end0; exact Hs].
  - intros E. contradiction.
  - intros E. rewrite (validate_same_data m m' Hb). auto.
  - assumption.
  - assumption.
Qed.

Lemma holds_updated (props : Props) (m : Machine) (index : nat) (p : Passenger) :
  holds props m ->
  currentStep m = PassengerDetails ->
  index < length (passengers (bookingData m)) ->
  holds props (handlePassengerUpdate index p m).
Proof.
  intros Hm Hs Hi. destruct Hm. unfold handlePassengerUpdate.
  destruct index as [|i]; cbn [Nat.eqb]; apply Build_holds; cbn.
  - rewrite length_insert. assumption.
  - unfold contactOf. rewrite list_lookup_insert_eq by exact Hi. reflexivity.
  - assumption.
  - rewrite Hs. discriminate.
  - rewrite Hs. discriminate.
  - assumption.
  - assumption.
  - rewrite length_insert. assumption.
  - unfold contactOf in *. rewrite list_lookup_insert_ne by discriminate.
    assumption.
  - assumption.
  - rewrite Hs. discriminate.
  - rewrite Hs. discriminate.
  - assumption.
  - assumption.
Qed.

Lemma holds_started (props : Props) (m : Machine) :
  holds props m ->
  currentStep m = Payment ->
  holds props (processBooking_start m).
Proof.
  intros Hm Hs. destruct Hm. apply Build_holds; cbn.
  - assumption.
  - assumption.
  - assumption.
  - rewrite Hs. discriminate.
  - assumption.
  - apply Forall_app. split; [assumption|]. constructor; [|constructor].
    specialize (filled_at_payment0 Hs). unfold validatePassengerDetails in *.
    rewrite !andb_true_iff in filled_at_payment0. unfold filled. tauto.
  - assumption.
Qed.

Lemma holds_settled (e : Env) (props : Props) (o : Settlement) (m : Machine) :
  (inFlight m = [] \/ exists captured, inFlight m = [captured]) ->
  holds props m ->
  holds props (processBooking_settle e props o m).
Proof.
  intros Hq Hm. unfold processBooking_settle.
  destruct Hq as [Hq | (captured & Hq)]; rewrite Hq; [exact Hm|].
  destruct Hm.
  assert (Hcap : filled captured).
  { rewrite Hq in waiting_filled0. inversion waiting_filled0; assumption. }
  assert (Hstep : currentStep m <> Confirmation).
  { intros E. apply none_waiting_at_end0 in E. congruence. }
  destruct (match o with
            | Fulfilled r1 r2 iso => buildConfirmation e props captured r1 r2 iso
            | Rejected => None
            end) as [c|] eqn:Hres.
  - assert (Hc : bc_passengers c = captured /\ status c = confirmed
                 /\ totalAmount c = total (price (selectedFlight props))).
    { destruct o as [r1 r2 iso|]; [|discriminate].
      unfold buildConfirmation in Hres.
      destruct (itineraries (selectedFlight props)) as [|it ?]; [discriminate|].
      destruct (segments it) as [|sg ?]; [discriminate|].
      injection Hres as <-. auto. }
    apply Build_holds; cbn.
    + assumption.
    + assumption.
    + split; [discriminate | intros H; exfalso; apply H; reflexivity].
    + reflexivity.
    + discriminate.
    + constructor.
    + intros c' [= <-]. destruct Hc as (-> & ? & ?). auto.
  - apply Build_holds; cbn.
    + assumption.
    + assumption.
    + assumption.
    + intros E. contradiction.
    + assumption.
    + constructor.
    + assumption.
Qed.

Lemma holds_dispatch (e : Env) (props : Props) (ev : Event) (m : Machine) :
  reachable e props m -> holds props m -> holds props (dispatch e props ev m).
Proof.
  intros Hr Hm. unfold dispatch. destruct ev.
  - destruct (showsStep FlightSelected m) eqn:Hs; [|exact Hm].
    apply showsStep_true in Hs. unfold handleStepNavigation. rewrite Hs.
    apply (holds_moved props m); auto; cbn; congruence.
  - destruct (showsStep PassengerDetails m
              && (index <? length (passengers (bookingData m)))%nat) eqn:Hc;
      [|exact Hm].
    apply andb_true_iff in Hc as [Hs Hi].
    apply showsStep_true in Hs. apply Nat.ltb_lt in Hi.
    apply holds_updated; assumption.
  - destruct (showsStep PassengerDetails m) eqn:Hs; [|exact Hm].
    apply showsStep_true in Hs.
    apply (holds_moved props m); auto; cbn; congruence.
  - destruct (showsStep PassengerDetails m && validatePassengerDetails m) eqn:Hc;
      [|exact Hm].
    apply andb_true_iff in Hc as [Hs Hv]. apply showsStep_true in Hs.
    unfold handleStepNavigation. rewrite Hs, Hv.
    apply (holds_moved props m); auto; cbn; congruence.
  - destruct (showsStep PassengerDetails m || showsStep Payment m) eqn:Hc;
      [|exact Hm].
    apply orb_true_iff in Hc as [Hs | Hs]; apply showsStep_true in Hs;
      unfold handleBack; rewrite Hs;
      apply (holds_moved props m); auto; cbn; congruence.
  - destruct (showsStep Payment m) eqn:Hs; [|exact Hm].
    apply showsStep_true in Hs.
    apply (holds_moved props m); auto; cbn; try congruence.
    intros _. apply (filled_at_payment props m Hm Hs).
  - destruct (showsStep Payment m && validatePaymentDetails m
              && negb (isProcessing m)) eqn:Hc; [|exact Hm].
    apply andb_true_iff in Hc as [Hc _]. apply andb_true_iff in Hc as [Hs Hv].
    apply showsStep_true in Hs.
    unfold handleStepNavigation. rewrite Hs, Hv.
    apply holds_started; assumption.
  - apply holds_settled; [|exact Hm].
    destruct (WorkflowFacts.reachable_inFlight e props m Hr)
      as [[Hq _] | (captured & Hq & _)]; eauto.
Qed.

Lemma reachable_holds (e : Env) (props : Props) (m : Machine) :
  reachable e props m -> holds props m.
Proof.
  induction 1 as [|m ev Hr IH]; [apply holds_init | apply holds_dispatch; assumption].
Qed.

(** The reachable sample state used by the witnesses below. *)
Lemma reachable_run (e : Env) (props : Props) (evs : list Event) (m : Machine) :
  reachable e props m -> reachable e props (run e props evs m).
Proof.
  revert m. induction evs as [|ev evs IH]; intros m Hm; [exact Hm|].
  simpl. apply IH. constructor. exact Hm.
Defined.

(** X20: The number of passengers never changes: in every state a user can
    reach, the passenger sequence has the length asked for at the start. *)
Theorem passenger_count_fixed (e : Env) (props : Props) (m : Machine) :
  reachable e props m ->
  length (passengers (bookingData m)) = passengerCount props.
Proof. intros Hr. apply (count_fixed props m (reachable_holds e props m Hr)). Qed.

Lemma passenger_count_fixed_witness :
  length (passengers (bookingData
            (run Sample.env Sample.props Sample.backDuringSubmission
               (init Sample.props)))) = 1.
Proof.
  apply (passenger_count_fixed Sample.env Sample.props).
  apply reachable_run. constructor.
Defined.

(** X21: The contact info always mirrors the primary passenger: in every state a
    user can reach it is the email and phone of passenger 0 (the empty string
    for an absent one). *)
Theorem contact_mirrors_primary (e : Env) (props : Props) (m : Machine) :
  reachable e props m ->
  contactInfo (bookingData m)
  = match passengers (bookingData m) !! 0 with
    | Some p => {| contactEmail := orEmpty (email p);
                   contactPhone := orEmpty (phone p) |}
    | None => {| contactEmail := []; contactPhone := [] |}
    end.
Proof. intros Hr. apply (contact_mirrors props m (reachable_holds e props m Hr)). Qed.

Lemma contact_mirrors_primary_witness :
  contactInfo (bookingData
     (run Sample.env Sample.props Sample.backDuringSubmission (init Sample.props)))
  = {| contactEmail := Js.lit "john@x.com"; contactPhone := Js.lit "+1-555-123-4567" |}.
Proof.
  apply (contact_mirrors_primary Sample.env Sample.props).
  apply reachable_run. constructor.
Defined.

(** X22: The confirmation is terminal: in every state a user can reach, the step
    is 'confirmation' exactly when a confirmation exists, and then no
    control and no timer changes the state any more. *)
Theorem confirmation_terminal (e : Env) (props : Props) (m : Machine) :
  reachable e props m ->
  (currentStep m = Confirmation <-> confirmation m <> None)
  /\ (currentStep m = Confirmation -> forall ev, dispatch e props ev m = m).
Proof.
  intros Hr. pose proof (reachable_holds e props m Hr) as Hm.
  assert (Hiff : currentStep m = Confirmation <-> confirmation m <> None).
  { destruct (confirmed_at_end props m Hm) as [H1 H2].
    destruct (decide (currentStep m = Confirmation)) as [E|E];
      destruct (confirmation m) eqn:Ec; split; try congruence; intuition congruence. }
  split; [exact Hiff|].
  intros Hs ev.
  assert (Hshow : forall s, showsStep s m = false).
  { intros s. unfold showsStep, showsConfirmation.
    destruct (confirmation m) eqn:Ec; [|exfalso; apply Hiff in Hs; congruence].
    rewrite bool_decide_eq_true_2 by exact Hs. reflexivity. }
  unfold dispatch. destruct ev; rewrite ?Hshow; try reflexivity.
  unfold processBooking_settle.
  rewrite (none_waiting_at_end props m Hm Hs). reflexivity.
Qed.

Lemma confirmation_terminal_witness :
  dispatch Sample.env Sample.props ClickBack Sample2.done = Sample2.done.
Proof.
  assert (Hr : reachable Sample.env Sample.props Sample2.done).
  { change Sample2.done
      with (run Sample.env Sample.props
              [ClickContinue; EditPassenger 0 Sample.john; ClickContinueToPayment;
               EditPayment Sample.card; ClickCompleteBooking;
               Settle (Fulfilled Sample.random Sample.random Sample.isoNow)]
              (init Sample.props)).
    apply reachable_run. constructor. }
  apply (confirmation_terminal Sample.env Sample.props Sample2.done Hr).
  reflexivity.
Defined.

End InvariantFacts.

(** ** Submissions, steps and forms *)

Module FlowFacts.

Import BookingFlow Invariant.

(** X23: At most one submission is ever under way: in every state a user can
    reach, either no call of [processBooking] is waiting and the processing
    flag is down, or exactly one is waiting and the flag is up. *)
Theorem single_submission (e : Env) (props : Props) (m : Machine) :
  reachable e props m ->
  (inFlight m = [] /\ isProcessing m = false)
  \/ (exists captured, inFlight m = [captured] /\ isProcessing m = true).
Proof. apply WorkflowFacts.reachable_inFlight. Qed.

Lemma single_submission_witness :
  (inFlight (run Sample.env Sample.props Sample.backDuringSubmission (init Sample.props))
   = []
   /\ isProcessing (run Sample.env Sample.props Sample.backDuringSubmission
                      (init Sample.props)) = false)
  \/ (exists captured,
        inFlight (run Sample.env Sample.props Sample.backDuringSubmission
                    (init Sample.props)) = [captured]
        /\ isProcessing (run Sample.env Sample.props Sample.backDuringSubmission
                           (init Sample.props)) = true).
Proof.
  apply (single_submission Sample.env Sample.props).
  apply InvariantFacts.reachable_run. constructor.
Defined.

(** X24: Whatever the user does while the submission is under way, the
    passengers of a confirmation passed the guard of the passenger step, its
    status is 'confirmed' and its total is the total price of the offer. *)
Theorem confirmed_passengers_filled (e : Env) (props : Props) (m : Machine)
    (c : BookingConfirmation) :
  reachable e props m ->
  confirmation m = Some c ->
  forallb passengerFilled (bc_passengers c) = true
  /\ status c = confirmed
  /\ totalAmount c = total (price (selectedFlight props)).
Proof.
  intros Hr Hc.
  apply (confirmed_filled props m (InvariantFacts.reachable_holds e props m Hr) c Hc).
Qed.

Lemma confirmed_passengers_filled_witness :
  exists c, confirmation Sample2.done = Some c
            /\ forallb passengerFilled (bc_passengers c) = true
            /\ status c = confirmed
            /\ totalAmount c = Js.lit "450.00".
Proof.
  eexists. split; [vm_compute; reflexivity|].
  apply (confirmed_passengers_filled Sample.env Sample.props Sample2.done).
  - change Sample2.done
      with (run Sample.env Sample.props
              [ClickContinue; EditPassenger 0 Sample.john; ClickContinueToPayment;
               EditPayment Sample.card; ClickCompleteBooking;
               Settle (Fulfilled Sample.random Sample.random Sample.isoNow)]
              (init Sample.props)).
    apply InvariantFacts.reachable_run. constructor.
  - vm_compute. reflexivity.
Defined.

(** X25: On the payment step the passenger details are always complete: in every
    state a user can reach with current step 'payment', the guard of the
    passenger step holds. *)
Theorem payment_step_passengers_filled (e : Env) (props : Props) (m : Machine) :
  reachable e props m ->
  currentStep m = Payment ->
  validatePassengerDetails m = true.
Proof.
  intros Hr. apply (filled_at_payment props m (InvariantFacts.reachable_holds e props m Hr)).
Qed.

Lemma payment_step_passengers_filled_witness :
  validatePassengerDetails
    (run Sample.env Sample.props
       [ClickContinue; EditPassenger 0 Sample.john; ClickContinueToPayment]
       (init Sample.props)) = true.
Proof.
  apply (payment_step_passengers_filled Sample.env Sample.props).
  - apply InvariantFacts.reachable_run. constructor.
  - reflexivity.
Defined.

(** X26: Going back loses nothing: from 'passenger-details', Back and then
    Continue gives the state back; from 'payment' with complete passenger
    details, Back and then Continue to Payment gives the state back. *)
Theorem back_then_advance_restores (m : Machine) :
  (currentStep m = PassengerDetails ->
   handleStepNavigation PassengerDetails (handleBack m) = m)
  /\ (currentStep m = Payment ->
      validatePassengerDetails m = true ->
      handleStepNavigation Payment (handleBack m) = m).
Proof.
  split.
  - intros Hs. unfold handleBack. rewrite Hs.
    unfold handleStepNavigation. cbn [currentStep setCurrentStep].
    destruct m. simpl in *. subst. reflexivity.
  - intros Hs Hv. unfold handleBack. rewrite Hs.
    unfold handleStepNavigation. cbn [currentStep setCurrentStep].
    rewrite (InvariantFacts.validate_same_data m (setCurrentStep PassengerDetails m) eq_refl).
    rewrite Hv. destruct m. simpl in *. subst. reflexivity.
Qed.

(** X27: No control skips a step: every click or edit, that is every event other
    than the settling of a submission, leaves the current step where it is or
    moves it to a neighbouring step. *)
Theorem controls_move_one_step (e : Env) (props : Props) (ev : Event) (m : Machine) :
  (forall o, ev <> Settle o) ->
  (Z.abs (position (currentStep (dispatch e props ev m)) - position (currentStep m))
   <= 1)%Z.
Proof. apply WorkflowFacts.dispatch_moves_one. Qed.

Lemma controls_move_one_step_witness :
  (Z.abs (position (currentStep
                      (dispatch Sample.env Sample.props ClickBack Sample.submitting))
          - position (currentStep Sample.submitting)) <= 1)%Z.
Proof.
  apply (controls_move_one_step Sample.env Sample.props ClickBack Sample.submitting).
  intros o. discriminate.
Defined.

(** *** The forms *)

Lemma act_reachable (e : Env) (props : Props) (a : Forms.Action) (m : Machine) :
  reachable e props m -> reachable e props (Forms.act e props a m).
Proof.
  intros Hr. unfold Forms.act. destruct a; try (constructor; exact Hr).
  destruct (passengers (bookingData m) !! index); [|exact Hr].
  destruct (PassengerForm.rendered index field); [constructor|]; exact Hr.
Qed.

Lemma formReachable_reachable (e : Env) (props : Props) (m : Machine) :
  Forms.formReachable e props m -> reachable e props m.
Proof.
  induction 1 as [|m a _ IH]; [constructor | apply act_reachable; exact IH].
Qed.

Lemma perform_formReachable (e : Env) (props : Props) (acts : list Forms.Action)
    (m : Machine) :
  Forms.formReachable e props m ->
  Forms.formReachable e props (Forms.perform e props acts m).
Proof.
  revert m. induction acts as [|a acts IH]; intros m Hm; [exact Hm|].
  simpl. apply IH. constructor. exact Hm.
Defined.

Lemma formed_init (props : Props) : formed (init props).
Proof.
  apply Build_formed; simpl.
  - intros i p Hp. rewrite list_lookup_fmap in Hp.
    destruct (seq 0 (passengerCount props) !! i) as [k|] eqn:Hk; [|discriminate].
    apply lookup_seq in Hk as [-> _]. injection Hp as <-. simpl.
    destruct i; simpl; intuition congruence.
  - reflexivity.
  - split; [constructor | lia].
Qed.

(** A step that leaves the passengers, the card number and the CVV alone. *)
Lemma formed_same (m m' : Machine) :
  formed m ->
  passengers (bookingData m') = passengers (bookingData m) ->
  cardNumber (paymentDetails m') = cardNumber (paymentDetails m) ->
  cvv (paymentDetails m') = cvv (paymentDetails m) ->
  formed m'.
Proof.
  intros [] Hp Hc Hv. apply Build_formed; rewrite ?Hp, ?Hc, ?Hv; assumption.
Qed.

Lemma handler_same_passengers (n : BookingStep) (m : Machine) :
  bookingData (handleStepNavigation n m) = bookingData m
  /\ paymentDetails (handleStepNavigation n m) = paymentDetails m
  /\ bookingData (handleBack m) = bookingData m
  /\ paymentDetails (handleBack m) = paymentDetails m.
Proof.
  destruct (WorkflowFacts.handleStepNavigation_frame n m) as (? & ? & _).
  repeat split; try assumption; unfold handleBack; destruct (currentStep m); reflexivity.
Qed.

Lemma settle_same_passengers (e : Env) (props : Props) (o : Settlement) (m : Machine) :
  bookingData (processBooking_settle e props o m) = bookingData m
  /\ paymentDetails (processBooking_settle e props o m) = paymentDetails m.
Proof.
  unfold processBooking_settle. destruct (inFlight m); [split; reflexivity|].
  destruct (match o with
            | Fulfilled r1 r2 iso => buildConfirmation e props l r1 r2 iso
            | Rejected => None
            end); split; reflexivity.
Qed.

Lemma formed_act (e : Env) (props : Props) (a : Forms.Action) (m : Machine) :
  formed m -> formed (Forms.act e props a m).
Proof.
  intros Hm. unfold Forms.act, dispatch. destruct a.
  - destruct (passengers (bookingData m) !! index) as [p|] eqn:Hp; [|exact Hm].
    destruct (PassengerForm.rendered index field) eqn:Hre; [|exact Hm].
    destruct (showsStep PassengerDetails m
              && (index <? length (passengers (bookingData m)))%nat) eqn:Hc;
      [|exact Hm].
    apply andb_true_iff in Hc as [_ Hi]. apply Nat.ltb_lt in Hi.
    destruct Hm. apply Build_formed.
    + intros i q Hq.
      assert (Hq' : <[index := PassengerForm.handleChange p field typed]>
                      (passengers (bookingData m)) !! i = Some q).
      { revert Hq. unfold handlePassengerUpdate.
        destruct (index =? 0)%nat; simpl; auto. }
      destruct (decide (index = i)) as [->|Hne].
      * rewrite list_lookup_insert_eq in Hq' by exact Hi. injection Hq' as <-.
        destruct (slots0 i p Hp) as (Hid & Hty & Hem & Hph).
        destruct field; simpl in *; repeat split; try tauto; try congruence;
          try (apply Nat.eqb_eq in Hre; intros _; exact Hre).
      * rewrite list_lookup_insert_ne in Hq' by exact Hne. apply slots0. exact Hq'.
    + unfold handlePassengerUpdate. destruct (index =? 0)%nat; assumption.
    + unfold handlePassengerUpdate. destruct (index =? 0)%nat; assumption.
  - destruct (showsStep Payment m); [|exact Hm].
    destruct Hm. apply Build_formed.
    + exact slots0.
    + destruct field as [| | | | |f]; cbn; try assumption.
      apply (PaymentFormFacts.wellFormed_formatted _
               (proj1 (PaymentFormFacts.cleaned_digits typed))
               (proj2 (PaymentFormFacts.cleaned_digits typed))).
    + destruct field as [| | | | |f]; cbn; try assumption.
      split; [apply Forall_take, PaymentFormFacts.digitsOnly_digits|].
      unfold PaymentForm.formatCVV. rewrite length_take. lia.
  - destruct (showsStep PassengerDetails m); [|exact Hm].
    apply (formed_same m); auto.
  - destruct (showsStep FlightSelected m); [|exact Hm].
    destruct (handler_same_passengers PassengerDetails m) as (Hb & Hp & _).
    apply (formed_same m); auto; rewrite ?Hb, ?Hp; reflexivity.
  - destruct (_ && _); [|exact Hm].
    destruct (handler_same_passengers Payment m) as (Hb & Hp & _).
    apply (formed_same m); auto; rewrite ?Hb, ?Hp; reflexivity.
  - destruct (_ || _); [|exact Hm].
    destruct (handler_same_passengers Payment m) as (_ & _ & Hb & Hp).
    apply (formed_same m); auto; rewrite ?Hb, ?Hp; reflexivity.
  - destruct (_ && _); [|exact Hm].
    destruct (handler_same_passengers Confirmation m) as (Hb & Hp & _).
    apply (formed_same m); auto; rewrite ?Hb, ?Hp; reflexivity.
  - destruct (settle_same_passengers e props o m) as (Hb & Hp).
    apply (formed_same m); auto; rewrite ?Hb, ?Hp; reflexivity.
Qed.

Lemma formReachable_formed (e : Env) (props : Props) (m : Machine) :
  Forms.formReachable e props m -> formed m.
Proof.
  induction 1 as [|m a _ IH]; [apply formed_init | apply formed_act; exact IH].
Qed.

Lemma lit_inj (a b : string) : Js.lit a = Js.lit b -> a = b.
Proof.
  unfold Js.lit. intros H.
  rewrite <- (string_of_list_ascii_of_string a), <- (string_of_list_ascii_of_string b).
  f_equal. revert H.
  generalize (list_ascii_of_string a) (list_ascii_of_string b).
  induction l as [|x l IH]; intros [|y l']; simpl; try discriminate; [reflexivity|].
  intros [= Hxy Hl]. f_equal; [|apply IH; exact Hl].
  rewrite <- (ascii_N_embedding x), <- (ascii_N_embedding y). congruence.
Qed.

Lemma to_uint_nonnil (n : nat) : Nat.to_uint n <> Decimal.Nil.
Proof.
  rewrite <- (DecimalNat.Unsigned.of_to n) at 1.
  rewrite DecimalNat.Unsigned.to_of. apply DecimalFacts.unorm_nonnil.
Qed.

Lemma ofNat_inj (i j : nat) : Js.ofNat i = Js.ofNat j -> i = j.
Proof.
  unfold Js.ofNat. intros H. apply lit_inj in H.
  apply DecimalNat.Unsigned.to_uint_inj.
  assert (Hi := NilZero.usu (Nat.to_uint i) (to_uint_nonnil i)).
  assert (Hj := NilZero.usu (Nat.to_uint j) (to_uint_nonnil j)).
  rewrite H in Hi. congruence.
Qed.

(** X28: Through the forms every passenger keeps its slot: in every state the
    forms can bring about, the passenger at index i has the identifier
    "passenger-i" and the type 'adult', only passenger 0 carries an email and
    a phone, and two different slots have different identifiers. *)
Theorem passenger_slots_kept (e : Env) (props : Props) (m : Machine) :
  Forms.formReachable e props m ->
  (forall i p, passengers (bookingData m) !! i = Some p ->
     id p = Js.lit "passenger-" ++ Js.ofNat i
     /\ type p = adult
     /\ (email p <> None <-> i = 0)
     /\ (phone p <> None <-> i = 0))
  /\ (forall i j p q,
        passengers (bookingData m) !! i = Some p ->
        passengers (bookingData m) !! j = Some q ->
        id p = id q -> i = j).
Proof.
  intros Hr. pose proof (formReachable_formed e props m Hr) as Hf.
  split; [apply (slots m Hf)|].
  intros i j p q Hp Hq Hid.
  destruct (slots m Hf i p Hp) as (Hi & _). destruct (slots m Hf j q Hq) as (Hj & _).
  rewrite Hi, Hj in Hid. apply app_inv_head in Hid. apply ofNat_inj. exact Hid.
Qed.

Lemma passenger_slots_kept_witness :
  passengers (bookingData Sample2.booked) !! 0 = Some Sample.john
  /\ id Sample.john = Js.lit "passenger-0"
  /\ type Sample.john = adult.
Proof.
  assert (Hl : passengers (bookingData Sample2.booked) !! 0 = Some Sample.john)
    by (vm_compute; reflexivity).
  assert (Hr : Forms.formReachable Sample.env Sample.props Sample2.booked).
  { unfold Sample2.booked. apply perform_formReachable. constructor. }
  destruct (proj1 (passenger_slots_kept Sample.env Sample.props Sample2.booked Hr)
              0 Sample.john Hl) as (Hid & Hty & _).
  split; [exact Hl|]. split; [exact Hid | exact Hty].
Defined.

(** X29: Through the forms the card data stays formatted: in every state the
    forms can bring about, the card number is empty or up to four groups of
    four digits separated by single spaces (at most 19 characters), and the
    CVV is at most four digits. *)
Theorem card_data_kept_formatted (e : Env) (props : Props) (m : Machine) :
  Forms.formReachable e props m ->
  Forms.wellFormedCard (cardNumber (paymentDetails m)) = true
  /\ length (cardNumber (paymentDetails m)) <= 19
  /\ Forall (fun c => Js.isDigit c = true) (cvv (paymentDetails m))
  /\ length (cvv (paymentDetails m)) <= 4.
Proof.
  intros Hr. pose proof (formReachable_formed e props m Hr) as Hf.
  pose proof (card_formatted m Hf) as Hw. destruct (cvv_digits m Hf) as [Hd Hl].
  split; [exact Hw|]. split; [|split; assumption].
  unfold Forms.wellFormedCard in Hw.
  destruct (cardNumber (paymentDetails m)) as [|a s]; [simpl; lia|].
  apply PaymentFormFacts.cardGroups_length in Hw. lia.
Qed.

Lemma card_data_kept_formatted_witness :
  Forms.wellFormedCard (cardNumber (paymentDetails Sample2.booked)) = true
  /\ length (cardNumber (paymentDetails Sample2.booked)) <= 19
  /\ Forall (fun c => Js.isDigit c = true) (cvv (paymentDetails Sample2.booked))
  /\ length (cvv (paymentDetails Sample2.booked)) <= 4.
Proof.
  apply (card_data_kept_formatted Sample.env Sample.props Sample2.booked).
  unfold Sample2.booked. apply perform_formReachable. constructor.
Defined.

End FlowFacts.

(** ** Emails, phones and the confirmation number *)

Module ShapeFacts.

Import BookingFlow.

Lemma no_at (l : list N) :
  Forall (fun x => validationSchemas.notSpaceNorAt x = true) l ->
  filter (fun x => x = 64%N) l = [] /\ Forall (fun x => Js.isWhite x = false) l.
Proof.
  induction 1 as [|x l Hx _ [IH1 IH2]]; [split; [reflexivity | constructor]|].
  unfold validationSchemas.notSpaceNorAt in Hx.
  rewrite negb_true_iff, orb_false_iff, N.eqb_neq in Hx. destruct Hx as [Hw Hat].
  split; [|constructor; assumption].
  rewrite filter_cons. destruct (decide (x = 64%N)); [contradiction | exact IH1].
Qed.

(** X6: The email pattern accepts exactly the strings local@domain.tld whose
    three parts are not empty and hold neither white space nor "@"; so an
    accepted address has exactly one "@" and no white space. *)
Theorem email_accepts (s : Js.str) :
  (Re.test (validationSchemas.pattern validationSchemas.email) s = true <->
   exists a b c : Js.str,
     s = a ++ 64%N :: b ++ 46%N :: c
     /\ a <> [] /\ b <> [] /\ c <> []
     /\ Forall (fun x => validationSchemas.notSpaceNorAt x = true) (a ++ b ++ c))
  /\ (Re.test (validationSchemas.pattern validationSchemas.email) s = true ->
      length (filter (fun x => x = 64%N) s) = 1
      /\ Forall (fun x => Js.isWhite x = false) s).
Proof.
  split; [apply PatternFacts.email_language|].
  intros H. apply PatternFacts.email_language in H
    as (a & b & c & -> & _ & _ & _ & Hf).
  rewrite !Forall_app in Hf. destruct Hf as (Ha & Hb & Hc).
  destruct (no_at a Ha) as [Fa Wa]. destruct (no_at b Hb) as [Fb Wb].
  destruct (no_at c Hc) as [Fc Wc].
  unfold Js.str in *. split.
  - rewrite filter_app, Fa, (filter_cons _ 64%N).
    destruct (decide (64%N = 64%N)); [|congruence].
    rewrite filter_app, Fb, (filter_cons _ 46%N).
    destruct (decide (46%N = 64%N)); [discriminate|]. rewrite Fc. reflexivity.
  - apply Forall_app. split; [exact Wa|]. constructor; [reflexivity|].
    apply Forall_app. split; [exact Wb|]. constructor; [reflexivity | exact Wc].
Qed.

(** X7: The phone pattern accepts exactly an optional "+" followed by at least
    ten digits, white-space characters, hyphens or parentheses; it asks for
    no digit, so ten or more white-space characters pass. *)
Theorem phone_accepts (s : Js.str) :
  (Re.test (validationSchemas.pattern validationSchemas.phone) s = true <->
   exists body : Js.str,
     (s = body \/ s = 43%N :: body)
     /\ 10 <= length body
     /\ Forall (fun x => validationSchemas.phoneChar x = true) body)
  /\ (10 <= length s -> Forall (fun x => Js.isWhite x = true) s ->
      Re.test (validationSchemas.pattern validationSchemas.phone) s = true)
  /\ (Re.test (validationSchemas.pattern validationSchemas.phone) s = true ->
      10 <= length s).
Proof.
  split; [apply PatternFacts.phone_language|]. split.
  - intros Hl Hw. apply PatternFacts.phone_language. exists s.
    split; [left; reflexivity|]. split; [exact Hl|].
    eapply Forall_impl; [exact Hw|]. intros x Hx.
    unfold validationSchemas.phoneChar. rewrite Hx.
    rewrite orb_true_r. reflexivity.
  - intros H. apply PatternFacts.phone_language in H as (body & [-> | ->] & Hl & _);
      simpl; lia.
Qed.

Lemma token_shape (n : nat) (r : Js.str) :
  Spec.radix36Fraction r ->
  length (Js.toUpperCase (Js.substr 2 n r)) <= n
  /\ Spec.upperAlnum (Js.toUpperCase (Js.substr 2 n r)) = true
  /\ (2 + n <= length r -> length (Js.toUpperCase (Js.substr 2 n r)) = n).
Proof.
  intros Hr. unfold Js.toUpperCase at 1 3, Js.substr.
  rewrite !length_map, !length_take, !length_drop.
  split; [lia|]. split; [|lia].
  apply WorkflowFacts.upperAlnum_toUpperCase.
  destruct Hr as [-> | (ds & -> & _ & Hds)].
  - apply Forall_take. constructor.
  - apply Forall_take. exact Hds.
Qed.

(** X30: A confirmation summarises the first segment of the first itinerary of
    the offer: its confirmation number is the carrier code of that segment
    followed by at most 6 uppercase alphanumeric characters (exactly 6 when
    the random base-36 numeral has at least 6 digits after "0."), its flight
    number is carrier code and number, and its airports are those of the
    segment. *)
Theorem confirmation_summarises_first_segment (e : Env) (props : Props)
    (m : Machine) (r1 r2 iso : Js.str) (c : BookingConfirmation) :
  Spec.radix36Fraction r2 ->
  confirmation m = None ->
  confirmation (processBooking_settle e props (Fulfilled r1 r2 iso) m) = Some c ->
  exists (itinerary : Itinerary) (segment : FlightSegment) (token : Js.str),
    head (itineraries (selectedFlight props)) = Some itinerary
    /\ head (segments itinerary) = Some segment
    /\ confirmationNumber c = carrierCode segment ++ token
    /\ length token <= 6
    /\ Spec.upperAlnum token = true
    /\ (8 <= length r2 -> length token = 6)
    /\ fl_flightNumber (flightDetails c) = carrierCode segment ++ number segment
    /\ fl_from (flightDetails c) = iataCode (departure segment)
    /\ fl_to (flightDetails c) = iataCode (arrival segment)
    /\ fl_airline (flightDetails c) = carrierCode segment ++ Js.lit " Airlines".
Proof.
  intros Hr Hnone Hsome.
  destruct (WorkflowFacts.settle_creates _ _ _ _ _ Hnone Hsome)
    as (captured & rest & r1' & r2' & iso' & _ & [= <- <- <-] & Hb).
  unfold buildConfirmation in Hb.
  destruct (itineraries (selectedFlight props)) as [|it its]; [discriminate|].
  destruct (segments it) as [|sg sgs] eqn:Hsg; [discriminate|].
  injection Hb as <-.
  destruct (token_shape 6 r2 Hr) as (Hlen & Hup & Hfull).
  exists it, sg, (Js.toUpperCase (Js.substr 2 6 r2)). cbn.
  rewrite Hsg. repeat split; auto.
Qed.

Lemma confirmation_summarises_first_segment_witness :
  exists c : BookingConfirmation,
    confirmation
      (processBooking_settle Sample.env Sample.props
         (Fulfilled Sample.random Sample.random Sample.isoNow) Sample.submitting)
    = Some c
    /\ exists (itinerary : Itinerary) (segment : FlightSegment) (token : Js.str),
         head (itineraries (selectedFlight Sample.props)) = Some itinerary
         /\ head (segments itinerary) = Some segment
         /\ confirmationNumber c = carrierCode segment ++ token
         /\ length token <= 6
         /\ Spec.upperAlnum token = true
         /\ (8 <= length Sample.random -> length token = 6)
         /\ fl_flightNumber (flightDetails c) = carrierCode segment ++ number segment
         /\ fl_from (flightDetails c) = iataCode (departure segment)
         /\ fl_to (flightDetails c) = iataCode (arrival segment)
         /\ fl_airline (flightDetails c) = carrierCode segment ++ Js.lit " Airlines".
Proof.
  eexists. split; [vm_compute; reflexivity|].
  apply (confirmation_summarises_first_segment Sample.env Sample.props
           Sample.submitting Sample.random Sample.random Sample.isoNow).
  - right. exists (Js.lit "4fzyo82mvyr"). split; [reflexivity|]. split.
    + vm_compute. discriminate.
    + repeat constructor.
  - reflexivity.
  - vm_compute. reflexivity.
Defined.

End ShapeFacts.
